(** * cas-go-client: a shallow embedding of the CAS client handlers

    The development follows the three Go source files of the package:
    - [service_validate.go]: the ticket validators for CAS 1, 2 and 3 and
      their URL builders;
    - [handler.go]: the HTTP handler that detects and performs single logout;
    - [http_helpers.go]: the request-scoped client binding and the redirect
      helpers.

    Go strings are byte sequences and are modelled by [string] (a list of
    8-bit [ascii] characters).  What the package takes from Go's standard
    library ([strings], [path], [net/url], [net/http]) is modelled in the
    modules [GoStrings], [GoPath], [GoQuote], [GoURL] and [GoHTTP], after
    the behaviour of Go 1.23 and later.  The glog calls of the source only write to the
    process log and are left out. *)

From Stdlib Require Import String Ascii List Bool Arith ZArith Lia.
Import ListNotations.
Local Open Scope list_scope.
Local Open Scope string_scope.

(** ** Go values shared by the three files *)

(** A Go [error] value, identified with the text of its [Error()] method. *)
Inductive error : Type :=
| errorString (msg : string).

Definition Error (e : error) : string :=
  match e with errorString m => m end.

(** The Go idiom [(T, error)] where exactly one side is meaningful. *)
Inductive Result (A : Type) : Type :=
| OK (a : A)
| Err (e : error).
Arguments OK {A} a.
Arguments Err {A} e.

Definition bindR {A B : Type} (r : Result A) (k : A -> Result B) : Result B :=
  match r with
  | OK a => k a
  | Err e => Err e
  end.

(** The line feed character and the one-character string holding it. *)
Definition LF : ascii := ascii_of_nat 10.
Definition nl : string := String LF "".

(** ** Package [strings] *)
Module GoStrings.

(** [s[n:]], for [n <= len(s)]. *)
Fixpoint drop (n : nat) (s : string) : string :=
  match n, s with
  | O, _ => s
  | S n', String _ s' => drop n' s'
  | S _, "" => ""
  end.

Definition HasPrefix (s p : string) : bool := prefix p s.

Fixpoint HasSuffix_rev (s p : list ascii) : bool :=
  match p, s with
  | [], _ => true
  | c :: p', d :: s' => Ascii.eqb c d && HasSuffix_rev s' p'
  | _ :: _, [] => false
  end.

Definition HasSuffix (s p : string) : bool :=
  HasSuffix_rev (rev (list_ascii_of_string s)) (rev (list_ascii_of_string p)).

(** [strings.Cut]: the text before and after the first occurrence of
    [sep], and whether [sep] occurs; [(s, "", false)] when it does not. *)
Fixpoint Cut (s sep : string) : string * string * bool :=
  if prefix sep s then ("", drop (String.length sep) s, true)
  else match s with
       | "" => ("", "", false)
       | String c s' =>
           let '(before, after, found) := Cut s' sep in
           (String c before, after, found)
       end.

Definition Contains (s sub : string) : bool :=
  let '(_, _, found) := Cut s sub in found.

(** [strings.Count] for a non-empty [sep]: non-overlapping occurrences. *)
Fixpoint Count_fuel (fuel : nat) (s sep : string) : nat :=
  match fuel with
  | O => O
  | S fuel' =>
      let '(_, after, found) := Cut s sep in
      if found then S (Count_fuel fuel' after sep) else O
  end.

Definition Count (s sep : string) : nat := Count_fuel (S (String.length s)) s sep.

(** [strings.LastIndex(s, "/")], as the length of the prefix that ends
    with the last slash: [i + 1] in Go's terms, [0] when there is none. *)
Fixpoint lastSlashEnd (s : string) : nat :=
  match s with
  | "" => O
  | String c s' =>
      match lastSlashEnd s' with
      | O => if Ascii.eqb c "/" then 1 else O
      | S k => S (S k)
      end
  end.

(** [strings.Replace(s, old, new, n)] for a non-empty [old] and [n >= 0]:
    the first [n] non-overlapping occurrences of [old], from the left,
    are replaced by [new]. *)
Fixpoint Replace (s old new : string) (n : nat) : string :=
  match n with
  | O => s
  | S n' =>
      let '(before, after, found) := Cut s old in
      if found then before ++ new ++ Replace after old new n' else s
  end.

Definition ToLowerByte (c : ascii) : ascii :=
  let n := nat_of_ascii c in
  if ((65 <=? n) && (n <=? 90))%nat then ascii_of_nat (n + 32) else c.

Fixpoint ToLower (s : string) : string :=
  match s with
  | "" => ""
  | String c s' => String (ToLowerByte c) (ToLower s')
  end.

(** All bytes of [s] satisfy [p]. *)
Fixpoint all (p : ascii -> bool) (s : string) : bool :=
  match s with
  | "" => true
  | String c s' => p c && all p s'
  end.

(** [strings.Split(s, "/")]. *)
Fixpoint splitSlash (s : string) : list string :=
  match s with
  | "" => [""]
  | String c s' =>
      if Ascii.eqb c "/" then "" :: splitSlash s'
      else match splitSlash s' with
           | [] => [String c ""]
           | e :: es => String c e :: es
           end
  end.

End GoStrings.

(** ** Package [path] *)
Module GoPath.
Import GoStrings.

(** One step of [path.Clean] on the elements between slashes; [stack]
    holds the elements written so far, last one first.  Empty and [.]
    elements are dropped; [..] removes the last real element, is dropped
    at the root, and is kept in front of a path that is not rooted. *)
Definition cleanStep (rooted : bool) (stack : list string) (elem : string)
  : list string :=
  if String.eqb elem "" then stack
  else if String.eqb elem "." then stack
  else if String.eqb elem ".." then
    match stack with
    | top :: rest =>
        if String.eqb top ".." then elem :: stack else rest
    | [] => if rooted then [] else [elem]
    end
  else elem :: stack.

(** [path.Clean]. *)
Definition Clean (p : string) : string :=
  if String.eqb p "" then "."
  else
    let rooted := HasPrefix p "/" in
    let stack := fold_left (cleanStep rooted) (splitSlash p) [] in
    if rooted then "/" ++ String.concat "/" (rev stack)
    else match stack with
         | [] => "."
         | _ => String.concat "/" (rev stack)
         end.

(** [path.Join]: empty elements are ignored, the others are joined with
    slashes and the result is cleaned; the empty string when every element
    is empty. *)
Definition Join (elem : list string) : string :=
  match filter (fun e => negb (String.eqb e "")) elem with
  | [] => ""
  | es => Clean (String.concat "/" es)
  end.

(** A path element as [path.Clean] keeps it: not empty and free of
    slashes. *)
Definition keptElement (e : string) : Prop :=
  e <> "" /\ all (fun c => negb (Ascii.eqb c "/")) e = true.

End GoPath.

(** ** [strconv.Quote], which [fmt] applies for the verb [%q] *)
Module GoQuote.

Definition quoteMark : ascii := ascii_of_nat 34.
Definition backslash : ascii := ascii_of_nat 92.

Definition lowerhex (n : nat) : ascii :=
  match String.get n "0123456789abcdef" with
  | Some c => c
  | None => "0"%char
  end.

(** The two hexadecimal digits of a byte. *)
Definition hexByte (n : nat) : string :=
  String (lowerhex (n / 16)) (String (lowerhex (n mod 16)) "").

(** [appendEscapedRune] on a byte below [utf8.RuneSelf]: the quote and
    the backslash are backslashed, a printable byte is written as it is,
    and a control byte by its letter or as [\xNN]. *)
Definition quoteASCII (c : ascii) : string :=
  let n := nat_of_ascii c in
  if Ascii.eqb c quoteMark || Ascii.eqb c backslash
  then String backslash (String c "")
  else if ((32 <=? n) && (n <? 127))%nat then String c ""
  else if (n =? 7)%nat then String backslash "a"
  else if (n =? 8)%nat then String backslash "b"
  else if (n =? 12)%nat then String backslash "f"
  else if (n =? 10)%nat then String backslash "n"
  else if (n =? 13)%nat then String backslash "r"
  else if (n =? 9)%nat then String backslash "t"
  else if (n =? 11)%nat then String backslash "v"
  else String backslash ("x" ++ hexByte n).

(** The tables [first] and [acceptRanges] of package [utf8]: the length
    of the sequence that the byte [b] begins and the range of its second
    byte; [None] for a byte that begins no sequence. *)
Definition leadByte (b : nat) : option (nat * nat * nat) :=
  if ((194 <=? b) && (b <=? 223))%nat then Some (2, 128, 191)
  else if (b =? 224)%nat then Some (3, 160, 191)
  else if ((225 <=? b) && (b <=? 236))%nat then Some (3, 128, 191)
  else if (b =? 237)%nat then Some (3, 128, 159)
  else if ((238 <=? b) && (b <=? 239))%nat then Some (3, 128, 191)
  else if (b =? 240)%nat then Some (4, 144, 191)
  else if ((241 <=? b) && (b <=? 243))%nat then Some (4, 128, 191)
  else if (b =? 244)%nat then Some (4, 128, 143)
  else None.

Definition inRange (lo hi : nat) (c : ascii) : bool :=
  ((lo <=? nat_of_ascii c) && (nat_of_ascii c <=? hi))%nat.

(** [utf8.DecodeRuneInString] at the byte [c] followed by [rest]: the
    width of the rune that begins there; [None] stands for [RuneError]
    with width 1, the answer to a sequence that is not valid. *)
Definition runeWidth (c : ascii) (rest : string) : option nat :=
  match leadByte (nat_of_ascii c) with
  | None => None
  | Some (size, lo, hi) =>
      match rest with
      | String s1 rest1 =>
          if negb (inRange lo hi s1) then None
          else if (size <=? 2)%nat then Some 2
          else
            match rest1 with
            | String s2 rest2 =>
                if negb (inRange 128 191 s2) then None
                else if (size <=? 3)%nat then Some 3
                else
                  match rest2 with
                  | String s3 _ =>
                      if negb (inRange 128 191 s3) then None else Some 4
                  | "" => None
                  end
            | "" => None
            end
      | "" => None
      end
  end.

(** [strconv.IsPrint] on the runes from U+0080 to U+00FF. *)
Definition isPrintLatin1 (r : nat) : bool :=
  ((161 <=? r) && (r <=? 255) && negb (r =? 173))%nat.

(** The loop of [appendQuotedWith]: the next [copy] bytes belong to a
    rune that is written as it is, the next [skip] bytes to a rune that
    was written in escaped form.  A byte that begins no valid UTF-8
    sequence is written as [\xNN].  A rune up to U+00FF is written as it
    is when [IsPrint] holds of it and as [\u00NN] otherwise.  For the
    runes above U+00FF, [IsPrint] is decided by the tables of
    strconv/isprint.go, which are not part of this development: such a
    rune is written as it is, as Go writes every printable rune. *)
Fixpoint quoteFrom (copy skip : nat) (s : string) : string :=
  match s with
  | "" => ""
  | String c s' =>
      match copy, skip with
      | S k, _ => String c (quoteFrom k skip s')
      | O, S k => quoteFrom O k s'
      | O, O =>
          let n := nat_of_ascii c in
          if (n <? 128)%nat then quoteASCII c ++ quoteFrom O O s'
          else
            match runeWidth c s' with
            | None => String backslash ("x" ++ hexByte n) ++ quoteFrom O O s'
            | Some w =>
                if ((w =? 2) && (n <=? 195))%nat then
                  let n1 := match s' with
                            | String d _ => nat_of_ascii d
                            | "" => O
                            end in
                  let r := ((n - 192) * 64 + (n1 - 128))%nat in
                  if isPrintLatin1 r then String c (quoteFrom 1 O s')
                  else String backslash ("u00" ++ hexByte r)
                       ++ quoteFrom O 1 s'
                else String c (quoteFrom (w - 1) O s')
            end
      end
  end.

(** [strconv.Quote(s)]. *)
Definition Quote (s : string) : string :=
  String quoteMark (quoteFrom O O s ++ String quoteMark "").

End GoQuote.

(** ** Package [net/url] *)
Module GoURL.
Import GoStrings GoQuote.

Inductive encoding : Type :=
| encodePath
| encodeHost
| encodeQueryComponent
| encodeFragment.

Definition isHostMode (mode : encoding) : bool :=
  match mode with encodeHost => true | _ => false end.

Definition isQueryMode (mode : encoding) : bool :=
  match mode with encodeQueryComponent => true | _ => false end.

(** [c] is one of the bytes of [set]. *)
Fixpoint oneOf (c : ascii) (set : string) : bool :=
  match set with
  | "" => false
  | String d set' => Ascii.eqb c d || oneOf c set'
  end.

Definition between (lo hi : nat) (c : ascii) : bool :=
  ((lo <=? nat_of_ascii c) && (nat_of_ascii c <=? hi))%nat.

Definition isAlnum (c : ascii) : bool :=
  between 97 122 c || between 65 90 c || between 48 57 c.

(** The double quote, for the host sub-delimiters below. *)
Definition dquote : ascii := ascii_of_nat 34.

(** [shouldEscape]: whether byte [c] is written as [%XX] in the given
    part of a URL. *)
Definition shouldEscape (c : ascii) (mode : encoding) : bool :=
  if isAlnum c then false
  else if isHostMode mode
          && (oneOf c "!$&'()*+,;=:[]<>" || Ascii.eqb c dquote) then false
  else if oneOf c "-_.~" then false
  else if oneOf c "$&+,/:;=?@" then
    match mode with
    | encodePath => Ascii.eqb c "?"
    | encodeQueryComponent => true
    | encodeFragment => false
    | encodeHost => true
    end
  else if match mode with encodeFragment => oneOf c "!()*" | _ => false end
  then false
  else true.

Definition ishex (c : ascii) : bool :=
  between 48 57 c || between 97 102 c || between 65 70 c.

Definition unhex (c : ascii) : nat :=
  if between 48 57 c then nat_of_ascii c - 48
  else if between 97 102 c then nat_of_ascii c - 97 + 10
  else if between 65 70 c then nat_of_ascii c - 65 + 10
  else 0.

Definition upperhex (n : nat) : ascii :=
  match String.get n "0123456789ABCDEF" with
  | Some c => c
  | None => "0"%char
  end.

(** [escape]: the space of a query component becomes [+], every other
    byte that [shouldEscape] selects becomes [%XX]. *)
Fixpoint escape (s : string) (mode : encoding) : string :=
  match s with
  | "" => ""
  | String c s' =>
      if shouldEscape c mode then
        if Ascii.eqb c " " && isQueryMode mode
        then String "+" (escape s' mode)
        else String "%"
               (String (upperhex (nat_of_ascii c / 16))
                  (String (upperhex (nat_of_ascii c mod 16))
                     (escape s' mode)))
      else String c (escape s' mode)
  end.

(** [EscapeError(s).Error()], for the escape at the head of [s]. *)
Definition EscapeError (s : string) : error :=
  errorString ("invalid URL escape " ++ Quote (substring 0 3 s)).

(** [InvalidHostError(s).Error()], for the one byte [c]. *)
Definition InvalidHostError (c : ascii) : error :=
  errorString ("invalid character " ++ Quote (String c "") ++ " in host name").

(** [unescape]: the inverse of [escape]; it fails at the first [%] that
    is not followed by two hexadecimal digits, and in a host at the first
    byte that may not stand there. *)
Fixpoint unescape (s : string) (mode : encoding) : Result string :=
  match s with
  | "" => OK ""
  | String c s' =>
      if Ascii.eqb c "%" then
        match s' with
        | String h1 (String h2 s'') =>
            if ishex h1 && ishex h2 then
              if isHostMode mode && (unhex h1 <? 8)%nat
                 && negb (Ascii.eqb h1 "2" && Ascii.eqb h2 "5")
              then Err (EscapeError s)
              else
                bindR (unescape s'' mode) (fun r =>
                OK (String (ascii_of_nat (unhex h1 * 16 + unhex h2)) r))
            else Err (EscapeError s)
        | _ => Err (EscapeError s)
        end
      else if Ascii.eqb c "+" then
        bindR (unescape s' mode) (fun r =>
        OK (String (if isQueryMode mode then " "%char else c) r))
      else if isHostMode mode && (nat_of_ascii c <? 128)%nat
              && shouldEscape c encodeHost
      then Err (InvalidHostError c)
      else bindR (unescape s' mode) (fun r => OK (String c r))
  end.

Definition QueryEscape (s : string) : string := escape s encodeQueryComponent.
Definition QueryUnescape (s : string) : Result string :=
  unescape s encodeQueryComponent.

(** [validEncoded]. *)
Definition validEncoded (s : string) (mode : encoding) : bool :=
  all (fun c => oneOf c "!$&'()*+,;=:@[]%" || negb (shouldEscape c mode)) s.

(** A parsed URL.  [User] holds the user information in its encoded
    form, [None] for Go's nil. *)
Record URL : Type := mkURL {
  Scheme : string;
  Opaque : string;
  User : option string;
  Host : string;
  Path : string;
  RawPath : string;
  OmitHost : bool;
  ForceQuery : bool;
  RawQuery : string;
  Fragment : string;
  RawFragment : string
}.

Definition emptyURL : URL :=
  mkURL "" "" None "" "" "" false false "" "" "".

(** [u.setPath(p)]. *)
Definition setPath (u : URL) (p : string) : Result URL :=
  bindR (unescape p encodePath) (fun path =>
  OK (mkURL (Scheme u) (Opaque u) (User u) (Host u)
        path
        (if String.eqb p (escape path encodePath) then "" else p)
        (OmitHost u) (ForceQuery u) (RawQuery u)
        (Fragment u) (RawFragment u))).

(** [u.setFragment(f)]. *)
Definition setFragment (u : URL) (f : string) : Result URL :=
  bindR (unescape f encodeFragment) (fun frag =>
  OK (mkURL (Scheme u) (Opaque u) (User u) (Host u) (Path u) (RawPath u)
        (OmitHost u) (ForceQuery u) (RawQuery u)
        frag
        (if String.eqb f (escape frag encodeFragment) then "" else f))).

(** [u.EscapedPath()]. *)
Definition EscapedPath (u : URL) : string :=
  let useRaw :=
    negb (String.eqb (RawPath u) "") && validEncoded (RawPath u) encodePath
    && match unescape (RawPath u) encodePath with
       | OK p => String.eqb p (Path u)
       | Err _ => false
       end in
  if useRaw then RawPath u
  else if String.eqb (Path u) "*" then "*"
  else escape (Path u) encodePath.

(** [u.EscapedFragment()]. *)
Definition EscapedFragment (u : URL) : string :=
  let useRaw :=
    negb (String.eqb (RawFragment u) "")
    && validEncoded (RawFragment u) encodeFragment
    && match unescape (RawFragment u) encodeFragment with
       | OK f => String.eqb f (Fragment u)
       | Err _ => false
       end in
  if useRaw then RawFragment u else escape (Fragment u) encodeFragment.

Definition isLetter (c : ascii) : bool :=
  between 97 122 c || between 65 90 c.

(** [getScheme], scanning [rest] with [seen] the bytes already passed
    (in reverse order). *)
Fixpoint getScheme_from (seen : list ascii) (rawURL rest : string)
  : Result (string * string) :=
  match rest with
  | "" => OK ("", rawURL)
  | String c rest' =>
      if isLetter c then getScheme_from (c :: seen) rawURL rest'
      else if between 48 57 c || oneOf c "+-." then
        match seen with
        | [] => OK ("", rawURL)
        | _ => getScheme_from (c :: seen) rawURL rest'
        end
      else if Ascii.eqb c ":" then
        match seen with
        | [] => Err (errorString "missing protocol scheme")
        | _ => OK (string_of_list_ascii (rev seen), rest')
        end
      else OK ("", rawURL)
  end.

Definition getScheme (rawURL : string) : Result (string * string) :=
  getScheme_from [] rawURL rawURL.

Definition stringContainsCTLByte (s : string) : bool :=
  negb (all (fun c => negb ((nat_of_ascii c <? 32)%nat
                            || (nat_of_ascii c =? 127)%nat)) s).

(** The length of the prefix of [s] that ends with its last [@]; [0]
    when there is none. *)
Fixpoint lastAtEnd (s : string) : nat :=
  match s with
  | "" => O
  | String c s' =>
      match lastAtEnd s' with
      | O => if Ascii.eqb c "@" then 1 else O
      | S k => S (S k)
      end
  end.

(** [parseAuthority], reduced to what this package can observe: the user
    information is kept in its encoded form and the host is unescaped;
    the checks of ports, of IPv6 literals and of the bytes of the user
    information are not modelled.  The validators never reach it, as they
    only parse the result of [path.Join], which never begins with two
    slashes (lemma [Join_no_double_slash] below). *)
Definition parseAuthority (authority : string)
  : Result (option string * string) :=
  match lastAtEnd authority with
  | O => bindR (unescape authority encodeHost) (fun h => OK (None, h))
  | S i =>
      bindR (unescape (drop (S i) authority) encodeHost) (fun h =>
      OK (Some (substring 0 i authority), h))
  end.

(** [parse(rawURL, viaRequest = false)]: a URL without its fragment. *)
Definition parse (rawURL : string) : Result URL :=
  if stringContainsCTLByte rawURL then
    Err (errorString "net/url: invalid control character in URL")
  else if String.eqb rawURL "*" then
    OK (mkURL "" "" None "" "*" "" false false "" "" "")
  else
    bindR (getScheme rawURL) (fun '(scheme0, rest0) =>
    let scheme := ToLower scheme0 in
    let '(rest, forceQuery, rawQuery) :=
      if HasSuffix rest0 "?" && (Count rest0 "?" =? 1)%nat
      then (substring 0 (String.length rest0 - 1) rest0, true, "")
      else let '(before, after, _) := Cut rest0 "?" in
           (before, false, after) in
    let u := mkURL scheme "" None "" "" "" false forceQuery rawQuery "" "" in
    if negb (HasPrefix rest "/") && negb (String.eqb scheme "") then
      (* a rootless path after a scheme is opaque *)
      OK (mkURL scheme rest None "" "" "" false forceQuery rawQuery "" "")
    else if negb (HasPrefix rest "/")
            && (let '(segment, _, _) := Cut rest "/" in Contains segment ":")
    then Err (errorString "first path segment in URL cannot contain colon")
    else if (negb (String.eqb scheme "") || negb (HasPrefix rest "///"))
            && HasPrefix rest "//" then
      let '(authority, rest') :=
        let a := drop 2 rest in
        let '(before, after, found) := Cut a "/" in
        if found then (before, "/" ++ after) else (a, "") in
      bindR (parseAuthority authority) (fun '(user, host) =>
      setPath (mkURL scheme "" user host "" "" false forceQuery rawQuery
                 "" "") rest')
    else if negb (String.eqb scheme "") && HasPrefix rest "/" then
      setPath (mkURL scheme "" None "" "" "" true forceQuery rawQuery "" "")
        rest
    else setPath u rest).

(** [(&url.Error{Op: "parse", URL: rawURL, Err: e}).Error()]: the text
    [fmt.Sprintf("%s %q: %s", e.Op, e.URL, e.Err)]. *)
Definition parseError (rawURL : string) (e : error) : error :=
  errorString ("parse " ++ Quote rawURL ++ ": " ++ Error e).

(** [url.Parse]. *)
Definition Parse (rawURL : string) : Result URL :=
  let '(u, frag, _) := Cut rawURL "#" in
  match parse u with
  | Err e => Err (parseError u e)
  | OK url =>
      if String.eqb frag "" then OK url
      else match setFragment url frag with
           | Err e => Err (parseError rawURL e)
           | OK url' => OK url'
           end
  end.

(** The loop of [resolvePath] over the elements of the joined path:
    [dst] is the text written so far and [first] tells that no element
    has been written yet. *)
Definition resolveStep (st : string * bool) (elem : string) : string * bool :=
  let '(dst, first) := st in
  if String.eqb elem "." then (dst, false)
  else if String.eqb elem ".." then
    let str := drop 1 dst in
    match lastSlashEnd str with
    | O => ("/", true)
    | S i => ("/" ++ substring 0 i str, first)
    end
  else ((if first then dst else dst ++ "/") ++ elem, false).

(** [resolvePath(base, ref)]. *)
Definition resolvePath (base ref : string) : string :=
  let full :=
    if String.eqb ref "" then base
    else if negb (HasPrefix ref "/")
    then substring 0 (lastSlashEnd base) base ++ ref
    else ref in
  if String.eqb full "" then ""
  else
    let elems := splitSlash full in
    let '(dst, _) := fold_left resolveStep elems ("/", true) in
    let last_elem := List.last elems "" in
    let r := if String.eqb last_elem "." || String.eqb last_elem ".."
             then dst ++ "/" else dst in
    if HasPrefix (drop 1 r) "/" then drop 1 r else r.

(** [u.ResolveReference(ref)]. *)
Definition ResolveReference (u ref : URL) : URL :=
  let scheme := if String.eqb (Scheme ref) "" then Scheme u else Scheme ref in
  let keep (r : Result URL) (fallback : URL) : URL :=
    match r with OK x => x | Err _ => fallback end in
  let url := mkURL scheme (Opaque ref) (User ref) (Host ref) (Path ref)
               (RawPath ref) (OmitHost ref) (ForceQuery ref) (RawQuery ref)
               (Fragment ref) (RawFragment ref) in
  if negb (String.eqb (Scheme ref) "") || negb (String.eqb (Host ref) "")
     || match User ref with Some _ => true | None => false end then
    keep (setPath url (resolvePath (EscapedPath ref) "")) url
  else if negb (String.eqb (Opaque ref) "") then
    mkURL scheme (Opaque ref) None "" "" (RawPath ref) (OmitHost ref)
      (ForceQuery ref) (RawQuery ref) (Fragment ref) (RawFragment ref)
  else
    let inherit :=
      String.eqb (Path ref) "" && negb (ForceQuery ref)
      && String.eqb (RawQuery ref) "" in
    let rawQuery := if inherit then RawQuery u else RawQuery ref in
    let inheritFrag := inherit && String.eqb (Fragment ref) "" in
    let fragment := if inheritFrag then Fragment u else Fragment ref in
    let rawFragment := if inheritFrag then RawFragment u else RawFragment ref in
    if String.eqb (Path ref) "" && negb (String.eqb (Opaque u) "") then
      mkURL scheme (Opaque u) None "" "" (RawPath ref) (OmitHost ref)
        (ForceQuery ref) rawQuery fragment rawFragment
    else
      let url' := mkURL scheme (Opaque ref) (User u) (Host u) (Path ref)
                    (RawPath ref) (OmitHost ref) (ForceQuery ref) rawQuery
                    fragment rawFragment in
      keep (setPath url' (resolvePath (EscapedPath u) (EscapedPath ref))) url'.

(** The method [u.Parse(ref)]: [ref] is parsed and resolved against [u]. *)
Definition URL_Parse (u : URL) (ref : string) : Result URL :=
  bindR (Parse ref) (fun refURL => OK (ResolveReference u refURL)).

(** [u.String()]. *)
Definition URL_String (u : URL) : string :=
  let buf0 := if String.eqb (Scheme u) "" then "" else Scheme u ++ ":" in
  let buf1 :=
    if negb (String.eqb (Opaque u) "") then buf0 ++ Opaque u
    else
      let hasUser := match User u with Some _ => true | None => false end in
      let buf_auth :=
        if negb (String.eqb (Scheme u) "") || negb (String.eqb (Host u) "")
           || hasUser then
          if OmitHost u && String.eqb (Host u) "" && negb hasUser then buf0
          else
            buf0
            ++ (if negb (String.eqb (Host u) "")
                   || negb (String.eqb (Path u) "") || hasUser
                then "//" else "")
            ++ match User u with Some ui => ui ++ "@" | None => "" end
            ++ (if String.eqb (Host u) "" then ""
                else escape (Host u) encodeHost)
        else buf0 in
      let path := EscapedPath u in
      let buf_slash :=
        if negb (String.eqb path "") && negb (HasPrefix path "/")
           && negb (String.eqb (Host u) "")
        then buf_auth ++ "/" else buf_auth in
      let buf_dot :=
        if String.eqb buf_slash ""
           && (let '(segment, _, _) := Cut path "/" in Contains segment ":")
        then "./" else buf_slash in
      buf_dot ++ path in
  let buf2 :=
    if ForceQuery u || negb (String.eqb (RawQuery u) "")
    then buf1 ++ "?" ++ RawQuery u else buf1 in
  if String.eqb (Fragment u) "" then buf2
  else buf2 ++ "#" ++ EscapedFragment u.

(** [url.Values]: a map from keys to the list of their values, kept as
    an association list with one entry per key. *)
Definition Values : Type := list (string * list string).

Fixpoint Values_lookup (v : Values) (key : string) : option (list string) :=
  match v with
  | [] => None
  | (k, vs) :: v' => if String.eqb k key then Some vs else Values_lookup v' key
  end.

(** [v.Get(key)]: the first value of [key], or the empty string. *)
Definition Values_Get (v : Values) (key : string) : string :=
  match Values_lookup v key with
  | Some (x :: _) => x
  | _ => ""
  end.

(** [v.Has(key)]. *)
Definition Values_Has (v : Values) (key : string) : bool :=
  match Values_lookup v key with Some _ => true | None => false end.

(** [v.Add(key, value)]: [v[key] = append(v[key], value)]. *)
Fixpoint Values_Add (v : Values) (key value : string) : Values :=
  match v with
  | [] => [(key, [value])]
  | (k, vs) :: v' =>
      if String.eqb k key then (k, (vs ++ [value])%list) :: v'
      else (k, vs) :: Values_Add v' key value
  end.

(** [v.Del(key)]. *)
Definition Values_Del (v : Values) (key : string) : Values :=
  filter (fun e => negb (String.eqb (fst e) key)) v.

(** [parseQuery]: the pairs of [query], separated by [&]; a pair that
    holds a semicolon or does not unescape is skipped.  The error that Go
    returns next to the map is dropped by the only caller, [u.Query()]. *)
Fixpoint parseQuery_fuel (fuel : nat) (m : Values) (query : string) : Values :=
  match fuel with
  | O => m
  | S fuel' =>
      if String.eqb query "" then m
      else
        let '(kv, query', _) := Cut query "&" in
        if Contains kv ";" then parseQuery_fuel fuel' m query'
        else if String.eqb kv "" then parseQuery_fuel fuel' m query'
        else
          let '(key, value, _) := Cut kv "=" in
          match QueryUnescape key, QueryUnescape value with
          | OK key', OK value' =>
              parseQuery_fuel fuel' (Values_Add m key' value') query'
          | _, _ => parseQuery_fuel fuel' m query'
          end
  end.

Definition ParseQuery (query : string) : Values :=
  parseQuery_fuel (S (String.length query)) [] query.

(** [u.Query()]. *)
Definition URL_Query (u : URL) : Values := ParseQuery (RawQuery u).

Fixpoint insertByKey (e : string * list string) (v : Values) : Values :=
  match v with
  | [] => [e]
  | x :: v' =>
      if String.leb (fst e) (fst x) then e :: v else x :: insertByKey e v'
  end.

Definition sortByKey (v : Values) : Values := fold_right insertByKey [] v.

(** [v.Encode()]: [key=value] pairs joined by [&], sorted by key. *)
Definition Values_Encode (v : Values) : string :=
  String.concat "&"
    (flat_map
       (fun e => map (fun x => QueryEscape (fst e) ++ "=" ++ QueryEscape x)
                   (snd e))
       (sortByKey v)).

(** [u.RawQuery = q]. *)
Definition setRawQuery (u : URL) (q : string) : URL :=
  mkURL (Scheme u) (Opaque u) (User u) (Host u) (Path u) (RawPath u)
    (OmitHost u) (ForceQuery u) q (Fragment u) (RawFragment u).

End GoURL.

(** ** Package [net/http], as far as the package uses it *)
Module GoHTTP.
Import GoStrings GoURL.

(** [http.Header], with keys in canonical form. *)
Definition Header : Type := list (string * list string).

(** [h.Get(key)]: the first value of [key], or the empty string. *)
Definition Header_Get (h : Header) (key : string) : string := Values_Get h key.

(** [h.Add(key, value)]. *)
Definition Header_Add (h : Header) (key value : string) : Header :=
  Values_Add h key value.

(** [h.Set(key, value)]. *)
Definition Header_Set (h : Header) (key value : string) : Header :=
  Values_Add (Values_Del h key) key value.

(** [h.Del(key)]. *)
Definition Header_Del (h : Header) (key : string) : Header := Values_Del h key.

Definition StatusOK : Z := 200.
Definition StatusInternalServerError : Z := 500.

(** The response of the CAS server as the validators read it:
    [ioutil.ReadAll(resp.Body)] returns [BodyData] and [BodyErr]. *)
Record Response : Type := mkResponse {
  StatusCode : Z;
  BodyData : string;
  BodyErr : option error
}.

Definition ReadAll (resp : Response) : string * option error :=
  (BodyData resp, BodyErr resp).

(** An outgoing request, as [http.NewRequest] returns it. *)
Record ClientRequest : Type := mkClientRequest {
  ReqMethod : string;
  ReqURL : string;
  ReqHeader : Header
}.

Definition ClientRequest_AddHeader (r : ClientRequest) (key value : string)
  : ClientRequest :=
  mkClientRequest (ReqMethod r) (ReqURL r) (Header_Add (ReqHeader r) key value).

End GoHTTP.

(** ** What a Go call can do: return, or panic *)
Inductive Outcome (A : Type) : Type :=
| Returns (a : A)
| Panics.
Arguments Returns {A} a.
Arguments Panics {A}.

(** The slice expression [s[lo:hi]] of a string: it panics unless
    [0 <= lo <= hi <= len(s)]. *)
Definition slice (s : string) (lo hi : Z) : Outcome string :=
  if ((0 <=? lo) && (lo <=? hi) && (hi <=? Z.of_nat (String.length s)))%Z
  then Returns (substring (Z.to_nat lo) (Z.to_nat (hi - lo)) s)
  else Panics.

(** ** service_validate.go *)
Module ServiceValidate.
Import GoStrings GoPath GoURL GoHTTP.

(** [UserAttributes]: attribute names with their values. *)
Definition UserAttributes : Type := list (string * list string).

(** [AuthenticationResponse], with the fields that the accessors of
    http_helpers.go read.  The field [User] of the source is [AuthUser]
    here, [User] being the user information of a URL.
    [AuthenticationDate] is an instant counted from Go's zero time, so that
    [0] is the zero value. *)
Record AuthenticationResponse : Type := mkAuthenticationResponse {
  AuthUser : string;
  Attributes : UserAttributes;
  AuthenticationDate : Z;
  IsNewLogin : bool;
  IsRememberedLogin : bool;
  MemberOf : list string
}.

(** The composite literal [&AuthenticationResponse{User: user}]. *)
Definition AuthenticationResponse_ofUser (user : string)
  : AuthenticationResponse :=
  mkAuthenticationResponse user [] 0 false false [].

(** A Go result: a pointer to an [AuthenticationResponse] and an
    [error]; [None] is nil. *)
Definition ValidationResult : Type :=
  (option AuthenticationResponse * option error)%type.

(** [ServiceTicketValidator]; [client] stands for [client.Do]. *)
Record ServiceTicketValidator : Type := mkServiceTicketValidator {
  client : ClientRequest -> Result Response;
  casURL : URL;
  validationType : string
}.

Definition NewServiceTicketValidator
  (client : ClientRequest -> Result Response) (casURL : URL)
  (validationType : string) : ServiceTicketValidator :=
  mkServiceTicketValidator client casURL validationType.

(** Modelled from the spec: [sanitisedURL] and [sanitisedURLString] are
    called by the URL builders but defined in a file of the package that
    is not among the sources.  The spec says of the service parameter that
    "the ticket query parameter must be stripped from the service URL
    first": the query of the service URL is read, the key [ticket] is
    deleted, and the URL is written out again. *)
Definition sanitisedURL (unclean : URL) : URL :=
  setRawQuery unclean (Values_Encode (Values_Del (URL_Query unclean) "ticket")).

Definition sanitisedURLString (unclean : URL) : string :=
  URL_String (sanitisedURL unclean).

(** [ServiceValidateUrl]: the service validation URL of CAS 2 and later. *)
Definition ServiceValidateUrl (validator : ServiceTicketValidator)
  (serviceURL : URL) (ticket : string) : Result string :=
  match URL_Parse (casURL validator)
          (Join [Path (casURL validator); "serviceValidate"]) with
  | Err err => Err err
  | OK u =>
      let q := URL_Query u in
      let q := Values_Add q "service" (sanitisedURLString serviceURL) in
      let q := Values_Add q "ticket" ticket in
      let u := setRawQuery u (Values_Encode q) in
      OK (URL_String u)
  end.

(** [ValidateUrl1]: the validation URL of CAS 1. *)
Definition ValidateUrl1 (validator : ServiceTicketValidator)
  (serviceURL : URL) (ticket : string) : Result string :=
  match URL_Parse (casURL validator)
          (Join [Path (casURL validator); "validate"]) with
  | Err err => Err err
  | OK u =>
      let q := URL_Query u in
      let q := Values_Add q "service" (sanitisedURLString serviceURL) in
      let q := Values_Add q "ticket" ticket in
      let u := setRawQuery u (Values_Encode q) in
      OK (URL_String u)
  end.

(** [ValidateUrl3]: the validation URL of CAS 3. *)
Definition ValidateUrl3 (validator : ServiceTicketValidator)
  (serviceURL : URL) (ticket : string) : Result string :=
  match URL_Parse (casURL validator)
          (Join [Path (casURL validator); "p3/serviceValidate"]) with
  | Err err => Err err
  | OK u =>
      let q := URL_Query u in
      let q := Values_Add q "service" (sanitisedURLString serviceURL) in
      let q := Values_Add q "ticket" ticket in
      let u := setRawQuery u (Values_Encode q) in
      OK (URL_String u)
  end.

(** The three URL builders have one body and differ in the endpoint
    only: each of them is [validateUrlFor] at its endpoint. *)
Definition validateUrlFor (endpoint : string)
  (validator : ServiceTicketValidator) (serviceURL : URL) (ticket : string)
  : Result string :=
  match URL_Parse (casURL validator)
          (Join [Path (casURL validator); endpoint]) with
  | Err err => Err err
  | OK u =>
      let q := URL_Query u in
      let q := Values_Add q "service" (sanitisedURLString serviceURL) in
      let q := Values_Add q "ticket" ticket in
      let u := setRawQuery u (Values_Encode q) in
      OK (URL_String u)
  end.

(** [fmt.Errorf("cas: validate ticket: %v", body)]. *)
Definition validateTicketError (body : string) : error :=
  errorString ("cas: validate ticket: " ++ body).

Definition userAgent : string := "Golang CAS client gopkg.in/cas".

Definition notLoggedIn : string := "no" ++ nl ++ nl.

Section Validators.

(** [http.NewRequest(method, url, nil)], of Go's standard library. *)
Variable http_NewRequest : string -> string -> Result ClientRequest.

(** [ParseServiceResponse], the XML parser of the package, defined in a
    file that is not among the sources. *)
Variable ParseServiceResponse : string -> ValidationResult.

Definition validateTicketCas2 (validator : ServiceTicketValidator)
  (serviceURL : URL) (ticket : string) : ValidationResult :=
  match ServiceValidateUrl validator serviceURL ticket with
  | Err err => (None, Some err)
  | OK u =>
  match http_NewRequest "GET" u with
  | Err err => (None, Some err)
  | OK r =>
  let r := ClientRequest_AddHeader r "User-Agent" userAgent in
  match client validator r with
  | Err err => (None, Some err)
  | OK resp =>
  match ReadAll resp with
  | (_, Some err) => (None, Some err)
  | (body, None) =>
      if negb (StatusCode resp =? StatusOK)%Z then
        (None, Some (validateTicketError body))
      else
        match ParseServiceResponse body with
        | (_, Some err) => (None, Some err)
        | (success, None) => (success, None)
        end
  end end end end.

Definition validateTicketCas1 (validator : ServiceTicketValidator)
  (serviceURL : URL) (ticket : string) : Outcome ValidationResult :=
  match ValidateUrl1 validator serviceURL ticket with
  | Err err => Returns (None, Some err)
  | OK u =>
  match http_NewRequest "GET" u with
  | Err err => Returns (None, Some err)
  | OK r =>
  let r := ClientRequest_AddHeader r "User-Agent" userAgent in
  match client validator r with
  | Err err => Returns (None, Some err)
  | OK resp =>
  match ReadAll resp with
  | (_, Some err) => Returns (None, Some err)
  | (body, None) =>
      if negb (StatusCode resp =? StatusOK)%Z then
        Returns (None, Some (validateTicketError body))
      else if String.eqb body notLoggedIn then
        Returns (None, None) (* not logged in *)
      else
        match slice body 4 (Z.of_nat (String.length body) - 1) with
        | Panics => Panics
        | Returns user =>
            Returns (Some (AuthenticationResponse_ofUser user), None)
        end
  end end end end.

Definition validateTicketCas3 (validator : ServiceTicketValidator)
  (serviceURL : URL) (ticket : string) : ValidationResult :=
  match ValidateUrl3 validator serviceURL ticket with
  | Err err => (None, Some err)
  | OK u =>
  match http_NewRequest "GET" u with
  | Err err => (None, Some err)
  | OK r =>
  let r := ClientRequest_AddHeader r "User-Agent" userAgent in
  match client validator r with
  | Err err => (None, Some err)
  | OK resp =>
  match ReadAll resp with
  | (_, Some err) => (None, Some err)
  | (body, None) =>
      if negb (StatusCode resp =? StatusOK)%Z then
        (None, Some (validateTicketError body))
      else if String.eqb body notLoggedIn then
        (None, None) (* not logged in *)
      else
        let body := Replace body "[Asia/Shanghai]" "" 1 in
        match ParseServiceResponse body with
        | (_, Some err) => (None, Some err)
        | (success, None) => (success, None)
        end
  end end end end.

(** [ValidateTicket]: the validator for the configured protocol. *)
Definition ValidateTicket (validator : ServiceTicketValidator)
  (serviceURL : URL) (ticket : string) : Outcome ValidationResult :=
  if String.eqb (validationType validator) "CAS1" then
    validateTicketCas1 validator serviceURL ticket
  else if String.eqb (validationType validator) "CAS2" then
    Returns (validateTicketCas2 validator serviceURL ticket)
  else Returns (validateTicketCas3 validator serviceURL ticket).

End Validators.

(** The exchange that a validator has with the CAS server, seen from the
    validator: the URL builder [build] gives the request URL, the request
    is made and sent, and the server answers with [status] and a body that
    reads as [body] without error. *)
Definition answers
  (http_NewRequest : string -> string -> Result ClientRequest)
  (build : ServiceTicketValidator -> URL -> string -> Result string)
  (validator : ServiceTicketValidator) (serviceURL : URL) (ticket : string)
  (status : Z) (body : string) : Prop :=
  exists u r resp,
    build validator serviceURL ticket = OK u
    /\ http_NewRequest "GET" u = OK r
    /\ client validator (ClientRequest_AddHeader r "User-Agent" userAgent)
       = OK resp
    /\ StatusCode resp = status
    /\ ReadAll resp = (body, None).

(** The URL builder that [ValidateTicket] reaches for a validator. *)
Definition builderFor (validator : ServiceTicketValidator)
  : ServiceTicketValidator -> URL -> string -> Result string :=
  if String.eqb (validationType validator) "CAS1" then ValidateUrl1
  else if String.eqb (validationType validator) "CAS2" then ServiceValidateUrl
  else ValidateUrl3.

(** A parser result as a validator hands it on: the response is nil
    whenever there is an error. *)
Definition nilOnError (r : ValidationResult) : ValidationResult :=
  match r with
  | (_, Some err) => (None, Some err)
  | (success, None) => (success, None)
  end.

(** A byte that is not escaped in a path. *)
Definition pathByte (c : ascii) : bool := negb (shouldEscape c encodePath).

(** A byte that stands for itself in a path segment: it is not escaped in
    a path and is not the slash. *)
Definition plainByte (c : ascii) : bool :=
  pathByte c && negb (Ascii.eqb c "/").

(** A path segment that [path.Clean] and [net/url] leave alone. *)
Definition plainSegment (s : string) : bool :=
  negb (String.eqb s "") && negb (String.eqb s ".")
  && negb (String.eqb s "..") && all plainByte s.

(** The rooted path with the given segments; the empty path when there is
    none. *)
Fixpoint rootedPath (segs : list string) : string :=
  match segs with
  | [] => ""
  | seg :: segs' => "/" ++ seg ++ rootedPath segs'
  end.

(** A CAS base URL with a host, whose path is empty or a rooted path of
    plain segments, and which has neither query nor fragment. *)
Definition plainBase (u : URL) (segs : list string) : Prop :=
  Opaque u = "" /\ Host u <> "" /\ Path u = rootedPath segs /\ RawPath u = ""
  /\ ForceQuery u = false /\ RawQuery u = "" /\ Fragment u = ""
  /\ forallb plainSegment segs = true.

(** [u] with path [p] and no raw path. *)
Definition withPath (u : URL) (p : string) : URL :=
  mkURL (Scheme u) (Opaque u) (User u) (Host u) p "" false false "" "" "".

(** An endpoint that is itself a path of plain segments [more], and that
    the parser reads as a relative path. *)
Definition plainEndpoint (e : string) (more : list string) : Prop :=
  rootedPath more = String "/" e
  /\ forallb plainSegment more = true
  /\ String.eqb e "" = false
  /\ Clean e = e
  /\ Parse e = OK (withPath emptyURL e)
  /\ resolvePath "" e = String "/" e.

(** A byte other than the separators of a query. *)
Definition notSeparator (c : ascii) : bool := negb (oneOf c "&=;").

(** The text of one pair in an encoded query. *)
Definition encodedPair (k x : string) : string :=
  QueryEscape k ++ "=" ++ QueryEscape x.

(** The pairs of key and value that [Values_Encode] writes for [v]. *)
Definition pairsOf (v : Values) : list (string * string) :=
  flat_map (fun e => map (fun x => (fst e, x)) (snd e)) v.

Definition encodePairs (ps : list (string * string)) : string :=
  String.concat "&" (map (fun p => encodedPair (fst p) (snd p)) ps).

(** The URL [url] was written by a builder for [endpoint]: it is the
    endpoint resolved against the base of the validator, with the query
    made of the one it had, of [service] under the key service and of
    [ticket] under the key ticket. *)
Definition carriesService (validator : ServiceTicketValidator)
  (endpoint url service ticket : string) : Prop :=
  exists u,
    URL_Parse (casURL validator) (Join [Path (casURL validator); endpoint])
    = OK u
    /\ url = URL_String
               (setRawQuery u
                  (Values_Encode
                     (Values_Add (Values_Add (URL_Query u) "service" service)
                        "ticket" ticket))).

(** A status in the 2xx range. *)
Definition is2xx (status : Z) : bool := ((200 <=? status) && (status <? 300))%Z.

End ServiceValidate.

(** ** handler.go and http_helpers.go *)
Module Handler.
Import GoStrings GoURL GoHTTP ServiceValidate.
Set Implicit Arguments.

(** [http.ResponseWriter], with the behaviour of the server's writer:
    the status is fixed by the first [WriteHeader], and a [Write] before
    any [WriteHeader] sends status 200 first. *)
Record ResponseWriter : Type := mkResponseWriter {
  wHeader : Header;
  wroteHeader : bool;
  wStatus : Z;
  wBody : string
}.

Definition newResponseWriter : ResponseWriter :=
  mkResponseWriter [] false 0 "".

(** The keys under which the package stores values in a request context.
    The type [key] is private to the package, so no other binding can be
    found under them. *)
Inductive key : Type :=
| clientKey
| authenticationResponseKey.

(** [logoutRequest]: of the parsed notification the handler reads the
    session index only. *)
Record logoutRequest : Type := mkLogoutRequest {
  SessionIndex : string
}.

(** The calls that leave the handler, in the order in which they are
    made.  [CallDeleteSession] is [c.deleteSession], the call into the
    cookie-keyed session store that the source has commented out. *)
Inductive Event : Type :=
| CallParseLogoutRequest (rawXML : string)
| CallTicketsDelete (ticketKey : string)
| CallDeleteSession (cookieKey : string)
| CallGetSession
| CallHandler
| CallRedirectToLogin
| CallRedirectToLogout.

Section Handlers.

(** A [*Client] that is not nil.  One client serves a handler, and its
    two stores live in the environment below. *)
Variable Client : Type.
(** The ticket-keyed store [c.tickets] and the cookie-keyed store
    [c.sessions], whose implementations are not among the sources. *)
Variable TicketStore : Type.
Variable SessionStore : Type.

(** The part of a request context that the package can read:
    [Some None] is a binding to a nil pointer. *)
Record Context : Type := mkContext {
  ctxClient : option (option Client);
  ctxAuthenticationResponse : option (option AuthenticationResponse)
}.

(** An inbound [*http.Request].  [Form] is the form that [r.FormValue]
    parses from the query and the body on its first call. *)
Record Request : Type := mkRequest {
  Method : string;
  ReqHdr : Header;
  Form : Values;
  ctx : Context
}.

(** What a handler can read and change: the response, the request and
    the two stores of the client. *)
Record Env : Type := mkEnv {
  resp : ResponseWriter;
  req : Request;
  tickets : TicketStore;
  sessions : SessionStore
}.

(** Handler code: a state transformer over the environment and the
    trace of the calls made so far (latest call last). *)
Definition State : Type := (Env * list Event)%type.
Definition M (A : Type) : Type := State -> A * State.

Definition ret {A : Type} (a : A) : M A := fun st => (a, st).
Definition bind {A B : Type} (m : M A) (k : A -> M B) : M B :=
  fun st => let '(a, st') := m st in k a st'.
Definition exec {A : Type} (m : M A) (st : State) : State := snd (m st).

Notation "x <- m ;; k" := (bind m (fun x => k))
  (at level 61, m at next level, right associativity).
Notation "m ;;; k" := (bind m (fun _ => k))
  (at level 61, right associativity).

Definition getEnv : M Env := fun st => (fst st, st).
Definition modifyEnv (f : Env -> Env) : M unit :=
  fun st => (tt, (f (fst st), snd st)).
Definition emit (e : Event) : M unit :=
  fun st => (tt, (fst st, (snd st ++ [e])%list)).

Definition withResp (f : ResponseWriter -> ResponseWriter) : M unit :=
  modifyEnv (fun env =>
    mkEnv (f (resp env)) (req env) (tickets env) (sessions env)).
Definition withReq (f : Request -> Request) : M unit :=
  modifyEnv (fun env =>
    mkEnv (resp env) (f (req env)) (tickets env) (sessions env)).

(** *** The response writer *)

(** [w.WriteHeader(code)]. *)
Definition ResponseWriter_WriteHeader (code : Z) (w : ResponseWriter)
  : ResponseWriter :=
  if wroteHeader w then w
  else mkResponseWriter (wHeader w) true code (wBody w).

(** [w.Write(data)]. *)
Definition ResponseWriter_Write (data : string) (w : ResponseWriter)
  : ResponseWriter :=
  let w := ResponseWriter_WriteHeader StatusOK w in
  mkResponseWriter (wHeader w) (wroteHeader w) (wStatus w) (wBody w ++ data).

Definition ResponseWriter_SetHeader (k v : string) (w : ResponseWriter)
  : ResponseWriter :=
  mkResponseWriter (Header_Set (wHeader w) k v) (wroteHeader w)
    (wStatus w) (wBody w).

Definition ResponseWriter_DelHeader (k : string) (w : ResponseWriter)
  : ResponseWriter :=
  mkResponseWriter (Header_Del (wHeader w) k) (wroteHeader w)
    (wStatus w) (wBody w).

Definition WriteHeader (code : Z) : M unit :=
  withResp (ResponseWriter_WriteHeader code).

(** [fmt.Fprintln(w, s)]: the text and a line feed. *)
Definition Fprintln (s : string) : M unit :=
  withResp (ResponseWriter_Write (s ++ nl)).

(** [http.Error(w, error, code)]: a Content-Length set for other
    content is deleted, the content type is set to plain text, and the
    status and the message with a line feed are written. *)
Definition http_Error (msg : string) (code : Z) : M unit :=
  withResp (ResponseWriter_DelHeader "Content-Length") ;;;
  withResp (ResponseWriter_SetHeader "Content-Type"
              "text/plain; charset=utf-8") ;;;
  withResp (ResponseWriter_SetHeader "X-Content-Type-Options" "nosniff") ;;;
  WriteHeader code ;;;
  Fprintln msg.

(** *** http_helpers.go *)

(** [SetClient]: the client is bound under [clientKey] in the context
    of the request. *)
Definition SetClient (c : option Client) : M unit :=
  withReq (fun r =>
    mkRequest (Method r) (ReqHdr r) (Form r)
      (mkContext (Some c) (ctxAuthenticationResponse (ctx r)))).

(** [GetClient]: the client bound to the request, nil when there is
    none. *)
Definition GetClient (r : Request) : option Client :=
  match ctxClient (ctx r) with
  | Some c => c
  | None => None
  end.

(** [setAuthenticationResponse]. *)
Definition setAuthenticationResponse (a : option AuthenticationResponse)
  : M unit :=
  withReq (fun r =>
    mkRequest (Method r) (ReqHdr r) (Form r)
      (mkContext (ctxClient (ctx r)) (Some a))).

(** [getAuthenticationResponse]. *)
Definition getAuthenticationResponse (r : Request)
  : option AuthenticationResponse :=
  match ctxAuthenticationResponse (ctx r) with
  | Some a => a
  | None => None
  end.

(** [IsAuthenticated]. *)
Definition IsAuthenticated (r : Request) : bool :=
  match getAuthenticationResponse r with
  | Some _ => true
  | None => false
  end.

(** [Username]. *)
Definition Username (r : Request) : string :=
  match getAuthenticationResponse r with
  | Some a => AuthUser a
  | None => ""
  end.

(** The methods [c.RedirectToLogin] and [c.RedirectToLogout] of the
    client, defined in a file that is not among the sources. *)
Variable Client_RedirectToLogin : Client -> Env -> Env.
Variable Client_RedirectToLogout : Client -> Env -> Env.

Definition noClientError : string :=
  "cas: redirect to cas failed as no client associated with request".

(** [RedirectToLogin]. *)
Definition RedirectToLogin : M unit :=
  env <- getEnv ;;
  match GetClient (req env) with
  | None => http_Error noClientError StatusInternalServerError
  | Some c =>
      emit CallRedirectToLogin ;;;
      modifyEnv (Client_RedirectToLogin c)
  end.

(** [RedirectToLogout]. *)
Definition RedirectToLogout : M unit :=
  env <- getEnv ;;
  match GetClient (req env) with
  | None => http_Error noClientError StatusInternalServerError
  | Some c =>
      emit CallRedirectToLogout ;;;
      modifyEnv (Client_RedirectToLogout c)
  end.

(** *** handler.go *)

(** [parseLogoutRequest], defined in a file that is not among the
    sources. *)
Variable parseLogoutRequest : string -> Result logoutRequest.

(** [tickets.Delete(key)]: the store after the call and its error. *)
Variable TicketStore_Delete : TicketStore -> string -> TicketStore * option error.

(** [c.GetSession(w, r)], defined in a file that is not among the
    sources. *)
Variable Client_GetSession : Client -> Env -> Env.

(** [clientHandler]: the client and the wrapped [http.Handler]. *)
Record clientHandler : Type := mkClientHandler {
  c : Client;
  h : Env -> Env
}.

(** [r.FormValue(key)]. *)
Definition FormValue (r : Request) (k : string) : string :=
  Values_Get (Form r) k.

(** [IsSingleLogoutRequest]. *)
Definition IsSingleLogoutRequest (r : Request) : bool :=
  if negb (String.eqb (Method r) "POST") then false
  else
    let contentType := Header_Get (ReqHdr r) "Content-Type" in
    if negb (String.eqb contentType "application/x-www-form-urlencoded")
    then false
    else if String.eqb (FormValue r "logoutRequest") "" then false
    else true.

Definition call_parseLogoutRequest (rawXML : string)
  : M (Result logoutRequest) :=
  emit (CallParseLogoutRequest rawXML) ;;;
  ret (parseLogoutRequest rawXML).

Definition call_tickets_Delete (k : string) : M (option error) :=
  emit (CallTicketsDelete k) ;;;
  env <- getEnv ;;
  let '(store, err) := TicketStore_Delete (tickets env) k in
  modifyEnv (fun env =>
    mkEnv (resp env) (req env) store (sessions env)) ;;;
  ret err.

(** [performSingleLogout]. *)
Definition performSingleLogout (ch : clientHandler) : M unit :=
  env <- getEnv ;;
  let rawXML := FormValue (req env) "logoutRequest" in
  parsed <- call_parseLogoutRequest rawXML ;;
  match parsed with
  | Err err => http_Error (Error err) StatusInternalServerError
  | OK logoutRequest =>
      deleted <- call_tickets_Delete (SessionIndex logoutRequest) ;;
      match deleted with
      | Some err => http_Error (Error err) StatusInternalServerError
      | None =>
          WriteHeader StatusOK ;;;
          Fprintln "OK"
      end
  end.

(** [ServeHTTP]. *)
Definition ServeHTTP (ch : clientHandler) : M unit :=
  SetClient (Some (c ch)) ;;;
  env <- getEnv ;;
  if IsSingleLogoutRequest (req env) then performSingleLogout ch
  else
    emit CallGetSession ;;;
    modifyEnv (Client_GetSession (c ch)) ;;;
    emit CallHandler ;;;
    modifyEnv (h ch).

(** The environment after [SetClient(r, c)]: the request carries the
    client. *)
Definition bindClient (c : Client) (env : Env) : Env :=
  mkEnv (resp env)
    (mkRequest (Method (req env)) (ReqHdr (req env)) (Form (req env))
       (mkContext (Some (Some c)) (ctxAuthenticationResponse (ctx (req env)))))
    (tickets env) (sessions env).

(** The environment with the response [w]. *)
Definition setResp (w : ResponseWriter) (env : Env) : Env :=
  mkEnv w (req env) (tickets env) (sessions env).

End Handlers.

(** The form field [k] is present and its first value is not empty. *)
Definition presentNonEmpty (form : Values) (k : string) : Prop :=
  exists x xs, Values_lookup form k = Some (x :: xs) /\ x <> "".

(** The spec's words "the content type is form-encoded": the media type
    of the Content-Type header, which is the text before the first
    semicolon, is application/x-www-form-urlencoded; parameters such as a
    character set may follow it.  This is the test by which [net/http]
    itself reads a form from the body of a POST. *)
Definition formEncoded (contentType : string) : bool :=
  let '(mediaType, _, _) := Cut contentType ";" in
  String.eqb mediaType "application/x-www-form-urlencoded".

(** What [http.Error(w, msg, code)] makes of the response [w]. *)
Definition errorWriter (msg : string) (code : Z) (w : ResponseWriter)
  : ResponseWriter :=
  ResponseWriter_Write (msg ++ nl)
    (ResponseWriter_WriteHeader code
       (ResponseWriter_SetHeader "X-Content-Type-Options" "nosniff"
          (ResponseWriter_SetHeader "Content-Type"
             "text/plain; charset=utf-8"
             (ResponseWriter_DelHeader "Content-Length" w)))).

End Handler.

(** ** Package [strconv], in base 10 and 64 bits *)
Module GoStrconv.

Definition isDigit (c : ascii) : bool :=
  ((48 <=? nat_of_ascii c) && (nat_of_ascii c <=? 57))%nat.

Definition digitValue (c : ascii) : Z := Z.of_nat (nat_of_ascii c - 48).

Definition digitByte (d : Z) : ascii := ascii_of_nat (48 + Z.to_nat d).

(** The loop of [ParseUint] in base 10: [acc] is the value of the digits
    read so far; [None] at the first byte that is not a digit. *)
Fixpoint parseDigits (s : string) (acc : Z) : option Z :=
  match s with
  | "" => Some acc
  | String c s' =>
      if isDigit c then parseDigits s' (acc * 10 + digitValue c)%Z
      else None
  end.

Definition ErrSyntax : error := errorString "invalid syntax".
Definition ErrRange : error := errorString "value out of range".

(** [strconv.ParseInt(s, 10, 64)]: an optional sign and decimal digits.
    The value that Go returns next to a range error is left out, and the
    text of the errors is abbreviated. *)
Definition ParseInt (s : string) : Result Z :=
  match s with
  | "" => Err ErrSyntax
  | String c rest =>
      let neg := Ascii.eqb c "-" in
      let digits := if Ascii.eqb c "+" || neg then rest else s in
      if String.eqb digits "" then Err ErrSyntax
      else
        match parseDigits digits 0 with
        | None => Err ErrSyntax
        | Some un =>
            let cutoff := (2 ^ 63)%Z in
            if negb neg && (cutoff <=? un)%Z then Err ErrRange
            else if neg && (cutoff <? un)%Z then Err ErrRange
            else OK (if neg then (- un)%Z else un)
        end
  end.

(** The loop of [formatBits] in base 10: the digits of [u], the last one
    first, are put in front of [acc].  An int64 has at most 19 digits, so
    that the fuel given by [FormatInt] is never used up. *)
Fixpoint formatBits (fuel : nat) (u : Z) (acc : string) : string :=
  match fuel with
  | O => acc
  | S fuel' =>
      let acc' := String (digitByte (u mod 10)) acc in
      if (u / 10 =? 0)%Z then acc' else formatBits fuel' (u / 10)%Z acc'
  end.

(** [strconv.FormatInt(i, 10)], for an [i] in the range of int64. *)
Definition FormatInt (i : Z) : string :=
  if (i <? 0)%Z then String "-" (formatBits 20 (- i)%Z "")
  else formatBits 20 i "".

(** The range of an int64. *)
Definition isInt64 (i : Z) : Prop := (- 2 ^ 63 <= i < 2 ^ 63)%Z.

(** The first byte of [s] is a decimal digit. *)
Definition headDigit (s : string) : bool :=
  match s with
  | String c _ => isDigit c
  | "" => false
  end.

End GoStrconv.

(** ** http_helpers.go: the accessors and the calls to the client *)
Module Helpers.
Import GoStrings GoURL GoHTTP GoStrconv ServiceValidate Handler.
Set Implicit Arguments.

(** The composite literal [&AuthenticationResponse{}]. *)
Definition emptyAuthenticationResponse : AuthenticationResponse :=
  mkAuthenticationResponse "" [] 0 false false [].

(** [a.Attributes = attrs]. *)
Definition withAttributes (a : AuthenticationResponse) (attrs : UserAttributes)
  : AuthenticationResponse :=
  mkAuthenticationResponse (AuthUser a) attrs
    (ServiceValidate.AuthenticationDate a) (ServiceValidate.IsNewLogin a)
    (ServiceValidate.IsRememberedLogin a) (ServiceValidate.MemberOf a).

(** The map assignment [attrs[k] = v]. *)
Fixpoint Attributes_set (attrs : UserAttributes) (k : string) (v : list string)
  : UserAttributes :=
  match attrs with
  | [] => [(k, v)]
  | (k', v') :: attrs' =>
      if String.eqb k' k then (k, v) :: attrs'
      else (k', v') :: Attributes_set attrs' k v
  end.

Section Helpers.

Variable Client : Type.
Variable TicketStore : Type.
Variable SessionStore : Type.

(** [Attributes]: the attributes of the authenticated user; nil, the empty
    map here, when there is none. *)
Definition Attributes (r : Request Client) : UserAttributes :=
  match getAuthenticationResponse r with
  | Some a => ServiceValidate.Attributes a
  | None => []
  end.

(** [AuthenticationDate]. *)
Definition AuthenticationDate (r : Request Client) : Z :=
  match getAuthenticationResponse r with
  | Some a => ServiceValidate.AuthenticationDate a
  | None => 0%Z
  end.

(** [IsNewLogin]. *)
Definition IsNewLogin (r : Request Client) : bool :=
  match getAuthenticationResponse r with
  | Some a => ServiceValidate.IsNewLogin a
  | None => false
  end.

(** [IsRememberedLogin]. *)
Definition IsRememberedLogin (r : Request Client) : bool :=
  match getAuthenticationResponse r with
  | Some a => ServiceValidate.IsRememberedLogin a
  | None => false
  end.

(** [MemberOf]. *)
Definition MemberOf (r : Request Client) : list string :=
  match getAuthenticationResponse r with
  | Some a => ServiceValidate.MemberOf a
  | None => []
  end.

(** [GetCurrentUserId]: the first value of the attribute uid, read as a
    decimal int64; [v[0]] panics on an attribute without values.  The
    values of an attribute are strings here, so that the type assertion
    [v[0].(string)] of the source always holds. *)
Definition GetCurrentUserId (r : Request Client) : Outcome Z :=
  match getAuthenticationResponse r with
  | Some a =>
      if negb (Nat.eqb (List.length (ServiceValidate.Attributes a)) 0) then
        match Values_lookup (ServiceValidate.Attributes a) "uid" with
        | Some v =>
            match v with
            | [] => Panics
            | v0 :: _ =>
                match ParseInt v0 with
                | Err _ => Returns 0%Z
                | OK uid => Returns uid
                end
            end
        | None => Returns 0%Z
        end
      else Returns 0%Z
  | None => Returns 0%Z
  end.

(** [SetCurrentUserId].  The response is reached through the pointer that
    the request context holds; the write to its attributes is modelled by
    binding the changed response, which is what every later read through
    this request sees.  Reading [a.Attributes] through a nil pointer would
    panic. *)
Definition SetCurrentUserId (userId : Z)
  (st : State Client TicketStore SessionStore)
  : Outcome (State Client TicketStore SessionStore) :=
  let st :=
    match getAuthenticationResponse (req (fst st)) with
    | None =>
        exec (setAuthenticationResponse (Some emptyAuthenticationResponse)) st
    | Some _ => st
    end in
  match getAuthenticationResponse (req (fst st)) with
  | None => Panics
  | Some a =>
      Returns
        (exec (setAuthenticationResponse
                 (Some (withAttributes a
                          (Attributes_set (ServiceValidate.Attributes a) "uid"
                             [FormatInt userId])))) st)
  end.

(** The methods of the client that the helpers below call, defined in
    files that are not among the sources, with the types of their
    results. *)
Variable RoleListResponse : Type.
Variable PermissionListResponse : Type.
Variable UserInfoResponse : Type.
Variable Client_PermissionValidateForRequest :
  Client -> Request Client -> option error.
Variable Client_RoleList :
  Client -> Request Client -> list RoleListResponse * option error.
Variable Client_PermissionList :
  Client -> Request Client -> Z -> list PermissionListResponse * option error.
Variable Client_UserInfo : Client -> Z -> option UserInfoResponse * option error.

(** [errors.New("no client associated with request")]. *)
Definition noClientAssociated : error :=
  errorString "no client associated with request".

(** [HasPermission]. *)
Definition HasPermission (r : Request Client) : bool :=
  match GetClient r with
  | None => false
  | Some c =>
      match Client_PermissionValidateForRequest c r with
      | Some _ => false
      | None => true
      end
  end.

(** [RoleList]. *)
Definition RoleList (r : Request Client)
  : list RoleListResponse * option error :=
  match GetClient r with
  | None => ([], Some noClientAssociated)
  | Some c => Client_RoleList c r
  end.

(** [PermissionList]. *)
Definition PermissionList (r : Request Client) (roleId : Z)
  : list PermissionListResponse * option error :=
  match GetClient r with
  | None => ([], Some noClientAssociated)
  | Some c => Client_PermissionList c r roleId
  end.

(** [UserInfo]. *)
Definition UserInfo (r : Request Client) (userId : Z)
  : option UserInfoResponse * option error :=
  match GetClient r with
  | None => (None, Some noClientAssociated)
  | Some c => Client_UserInfo c userId
  end.

(** [UserInfoDetail]. *)
Definition UserInfoDetail (r : Request Client) (userId : Z)
  : option UserInfoResponse * option error :=
  match GetClient r with
  | None => (None, Some noClientAssociated)
  | Some c => Client_UserInfo c userId
  end.

(** [DepartmentInfo]. *)
Definition DepartmentInfo (r : Request Client) (userId : Z)
  : option UserInfoResponse * option error :=
  match GetClient r with
  | None => (None, Some noClientAssociated)
  | Some c => Client_UserInfo c userId
  end.

End Helpers.

(** The Content-Type that [IsSingleLogoutRequest] accepts. *)
Definition formContentType : string := "application/x-www-form-urlencoded".

End Helpers.

(** ** Exchanges and base URLs, for the statements on the validators *)
(** ** The text of a URL *)
Module URLSpec.
Import GoStrings GoURL.

(** A byte other than the question mark and the number sign. *)
Definition notMark (c : ascii) : bool :=
  negb (Ascii.eqb c "?") && negb (Ascii.eqb c "#").

(** A byte of a scheme, as [getScheme] accepts it. *)
Definition schemeByte (c : ascii) : bool :=
  isLetter c || between 48 57 c || oneOf c "+-.".

(** The query of a text without fragment: what follows its first
    question mark. *)
Definition queryPart (text : string) : string :=
  let '(_, query, _) := Cut text "?" in query.

(** The query of the text of a URL: what follows the first question mark
    in the part before the first number sign.  It is the query that
    [url.Parse] reads from the text (lemma [Parse_fields]). *)
Definition rawQueryOf (text : string) : string :=
  let '(beforeFragment, _, _) := Cut text "#" in
  queryPart beforeFragment.

(** What [u.String()] writes before the query: scheme, opaque part or
    authority, and path. *)
Definition beforeQuery (u : URL) : string :=
  let buf0 := if String.eqb (Scheme u) "" then "" else Scheme u ++ ":" in
  if negb (String.eqb (Opaque u) "") then buf0 ++ Opaque u
  else
    let hasUser := match User u with Some _ => true | None => false end in
    let buf_auth :=
      if negb (String.eqb (Scheme u) "") || negb (String.eqb (Host u) "")
         || hasUser then
        if OmitHost u && String.eqb (Host u) "" && negb hasUser then buf0
        else
          buf0
          ++ (if negb (String.eqb (Host u) "")
                 || negb (String.eqb (Path u) "") || hasUser
              then "//" else "")
          ++ match User u with Some ui => ui ++ "@" | None => "" end
          ++ (if String.eqb (Host u) "" then ""
              else escape (Host u) encodeHost)
      else buf0 in
    let path := EscapedPath u in
    let buf_slash :=
      if negb (String.eqb path "") && negb (HasPrefix path "/")
         && negb (String.eqb (Host u) "")
      then buf_auth ++ "/" else buf_auth in
    let buf_dot :=
      if String.eqb buf_slash ""
         && (let '(segment, _, _) := Cut path "/" in Contains segment ":")
      then "./" else buf_slash in
    buf_dot ++ path.

(** The user information of [u] as [u.String()] writes it. *)
Definition userText (u : URL) : string :=
  match User u with Some ui => ui | None => "" end.

(** The parts of [u] that [u.String()] writes as they are hold neither a
    question mark nor a number sign. *)
Definition markFree (u : URL) : Prop :=
  all notMark (Scheme u) = true /\ all notMark (Opaque u) = true
  /\ all notMark (userText u) = true.

End URLSpec.

(** ** Words for the statements on the validators *)
Module ValidatorSpec.
Import GoStrings GoPath GoURL GoHTTP ServiceValidate.

(** The request that a validator sends: the URL of its builder, made into
    a GET request that carries the User-Agent of the package. *)
Definition sends
  (http_NewRequest : string -> string -> Result ClientRequest)
  (build : ServiceTicketValidator -> URL -> string -> Result string)
  (validator : ServiceTicketValidator) (serviceURL : URL) (ticket : string)
  (r : ClientRequest) : Prop :=
  exists u r0,
    build validator serviceURL ticket = OK u
    /\ http_NewRequest "GET" u = OK r0
    /\ r = ClientRequest_AddHeader r0 "User-Agent" userAgent.

(** A CAS base URL without opaque part and raw path, whose path is the
    rooted path of the plain segments [segs], followed by [tail]. *)
Definition pathShape (u : URL) (segs : list string) (tail : string) : Prop :=
  Opaque u = "" /\ RawPath u = "" /\ Path u = rootedPath segs ++ tail
  /\ forallb plainSegment segs = true.

(** Two URLs have the same scheme, user information and host. *)
Definition sameAuthority (u1 u2 : URL) : Prop :=
  Scheme u1 = Scheme u2 /\ User u1 = User u2 /\ Host u1 = Host u2.

(** The query that the URL builders write. *)
Definition builtQuery (serviceURL : URL) (ticket : string) : string :=
  "service=" ++ QueryEscape (sanitisedURLString serviceURL)
  ++ "&ticket=" ++ QueryEscape ticket.

End ValidatorSpec.

(** ** Concrete servers, requests and stores

    The values below instantiate the parts of the environment that the
    embedding leaves open; the examples and the boundary cases of the
    statements are evaluated on them. *)
Module Examples.
Import GoStrings GoPath GoURL GoHTTP ServiceValidate Handler.

(** A request constructor that accepts every URL. *)
Definition newRequest (method url : string) : Result ClientRequest :=
  OK (mkClientRequest method url []).

(** A CAS server that answers every request with [status] and [body]. *)
Definition serverReturning (status : Z) (body : string)
  : ClientRequest -> Result Response :=
  fun _ => OK (mkResponse status body None).

(** The CAS server of the specification's example. *)
Definition ssoBase : URL :=
  mkURL "https" "" None "sso.example.com" "/cas" "" false false "" "" "".

(** A CAS server whose path holds a question mark, as [url.Parse] returns
    it for the text https://sso.example.com/a%3Fb. *)
Definition oddBase : URL :=
  mkURL "https" "" None "sso.example.com" "/a?b" "" false false "" "" "".

(** A service URL that still carries the ticket it was called with. *)
Definition appService : URL :=
  mkURL "https" "" None "app.example.com" "/secure" "" false false
    "lang=en&ticket=ST-123" "" "".

Definition validatorFor (validationType : string) (status : Z) (body : string)
  : ServiceTicketValidator :=
  NewServiceTicketValidator (serverReturning status body) ssoBase validationType.

(** A response parser that reports the text it was given as the user. *)
Definition echoParser (body : string) : ValidationResult :=
  (Some (AuthenticationResponse_ofUser body), None).

(** A response parser that accepts every response for the user alice. *)
Definition aliceParser (body : string) : ValidationResult :=
  (Some (AuthenticationResponse_ofUser "alice"), None).

Definition yesAlice : string := "yes" ++ nl ++ "alice" ++ nl.

(** A CAS 3 success response whose authentication date ends in a bracketed
    zone name. *)
Definition successWithZone (zone : string) : string :=
  "<cas:serviceResponse><cas:authenticationSuccess><cas:user>alice</cas:user>"
  ++ "<cas:attributes><cas:authenticationDate>2020-01-01T10:00:00+08:00"
  ++ zone
  ++ "</cas:authenticationDate></cas:attributes>"
  ++ "</cas:authenticationSuccess></cas:serviceResponse>".

(** A ticket store in memory: the tickets of the live sessions.  Its
    [Delete] removes the ticket and never fails. *)
Definition memoryDelete (store : list string) (ticketKey : string)
  : list string * option error :=
  (filter (fun k => negb (String.eqb k ticketKey)) store, None).

(** A ticket store whose [Delete] fails. *)
Definition brokenDelete (store : list string) (ticketKey : string)
  : list string * option error :=
  (store, Some (errorString "ticket store unavailable")).

(** A notification parser that takes the whole payload for the session
    index and rejects the empty payload. *)
Definition indexParser (rawXML : string) : Result logoutRequest :=
  if String.eqb rawXML "" then Err (errorString "EOF")
  else OK (mkLogoutRequest rawXML).

(** A notification parser that rejects every payload. *)
Definition rejectingParser (rawXML : string) : Result logoutRequest :=
  Err (errorString "expected element type <LogoutRequest>").

(** Clients are told apart by a number; sessions are pairs of a cookie
    and the ticket that produced it. *)
Definition ExEnv : Type := Env nat (list string) (list (string * string)).

(** A single logout notification for the ticket ST-123. *)
Definition sloRequest : Request nat :=
  mkRequest "POST"
    [("Content-Type", ["application/x-www-form-urlencoded"])]
    [("logoutRequest", ["ST-123"])]
    (mkContext None None).

(** A page request that was never bound to a client. *)
Definition pageRequest : Request nat :=
  mkRequest "GET" [] [] (mkContext None None).

Definition envWith (r : Request nat) : ExEnv :=
  mkEnv newResponseWriter r ["ST-123"; "ST-456"]
    [("cookie-1", "ST-123"); ("cookie-2", "ST-456")].

(** A wrapped handler that greets, and a [GetSession] that changes
    nothing. *)
Definition helloHandler (env : ExEnv) : ExEnv :=
  mkEnv (ResponseWriter_Write "hello" (resp env)) (req env) (tickets env)
    (sessions env).

Definition idleGetSession (client : nat) (env : ExEnv) : ExEnv := env.

Definition exampleHandler : clientHandler nat (list string)
                              (list (string * string)) :=
  mkClientHandler 1 helloHandler.

(** A client whose redirects answer with status 302. *)
Definition redirect302 (client : nat) (env : ExEnv) : ExEnv :=
  mkEnv (ResponseWriter_WriteHeader 302 (resp env)) (req env) (tickets env)
    (sessions env).

End Examples.

(** ** More servers and requests *)
Module MoreExamples.
Import GoStrings GoPath GoURL GoHTTP GoStrconv ServiceValidate Handler Helpers
  Examples.

(** A CAS base whose path ends in a percent sign, as [url.Parse] returns
    it for the text https://sso.example.com/cas%25. *)
Definition percentBase : URL :=
  mkURL "https" "" None "sso.example.com" "/cas%" "" false false "" "" "".


Definition queryBase : URL :=
  mkURL "https" "" None "sso.example.com" "/cas" "" false false
    "locale=en" "top" "".

Definition validatorAt (base : URL) : ServiceTicketValidator :=
  NewServiceTicketValidator (serverReturning 200 "") base "CAS2".

(** The text [s] between double quotes. *)
Definition quoted (s : string) : string :=
  String (ascii_of_nat 34) (s ++ String (ascii_of_nat 34) "").

(** A CAS server that cannot be reached, and one whose answer breaks off
    while it is read. *)
Definition unreachableServer : ClientRequest -> Result Response :=
  fun _ => Err (errorString "dial tcp: connection refused").

Definition truncatedServer : ClientRequest -> Result Response :=
  fun _ => OK (mkResponse 200 "yes" (Some (errorString "unexpected EOF"))).

(** The request that the validators of [Examples] send for CAS 2. *)
Definition cas2Request : ClientRequest :=
  mkClientRequest "GET"
    ("https://sso.example.com/cas/serviceValidate"
     ++ "?service=https%3A%2F%2Fapp.example.com%2Fsecure%3Flang%3Den"
     ++ "&ticket=ST-123")
    [("User-Agent", [userAgent])].

(** The user alice, with a mail address and the user id 41. *)
Definition alice : AuthenticationResponse :=
  mkAuthenticationResponse "alice"
    [("mail", ["alice@example.com"]); ("uid", ["41"])] 1577872800 true false
    ["staff"].

(** A user whose attribute uid has no value. *)
Definition noUidValue : AuthenticationResponse :=
  mkAuthenticationResponse "bob" [("uid", [])] 0 false false [].

Definition requestOf (a : option AuthenticationResponse) : Request nat :=
  mkRequest "GET" [] [] (mkContext None (Some a)).

Definition stateOf (r : Request nat)
  : State nat (list string) (list (string * string)) :=
  (envWith r, []).

(** A logout notification whose Content-Type names a character set. *)
Definition charsetRequest : Request nat :=
  mkRequest "POST"
    [("Content-Type", ["application/x-www-form-urlencoded; charset=UTF-8"])]
    [("logoutRequest", ["ST-123"])]
    (mkContext None None).

(** A CAS 3 body in which another bracket stands before the zone name,
    and in which the zone name occurs twice. *)
Definition twoZones : string :=
  "<cas:authenticationDate>[x][Asia/Shanghai]y[Asia/Shanghai]"
  ++ "</cas:authenticationDate>".

(** A page whose handler has begun to write the response, which sends
    status 200, and was never bound to a client. *)
Definition startedPage : ExEnv :=
  mkEnv (ResponseWriter_Write "hello" newResponseWriter) pageRequest
    ["ST-123"; "ST-456"] [("cookie-1", "ST-123"); ("cookie-2", "ST-456")].

(** A request to which client 1 is bound, and a client that grants every
    permission. *)
Definition boundRequest : Request nat :=
  mkRequest "GET" [] [] (mkContext (Some (Some 1)) None).

Definition grantAll (client : nat) (r : Request nat) : option error := None.

End MoreExamples.

(** * Properties

    The statements follow the embedding: facts on strings, on [path] and
    [net/url], then the validators of service_validate.go and the handlers
    of handler.go and http_helpers.go.  A statement that settles one of the
    claims C1 to C10 of the specification names the claim in its
    comment. *)

(** ** Facts on strings *)
Module StringFacts.
Import GoStrings.

Lemma append_nil_r (s : string) : s ++ "" = s.
Proof. induction s as [|c s IH]; simpl; [reflexivity | now rewrite IH]. Qed.

Lemma append_assoc (a b c : string) : (a ++ b) ++ c = a ++ (b ++ c).
Proof. induction a as [|x a IH]; simpl; [reflexivity | now rewrite IH]. Qed.

Lemma length_append (a b : string) :
  String.length (a ++ b) = String.length a + String.length b.
Proof. induction a as [|x a IH]; simpl; [reflexivity | now rewrite IH]. Qed.

Lemma substring_0_append (a b : string) :
  substring 0 (String.length a) (a ++ b) = a.
Proof.
  induction a as [|x a IH]; simpl.
  - destruct b; reflexivity.
  - now rewrite IH.
Qed.

Lemma substring_skip (a b : string) (n : nat) :
  substring (String.length a) n (a ++ b) = substring 0 n b.
Proof. induction a as [|x a IH]; simpl; [reflexivity | exact IH]. Qed.

(** The slice between two cuts of a string is the text between them. *)
Lemma slice_middle (a b c : string) :
  slice (a ++ b ++ c) (Z.of_nat (String.length a))
    (Z.of_nat (String.length a + String.length b)) = Returns b.
Proof.
  unfold slice.
  rewrite !length_append.
  replace ((0 <=? Z.of_nat (String.length a))%Z) with true
    by (symmetry; apply Z.leb_le; lia).
  replace ((Z.of_nat (String.length a)
            <=? Z.of_nat (String.length a + String.length b))%Z) with true
    by (symmetry; apply Z.leb_le; lia).
  replace ((Z.of_nat (String.length a + String.length b)
            <=? Z.of_nat (String.length a
                          + (String.length b + String.length c)))%Z)
    with true by (symmetry; apply Z.leb_le; lia).
  simpl andb. cbv iota.
  rewrite Nat2Z.id.
  replace (Z.to_nat (Z.of_nat (String.length a + String.length b)
                     - Z.of_nat (String.length a)))
    with (String.length b) by lia.
  now rewrite substring_skip, substring_0_append.
Qed.

(** A slice whose bounds are out of order panics. *)
Lemma slice_out_of_order (s : string) (lo hi : Z) :
  (hi < lo)%Z -> slice s lo hi = Panics.
Proof.
  intros H. unfold slice.
  replace ((lo <=? hi)%Z) with false by (symmetry; apply Z.leb_gt; lia).
  now rewrite andb_false_r.
Qed.

Lemma slice_in_bounds (s : string) (lo hi : Z) :
  (0 <= lo <= hi)%Z -> (hi <= Z.of_nat (String.length s))%Z ->
  slice s lo hi = Returns (substring (Z.to_nat lo) (Z.to_nat (hi - lo)) s).
Proof.
  intros [H0 H1] H2. unfold slice.
  replace ((0 <=? lo)%Z) with true by (symmetry; apply Z.leb_le; lia).
  replace ((lo <=? hi)%Z) with true by (symmetry; apply Z.leb_le; lia).
  replace ((hi <=? Z.of_nat (String.length s))%Z) with true
    by (symmetry; apply Z.leb_le; lia).
  reflexivity.
Qed.

Lemma prefix_append (a b : string) : prefix a (a ++ b) = true.
Proof.
  induction a as [|x a IH]; simpl.
  - destruct b; reflexivity.
  - destruct (ascii_dec x x) as [_|N]; [exact IH | now elim N].
Qed.

Lemma drop_append (a b : string) : drop (String.length a) (a ++ b) = b.
Proof. induction a as [|x a IH]; simpl; [reflexivity | exact IH]. Qed.

Lemma Cut_eq (s sep : string) :
  Cut s sep =
  if prefix sep s then ("", drop (String.length sep) s, true)
  else match s with
       | "" => ("", "", false)
       | String c s' =>
           let '(before, after, found) := Cut s' sep in
           (String c before, after, found)
       end.
Proof. destruct s; reflexivity. Qed.

Lemma prefix_other_head (c x : ascii) (p s : string) :
  negb (Ascii.eqb x c) = true -> prefix (String c p) (String x s) = false.
Proof.
  intros Hx. simpl. destruct (ascii_dec c x) as [E|_]; [|reflexivity].
  subst x. now rewrite Ascii.eqb_refl in Hx.
Qed.

(** [old] begins with the byte [c], and [c] does not occur in [pre]: the
    first occurrence of [old] in [pre ++ old ++ post] is the one shown. *)
Lemma Cut_first (c : ascii) (old' pre post : string) :
  all (fun x => negb (Ascii.eqb x c)) pre = true ->
  Cut (pre ++ String c old' ++ post) (String c old') = (pre, post, true).
Proof.
  intros Hpre. induction pre as [|x pre IH].
  - change ("" ++ String c old' ++ post) with ((String c old') ++ post).
    rewrite Cut_eq, prefix_append, drop_append. reflexivity.
  - simpl in Hpre. apply andb_true_iff in Hpre as [Hx Hpre].
    change (String x pre ++ String c old' ++ post)
      with (String x (pre ++ String c old' ++ post)).
    rewrite Cut_eq, (prefix_other_head _ _ _ _ Hx), (IH Hpre). reflexivity.
Qed.

(** A string in which the first byte of [old] does not occur is left
    alone by [Cut]. *)
Lemma Cut_absent (c : ascii) (old' s : string) :
  all (fun x => negb (Ascii.eqb x c)) s = true ->
  Cut s (String c old') = (s, "", false).
Proof.
  induction s as [|x s IH]; intros Hs.
  - reflexivity.
  - simpl in Hs. apply andb_true_iff in Hs as [Hx Hs].
    rewrite Cut_eq, (prefix_other_head _ _ _ _ Hx), (IH Hs). reflexivity.
Qed.

Lemma prefix_split (p s : string) :
  prefix p s = true -> s = p ++ drop (String.length p) s.
Proof.
  revert s. induction p as [|c p IH]; intros s H; [reflexivity|].
  destruct s as [|x s]; [discriminate|]. simpl in H.
  destruct (ascii_dec c x) as [->|]; [|discriminate].
  simpl. f_equal. exact (IH s H).
Qed.

Lemma prefix_append_inv (p x y : string) :
  prefix p (x ++ y) = true -> (String.length p <= String.length x)%nat ->
  prefix p x = true.
Proof.
  revert x. induction p as [|c p IH]; intros x H Hl; [now destruct x|].
  destruct x as [|d x]; [simpl in Hl; lia|]. simpl in H |- *.
  destruct (ascii_dec c d); [|discriminate].
  apply IH; [exact H | simpl in Hl; lia].
Qed.

Lemma prefix_append_true (p x y : string) :
  prefix p x = true -> prefix p (x ++ y) = true.
Proof.
  revert x. induction p as [|c p IH]; intros x H; [now destruct (x ++ y)|].
  destruct x as [|d x]; [discriminate|]. simpl in H |- *.
  destruct (ascii_dec c d); [|discriminate]. now apply IH.
Qed.

Lemma prefix_length (p s : string) :
  prefix p s = true -> (String.length p <= String.length s)%nat.
Proof.
  revert s. induction p as [|c p IH]; intros s H; [simpl; lia|].
  destruct s as [|x s]; [discriminate|]. simpl in H.
  destruct (ascii_dec c x); [|discriminate].
  specialize (IH s H). simpl. lia.
Qed.

(** What [Cut] returns when it finds [sep], and when it does not. *)
Lemma Cut_found (s sep before after : string) :
  Cut s sep = (before, after, true) -> s = before ++ sep ++ after.
Proof.
  revert before. induction s as [|c s IH]; intros before; rewrite Cut_eq.
  - destruct (prefix sep "") eqn:E; [|discriminate].
    intros H. inversion H; subst. exact (prefix_split _ _ E).
  - destruct (prefix sep (String c s)) eqn:E.
    + intros H. inversion H; subst. exact (prefix_split _ _ E).
    + destruct (Cut s sep) as [[b a] f]. intros H. inversion H; subst.
      simpl. f_equal. now apply IH.
Qed.

Lemma Cut_missing (s sep before after : string) :
  Cut s sep = (before, after, false) -> before = s /\ after = "".
Proof.
  revert before. induction s as [|c s IH]; intros before; rewrite Cut_eq.
  - destruct (prefix sep ""); [discriminate|]. intros H. now inversion H.
  - destruct (prefix sep (String c s)); [discriminate|].
    destruct (Cut s sep) as [[b a] f]. intros H. inversion H; subst.
    destruct (IH b eq_refl) as [-> ->]. now split.
Qed.

Lemma Contains_short (s sep : string) :
  (String.length s < String.length sep)%nat -> Contains s sep = false.
Proof.
  unfold Contains. induction s as [|c s IH]; intros Hl; rewrite Cut_eq.
  - destruct (prefix sep "") eqn:E; [|reflexivity].
    apply prefix_length in E. lia.
  - destruct (prefix sep (String c s)) eqn:E.
    + apply prefix_length in E. lia.
    + assert (Hs : (String.length s < String.length sep)%nat)
        by (simpl in Hl; lia).
      specialize (IH Hs). now destruct (Cut s sep) as [[b a] f].
Qed.

(** The occurrence of [sep] that [Cut] finds is the first one: no
    occurrence of [sep] begins in [before]. *)
Lemma Cut_found_first (s front before after : string) (l : ascii) :
  Cut s (front ++ String l "") = (before, after, true) ->
  Contains (before ++ front) (front ++ String l "") = false.
Proof.
  set (sep := front ++ String l "").
  assert (Hlen : String.length sep = S (String.length front))
    by (unfold sep; rewrite length_append; simpl; lia).
  revert before. induction s as [|c s IH]; intros before; rewrite Cut_eq.
  - destruct (prefix sep "") eqn:E; [|discriminate].
    intros H. inversion H; subst. apply Contains_short. simpl. lia.
  - destruct (prefix sep (String c s)) eqn:E.
    + intros H. inversion H; subst. apply Contains_short. simpl. lia.
    + destruct (Cut s sep) as [[b a] f] eqn:EC. intros H. inversion H; subst.
      specialize (IH b eq_refl). unfold Contains in IH |- *.
      change (String c b ++ front) with (String c (b ++ front)).
      rewrite Cut_eq.
      destruct (prefix sep (String c (b ++ front))) eqn:E2.
      * apply Cut_found in EC. exfalso.
        assert (X : prefix sep (String c (b ++ front) ++ String l "" ++ after)
                    = true) by now apply prefix_append_true.
        change (String c (b ++ front) ++ String l "" ++ after)
          with (String c ((b ++ front) ++ String l "" ++ after)) in X.
        rewrite (append_assoc b front), <- (append_assoc front) in X.
        fold sep in X. rewrite <- EC in X. congruence.
      * destruct (Cut (b ++ front) sep) as [[b' a'] f']. exact IH.
Qed.

(** Conversely, [Cut] stops at an occurrence of [sep] before which no
    occurrence begins. *)
Lemma Cut_at_first (front pre post : string) (l : ascii) :
  Contains (pre ++ front) (front ++ String l "") = false ->
  Cut (pre ++ (front ++ String l "") ++ post) (front ++ String l "")
  = (pre, post, true).
Proof.
  set (sep := front ++ String l "").
  assert (Hlen : String.length sep = S (String.length front))
    by (unfold sep; rewrite length_append; simpl; lia).
  induction pre as [|c pre IH]; intros H.
  - change ("" ++ sep ++ post) with (sep ++ post).
    rewrite Cut_eq, prefix_append, drop_append. reflexivity.
  - unfold Contains in H.
    change (String c pre ++ front) with (String c (pre ++ front)) in H.
    rewrite Cut_eq in H.
    destruct (prefix sep (String c (pre ++ front))) eqn:E; [discriminate|].
    change (String c pre ++ sep ++ post)
      with (String c (pre ++ sep ++ post)).
    rewrite Cut_eq.
    destruct (prefix sep (String c (pre ++ sep ++ post))) eqn:E2.
    + exfalso. unfold sep in E2 at 2.
      rewrite (append_assoc front), <- (append_assoc pre front) in E2.
      change (String c ((pre ++ front) ++ String l "" ++ post))
        with (String c (pre ++ front) ++ String l "" ++ post) in E2.
      apply prefix_append_inv in E2.
      * congruence.
      * rewrite Hlen. simpl. rewrite length_append. lia.
    + rewrite IH; [reflexivity|].
      unfold Contains. now destruct (Cut (pre ++ front) sep) as [[b a] f].
Qed.

End StringFacts.

(** ** Facts on [path] and [net/url] *)
Module URLFacts.
Import GoStrings GoPath GoURL ServiceValidate StringFacts.

(** Case analysis on the eight bits of a byte. *)
Ltac by_bytes c :=
  destruct c as [[|] [|] [|] [|] [|] [|] [|] [|]];
  try discriminate; try reflexivity.

Lemma all_impl (p q : ascii -> bool) (s : string) :
  (forall c, p c = true -> q c = true) -> all p s = true -> all q s = true.
Proof.
  intros Hpq. induction s as [|c s IH]; simpl; [reflexivity|].
  intros H. apply andb_true_iff in H as [Hc Hs].
  now rewrite (Hpq c Hc), (IH Hs).
Qed.

Lemma all_append (p : ascii -> bool) (a b : string) :
  all p (a ++ b) = all p a && all p b.
Proof.
  induction a as [|c a IH]; simpl; [reflexivity|].
  now rewrite IH, andb_assoc.
Qed.

Lemma plainByte_pathByte c : plainByte c = true -> pathByte c = true.
Proof.
  unfold plainByte, pathByte. intros H.
  now apply andb_true_iff in H as [H _].
Qed.

Lemma plainByte_not_slash c :
  plainByte c = true -> negb (Ascii.eqb c "/") = true.
Proof.
  unfold plainByte. intros H. now apply andb_true_iff in H as [_ H].
Qed.

Lemma pathByte_not_hash c :
  pathByte c = true -> negb (Ascii.eqb c "#") = true.
Proof. by_bytes c. Qed.

Lemma pathByte_not_question c :
  pathByte c = true -> negb (Ascii.eqb c "?") = true.
Proof. by_bytes c. Qed.

Lemma pathByte_not_percent c :
  pathByte c = true -> negb (Ascii.eqb c "%") = true.
Proof. by_bytes c. Qed.

Lemma pathByte_not_control c :
  pathByte c = true ->
  negb ((nat_of_ascii c <? 32)%nat || (nat_of_ascii c =? 127)%nat) = true.
Proof. by_bytes c. Qed.

(** *** Strings of path bytes pass through the parser unchanged *)

Lemma unescape_path (s : string) :
  all pathByte s = true -> unescape s encodePath = OK s.
Proof.
  induction s as [|c s IH]; intros H; [reflexivity|].
  simpl in H. apply andb_true_iff in H as [Hc Hs].
  pose proof (pathByte_not_percent c Hc) as Hp.
  apply negb_true_iff in Hp.
  cbn [unescape]. rewrite Hp, (IH Hs). cbn [isHostMode isQueryMode andb].
  destruct (Ascii.eqb c "+"); reflexivity.
Qed.

Lemma escape_path (s : string) :
  all pathByte s = true -> escape s encodePath = s.
Proof.
  induction s as [|c s IH]; intros H; [reflexivity|].
  simpl in H. apply andb_true_iff in H as [Hc Hs].
  unfold pathByte in Hc. apply negb_true_iff in Hc.
  cbn [escape]. now rewrite Hc, (IH Hs).
Qed.

Lemma no_control_bytes (s : string) :
  all pathByte s = true -> stringContainsCTLByte s = false.
Proof.
  intros H. unfold stringContainsCTLByte. apply negb_false_iff.
  revert H. apply all_impl. exact pathByte_not_control.
Qed.

Lemma Cut_hash_absent (s : string) :
  all pathByte s = true -> Cut s "#" = (s, "", false).
Proof.
  intros H. apply Cut_absent. revert H. apply all_impl.
  exact pathByte_not_hash.
Qed.

Lemma Cut_question_absent (s : string) :
  all pathByte s = true -> Cut s "?" = (s, "", false).
Proof.
  intros H. apply Cut_absent. revert H. apply all_impl.
  exact pathByte_not_question.
Qed.

Lemma Count_question_absent (s : string) :
  all pathByte s = true -> Count s "?" = 0.
Proof.
  intros H. unfold Count. cbn [Count_fuel].
  now rewrite (Cut_question_absent s H).
Qed.

(** *** Rooted paths of plain segments *)

Lemma plainSegment_inv (s : string) :
  plainSegment s = true ->
  String.eqb s "" = false /\ String.eqb s "." = false
  /\ String.eqb s ".." = false /\ all plainByte s = true.
Proof.
  unfold plainSegment. intros H.
  apply andb_true_iff in H as [H H4].
  apply andb_true_iff in H as [H H3].
  apply andb_true_iff in H as [H1 H2].
  now rewrite negb_true_iff in H1, H2, H3.
Qed.

Lemma rootedPath_app (a b : list string) :
  rootedPath (a ++ b) = rootedPath a ++ rootedPath b.
Proof.
  induction a as [|x a IH]; [reflexivity|].
  cbn [rootedPath List.app]. rewrite IH.
  now rewrite !append_assoc.
Qed.

Lemma rootedPath_pathBytes (segs : list string) :
  forallb plainSegment segs = true -> all pathByte (rootedPath segs) = true.
Proof.
  induction segs as [|x segs IH]; intros H; [reflexivity|].
  cbn [forallb] in H. apply andb_true_iff in H as [Hx Hs].
  apply plainSegment_inv in Hx as (_ & _ & _ & Hx).
  cbn [rootedPath]. change ("/" ++ x ++ rootedPath segs)
    with (String "/" (x ++ rootedPath segs)).
  cbn [all]. rewrite all_append, (IH Hs), andb_true_r.
  change (pathByte "/") with true. cbn [andb].
  revert Hx. apply all_impl. exact plainByte_pathByte.
Qed.

Lemma rootedPath_concat (seg : string) (segs : list string) :
  rootedPath (seg :: segs) = "/" ++ String.concat "/" (seg :: segs).
Proof.
  revert seg. induction segs as [|y segs IH]; intros seg.
  - cbn [rootedPath String.concat]. now rewrite append_nil_r.
  - change (rootedPath (seg :: y :: segs))
      with ("/" ++ seg ++ rootedPath (y :: segs)).
    rewrite IH. reflexivity.
Qed.

Lemma splitSlash_segment (s x : string) :
  all plainByte s = true ->
  splitSlash (s ++ x) =
  match splitSlash x with
  | e :: es => (s ++ e) :: es
  | [] => [s]
  end.
Proof.
  induction s as [|c s IH]; intros H.
  - cbn [append]. destruct (splitSlash x) eqn:E; [|reflexivity].
    destruct x as [|d x]; cbn [splitSlash] in E; [discriminate|].
    destruct (Ascii.eqb d "/"); [discriminate|].
    destruct (splitSlash x); discriminate.
  - cbn [all] in H. apply andb_true_iff in H as [Hc Hs].
    apply plainByte_not_slash, negb_true_iff in Hc.
    cbn [append splitSlash]. rewrite Hc, (IH Hs).
    destruct (splitSlash x); reflexivity.
Qed.

Lemma splitSlash_rootedPath (segs : list string) :
  forallb plainSegment segs = true ->
  splitSlash (rootedPath segs) = "" :: segs.
Proof.
  induction segs as [|x segs IH]; intros H; [reflexivity|].
  cbn [forallb] in H. apply andb_true_iff in H as [Hx Hs].
  apply plainSegment_inv in Hx as (_ & _ & _ & Hx).
  cbn [rootedPath]. change ("/" ++ x ++ rootedPath segs)
    with (String "/" (x ++ rootedPath segs)).
  cbn [splitSlash]. change (Ascii.eqb "/" "/") with true. cbv iota.
  rewrite (splitSlash_segment _ _ Hx), (IH Hs).
  now rewrite append_nil_r.
Qed.

Lemma cleanStep_plain (rooted : bool) (stack : list string) (seg : string) :
  plainSegment seg = true -> cleanStep rooted stack seg = seg :: stack.
Proof.
  intros H. apply plainSegment_inv in H as (H1 & H2 & H3 & _).
  unfold cleanStep. now rewrite H1, H2, H3.
Qed.

Lemma fold_cleanStep_plain (rooted : bool) (segs stack : list string) :
  forallb plainSegment segs = true ->
  fold_left (cleanStep rooted) segs stack = (rev segs ++ stack)%list.
Proof.
  revert stack. induction segs as [|x segs IH]; intros stack H; [reflexivity|].
  cbn [forallb] in H. apply andb_true_iff in H as [Hx Hs].
  cbn [fold_left rev]. rewrite (cleanStep_plain _ _ _ Hx), (IH _ Hs).
  now rewrite <- app_assoc.
Qed.

Lemma prefix_nil (s : string) : prefix "" s = true.
Proof. destruct s; reflexivity. Qed.

Lemma rootedPath_cons_eq (seg : string) (segs : list string) :
  rootedPath (seg :: segs) = String "/" (seg ++ rootedPath segs).
Proof. reflexivity. Qed.

Lemma rootedPath_rooted (seg : string) (segs : list string) :
  HasPrefix (rootedPath (seg :: segs)) "/" = true.
Proof.
  rewrite rootedPath_cons_eq. unfold HasPrefix. cbn [prefix].
  destruct (ascii_dec "/" "/") as [_|N]; [apply prefix_nil | now elim N].
Qed.

Lemma rootedPath_not_empty (seg : string) (segs : list string) :
  String.eqb (rootedPath (seg :: segs)) "" = false.
Proof. reflexivity. Qed.

(** [path.Clean] leaves a rooted path of plain segments alone. *)
Lemma Clean_rootedPath (seg : string) (segs : list string) :
  forallb plainSegment (seg :: segs) = true ->
  Clean (rootedPath (seg :: segs)) = rootedPath (seg :: segs).
Proof.
  intros H. unfold Clean. cbv zeta.
  rewrite rootedPath_not_empty, rootedPath_rooted, (splitSlash_rootedPath _ H).
  change (fold_left (cleanStep true) ("" :: seg :: segs) [])
    with (fold_left (cleanStep true) (seg :: segs) []).
  rewrite (fold_cleanStep_plain _ _ _ H), app_nil_r, rev_involutive.
  now rewrite rootedPath_concat.
Qed.

Lemma rootedPath_not_star (seg : string) (segs : list string) :
  String.eqb (rootedPath (seg :: segs)) "*" = false.
Proof. reflexivity. Qed.

Lemma getScheme_rooted (seg : string) (segs : list string) :
  getScheme (rootedPath (seg :: segs)) = OK ("", rootedPath (seg :: segs)).
Proof. reflexivity. Qed.

Lemma rootedPath_no_double_slash (seg : string) (segs : list string) :
  plainSegment seg = true ->
  HasPrefix (rootedPath (seg :: segs)) "//" = false.
Proof.
  intros H. apply plainSegment_inv in H as (H1 & _ & _ & H4).
  destruct seg as [|c seg]; [discriminate|].
  cbn [all] in H4. apply andb_true_iff in H4 as [Hc _].
  apply plainByte_not_slash, negb_true_iff, Ascii.eqb_neq in Hc.
  rewrite rootedPath_cons_eq. unfold HasPrefix. cbn [prefix append].
  destruct (ascii_dec "/" "/") as [_|N]; [|now elim N].
  destruct (ascii_dec "/" c) as [E|_]; [now elim Hc | reflexivity].
Qed.

Lemma parse_rootedPath (seg : string) (segs : list string) :
  forallb plainSegment (seg :: segs) = true ->
  parse (rootedPath (seg :: segs))
  = OK (withPath emptyURL (rootedPath (seg :: segs))).
Proof.
  intros H. pose proof (rootedPath_pathBytes _ H) as Hb.
  assert (Hseg : plainSegment seg = true).
  { cbn [forallb] in H. now apply andb_true_iff in H as [H _]. }
  unfold parse.
  rewrite (no_control_bytes _ Hb), rootedPath_not_star, getScheme_rooted.
  cbn [bindR ToLower].
  rewrite (Count_question_absent _ Hb), andb_false_r.
  rewrite (Cut_question_absent _ Hb).
  rewrite rootedPath_rooted, (rootedPath_no_double_slash _ _ Hseg).
  cbn [negb andb orb String.eqb]. rewrite andb_false_r.
  unfold setPath. rewrite (unescape_path _ Hb). cbn [bindR].
  rewrite (escape_path _ Hb), String.eqb_refl. reflexivity.
Qed.

Lemma Parse_rootedPath (seg : string) (segs : list string) :
  forallb plainSegment (seg :: segs) = true ->
  Parse (rootedPath (seg :: segs))
  = OK (withPath emptyURL (rootedPath (seg :: segs))).
Proof.
  intros H. unfold Parse.
  rewrite (Cut_hash_absent _ (rootedPath_pathBytes _ H)).
  now rewrite (parse_rootedPath _ _ H).
Qed.

Lemma resolveStep_plain (dst seg : string) (first : bool) :
  plainSegment seg = true ->
  resolveStep (dst, first) seg
  = ((if first then dst else dst ++ "/") ++ seg, false).
Proof.
  intros H. apply plainSegment_inv in H as (_ & H2 & H3 & _).
  unfold resolveStep. now rewrite H2, H3.
Qed.

Lemma fold_resolveStep_plain (segs : list string) (dst : string) :
  forallb plainSegment segs = true ->
  fold_left resolveStep segs (dst, false) = (dst ++ rootedPath segs, false).
Proof.
  revert dst. induction segs as [|x segs IH]; intros dst H.
  - cbn [fold_left rootedPath]. now rewrite append_nil_r.
  - cbn [forallb] in H. apply andb_true_iff in H as [Hx Hs].
    cbn [fold_left]. rewrite (resolveStep_plain _ _ _ Hx), (IH _ Hs).
    cbn [rootedPath]. now rewrite !append_assoc.
Qed.

Lemma last_plain (segs : list string) (d : string) :
  forallb plainSegment segs = true ->
  String.eqb d "." = false -> String.eqb d ".." = false ->
  String.eqb (List.last segs d) "." || String.eqb (List.last segs d) ".."
  = false.
Proof.
  revert d. induction segs as [|x segs IH]; intros d H H1 H2.
  - cbn [List.last]. now rewrite H1, H2.
  - cbn [forallb] in H. apply andb_true_iff in H as [Hx Hs].
    destruct segs as [|y segs].
    + cbn [List.last]. apply plainSegment_inv in Hx as (_ & E1 & E2 & _).
      now rewrite E1, E2.
    + change (List.last (x :: y :: segs) d) with (List.last (y :: segs) d).
      now apply IH.
Qed.

(** [resolvePath] returns a rooted reference of plain segments as it is. *)
Lemma resolvePath_rootedPath (base seg : string) (segs : list string) :
  forallb plainSegment (seg :: segs) = true ->
  resolvePath base (rootedPath (seg :: segs)) = rootedPath (seg :: segs).
Proof.
  intros H. unfold resolvePath.
  rewrite rootedPath_not_empty, rootedPath_rooted. cbn [negb].
  rewrite rootedPath_not_empty, (splitSlash_rootedPath _ H).
  change (fold_left resolveStep ("" :: seg :: segs) ("/", true))
    with (fold_left resolveStep (seg :: segs) ("/", false)).
  rewrite (fold_resolveStep_plain _ _ H).
  change (List.last ("" :: seg :: segs) "") with (List.last (seg :: segs) "").
  rewrite (last_plain (seg :: segs) "" H eq_refl eq_refl).
  change (drop 1 ("/" ++ rootedPath (seg :: segs)))
    with (rootedPath (seg :: segs)).
  now rewrite rootedPath_rooted.
Qed.

Lemma EscapedPath_withPath (u : URL) (p : string) :
  all pathByte p = true -> String.eqb p "*" = false ->
  EscapedPath (withPath u p) = p.
Proof.
  intros Hb Hs. unfold EscapedPath, withPath. cbn [RawPath Path].
  cbn [String.eqb negb andb]. now rewrite Hs, (escape_path _ Hb).
Qed.

(** A rooted reference of plain segments, resolved against a base without
    opaque part, replaces the path of the base. *)
Lemma URL_Parse_rootedPath (u : URL) (seg : string) (segs : list string) :
  Opaque u = "" ->
  forallb plainSegment (seg :: segs) = true ->
  URL_Parse u (rootedPath (seg :: segs))
  = OK (withPath u (rootedPath (seg :: segs))).
Proof.
  intros Ho H. pose proof (rootedPath_pathBytes _ H) as Hb.
  unfold URL_Parse. rewrite (Parse_rootedPath _ _ H). cbn [bindR].
  unfold ResolveReference.
  rewrite (EscapedPath_withPath _ _ Hb (rootedPath_not_star _ _)).
  cbn [withPath emptyURL Scheme Host User Opaque Path RawPath OmitHost
       ForceQuery RawQuery Fragment RawFragment].
  cbn [String.eqb negb orb andb].
  rewrite rootedPath_not_empty. cbn [andb].
  rewrite (resolvePath_rootedPath _ _ _ H).
  unfold setPath. rewrite (unescape_path _ Hb). cbn [bindR].
  rewrite (escape_path _ Hb), String.eqb_refl.
  cbn [Scheme Host User Opaque Path RawPath OmitHost
       ForceQuery RawQuery Fragment RawFragment].
  unfold withPath. now rewrite Ho.
Qed.

Lemma rootedPath_not_star_any (segs : list string) :
  String.eqb (rootedPath segs) "*" = false.
Proof. destruct segs; reflexivity. Qed.

Lemma rootedPath_no_extra_slash (segs : list string) :
  negb (String.eqb (rootedPath segs) "")
  && negb (HasPrefix (rootedPath segs) "/") = false.
Proof.
  destruct segs as [|x segs]; [reflexivity|].
  now rewrite rootedPath_rooted, andb_false_r.
Qed.

Lemma append_cons_not_empty (a b : string) (c : ascii) :
  String.eqb (a ++ String c b) "" = false.
Proof. destruct a; reflexivity. Qed.

Lemma EscapedPath_rootedPath (u : URL) (segs : list string) :
  Path u = rootedPath segs -> RawPath u = "" ->
  forallb plainSegment segs = true ->
  EscapedPath u = rootedPath segs.
Proof.
  intros Hp Hr H. unfold EscapedPath. rewrite Hp, Hr.
  cbn [String.eqb negb andb].
  now rewrite rootedPath_not_star_any, (escape_path _ (rootedPath_pathBytes _ H)).
Qed.

(** Writing out a plain base whose path was extended and whose query was
    set appends the extension and the query to the text of the base. *)
Lemma URL_String_extended (u : URL) (segs more : list string) (q : string) :
  plainBase u segs ->
  forallb plainSegment more = true ->
  String.eqb q "" = false ->
  URL_String (setRawQuery (withPath u (rootedPath (segs ++ more))) q)
  = URL_String u ++ rootedPath more ++ "?" ++ q.
Proof.
  intros (Ho & Hh & Hp & Hr & Hf & Hq & Hfr & Hs) Hm Hne.
  assert (Hall : forallb plainSegment (segs ++ more) = true)
    by (rewrite forallb_app, Hs, Hm; reflexivity).
  apply String.eqb_neq in Hh.
  unfold URL_String.
  rewrite (EscapedPath_rootedPath u segs Hp Hr Hs).
  rewrite (EscapedPath_rootedPath
             (setRawQuery (withPath u (rootedPath (segs ++ more))) q)
             (segs ++ more) eq_refl eq_refl Hall).
  cbn [setRawQuery withPath Scheme Host User Opaque Path RawPath OmitHost
       ForceQuery RawQuery Fragment RawFragment].
  rewrite Ho, Hh, Hf, Hq, Hfr, Hne.
  rewrite !rootedPath_no_extra_slash.
  destruct (OmitHost u), (User u) as [ui|];
    cbn [String.eqb negb orb andb append];
    rewrite ?orb_true_r; cbn [orb andb];
    rewrite !append_cons_not_empty; cbn [andb];
    now rewrite rootedPath_app, !append_assoc.
Qed.

Lemma Join_rooted (seg e : string) (segs more : list string) :
  forallb plainSegment ((seg :: segs) ++ more) = true ->
  String.eqb e "" = false ->
  rootedPath more = String "/" e ->
  Join [rootedPath (seg :: segs); e] = rootedPath ((seg :: segs) ++ more).
Proof.
  intros H He Hm. unfold Join. cbn [filter].
  rewrite rootedPath_not_empty, He. cbn [negb].
  change (String.concat "/" [rootedPath (seg :: segs); e])
    with (rootedPath (seg :: segs) ++ String "/" e).
  rewrite <- Hm, <- rootedPath_app.
  exact (Clean_rootedPath seg (segs ++ more) H).
Qed.

Lemma Encode_service_ticket (service ticket : string) :
  Values_Encode (Values_Add (Values_Add [] "service" service) "ticket" ticket)
  = "service=" ++ QueryEscape service ++ "&ticket=" ++ QueryEscape ticket.
Proof. reflexivity. Qed.

Lemma URL_Parse_relative (u : URL) (e : string) (more : list string) :
  plainEndpoint e more ->
  Opaque u = "" -> EscapedPath u = "" ->
  URL_Parse u e = OK (withPath u (rootedPath more)).
Proof.
  intros (Hm & Hp & He & _ & HP & HR) Ho Hesc.
  pose proof (rootedPath_pathBytes _ Hp) as Hb. rewrite Hm in Hb.
  assert (Hbe : all pathByte e = true).
  { cbn [all] in Hb. now apply andb_true_iff in Hb as [_ Hb]. }
  assert (Hstar : String.eqb e "*" = false).
  { destruct (String.eqb_spec e "*") as [E|_]; [|reflexivity].
    subst e. discriminate Hbe. }
  unfold URL_Parse. rewrite HP. cbn [bindR].
  unfold ResolveReference.
  rewrite (EscapedPath_withPath _ _ Hbe Hstar), Hesc, HR.
  cbn [withPath emptyURL Scheme Host User Opaque Path RawPath OmitHost
       ForceQuery RawQuery Fragment RawFragment].
  cbn [String.eqb negb orb andb].
  rewrite He. cbn [andb].
  unfold setPath. rewrite <- Hm, (unescape_path _ (rootedPath_pathBytes _ Hp)).
  cbn [bindR].
  rewrite (escape_path _ (rootedPath_pathBytes _ Hp)), String.eqb_refl.
  cbn [Scheme Host User Opaque Path RawPath OmitHost
       ForceQuery RawQuery Fragment RawFragment].
  unfold withPath. now rewrite Ho.
Qed.

Lemma plainEndpoint_serviceValidate :
  plainEndpoint "serviceValidate" ["serviceValidate"].
Proof. repeat split; reflexivity. Qed.

Lemma plainEndpoint_validate : plainEndpoint "validate" ["validate"].
Proof. repeat split; reflexivity. Qed.

Lemma plainEndpoint_p3 :
  plainEndpoint "p3/serviceValidate" ["p3"; "serviceValidate"].
Proof. repeat split; reflexivity. Qed.

Lemma ServiceValidateUrl_eq : ServiceValidateUrl = validateUrlFor "serviceValidate".
Proof. reflexivity. Qed.

Lemma ValidateUrl1_eq : ValidateUrl1 = validateUrlFor "validate".
Proof. reflexivity. Qed.

Lemma ValidateUrl3_eq : ValidateUrl3 = validateUrlFor "p3/serviceValidate".
Proof. reflexivity. Qed.

(** The URL that a builder returns for a plain base: the text of the base,
    the endpoint, and the query with the service and the ticket. *)
Lemma validateUrlFor_plain (e : string) (more : list string)
  (validator : ServiceTicketValidator) (serviceURL : URL) (ticket : string)
  (segs : list string) :
  plainEndpoint e more ->
  plainBase (casURL validator) segs ->
  validateUrlFor e validator serviceURL ticket
  = OK (URL_String (casURL validator) ++ String "/" e ++ "?"
        ++ "service=" ++ QueryEscape (sanitisedURLString serviceURL)
        ++ "&ticket=" ++ QueryEscape ticket).
Proof.
  intros He Hb.
  pose proof He as (Hm & Hp & Hne & Hc & _ & _).
  pose proof Hb as (Ho & _ & Hpath & Hr & _ & _ & _ & Hs).
  assert (HP : URL_Parse (casURL validator) (Join [Path (casURL validator); e])
               = OK (withPath (casURL validator) (rootedPath (segs ++ more)))).
  { rewrite Hpath. destruct segs as [|seg segs].
    - change (Join [rootedPath []; e]) with
        (match filter (fun x => negb (String.eqb x "")) [e] with
         | [] => ""
         | es => Clean (String.concat "/" es)
         end).
      cbn [filter]. rewrite Hne. cbn [negb String.concat]. rewrite Hc.
      apply (URL_Parse_relative _ _ _ He Ho).
      exact (EscapedPath_rootedPath _ [] Hpath Hr eq_refl).
    - assert (Hall : forallb plainSegment ((seg :: segs) ++ more) = true)
        by (rewrite forallb_app, Hs, Hp; reflexivity).
      rewrite (Join_rooted _ _ _ _ Hall Hne Hm).
      exact (URL_Parse_rootedPath _ _ _ Ho Hall). }
  unfold validateUrlFor. rewrite HP.
  change (URL_Query (withPath (casURL validator) (rootedPath (segs ++ more))))
    with (@nil (string * list string)).
  rewrite Encode_service_ticket.
  cbv zeta.
  rewrite (URL_String_extended _ segs more
             ("service=" ++ QueryEscape (sanitisedURLString serviceURL)
              ++ "&ticket=" ++ QueryEscape ticket) Hb Hp eq_refl), Hm.
  reflexivity.
Qed.

(** *** Query components survive escaping *)

Lemma escape_cons (c : ascii) (s : string) (mode : encoding) :
  escape (String c s) mode = escape (String c "") mode ++ escape s mode.
Proof.
  cbn [escape].
  destruct (shouldEscape c mode); [|reflexivity].
  destruct (Ascii.eqb c " " && isQueryMode mode); reflexivity.
Qed.

Lemma escaped_byte_notSeparator (c : ascii) :
  all notSeparator (QueryEscape (String c "")) = true.
Proof. by_bytes c. Qed.

Lemma unescape_escaped_byte (c : ascii) (r : string) :
  QueryUnescape (QueryEscape (String c "") ++ r)
  = bindR (QueryUnescape r) (fun r' => OK (String c r')).
Proof. by_bytes c. Qed.

Lemma QueryEscape_cons (c : ascii) (s : string) :
  QueryEscape (String c s) = QueryEscape (String c "") ++ QueryEscape s.
Proof. apply escape_cons. Qed.

Lemma QueryEscape_notSeparator (s : string) :
  all notSeparator (QueryEscape s) = true.
Proof.
  induction s as [|c s IH]; [reflexivity|].
  now rewrite QueryEscape_cons, all_append, IH, escaped_byte_notSeparator.
Qed.

(** [QueryUnescape] undoes [QueryEscape]. *)
Lemma QueryUnescape_QueryEscape (s : string) :
  QueryUnescape (QueryEscape s) = OK s.
Proof.
  induction s as [|c s IH]; [reflexivity|].
  now rewrite QueryEscape_cons, unescape_escaped_byte, IH.
Qed.

Lemma notSeparator_not (sep : ascii) :
  oneOf sep "&=;" = true ->
  forall x, notSeparator x = true -> negb (Ascii.eqb x sep) = true.
Proof.
  intros Hsep x Hx. apply negb_true_iff, Ascii.eqb_neq. intros ->.
  unfold notSeparator in Hx. now rewrite Hsep in Hx.
Qed.

Lemma escaped_free_of (sep : ascii) (s : string) :
  oneOf sep "&=;" = true ->
  all (fun x => negb (Ascii.eqb x sep)) (QueryEscape s) = true.
Proof.
  intros Hsep. apply (all_impl notSeparator).
  - exact (notSeparator_not sep Hsep).
  - apply QueryEscape_notSeparator.
Qed.

Lemma encodedPair_free_of (sep : ascii) (k x : string) :
  oneOf sep "&;" = true ->
  all (fun c => negb (Ascii.eqb c sep)) (encodedPair k x) = true.
Proof.
  intros Hsep. unfold encodedPair.
  assert (Hsep' : oneOf sep "&=;" = true).
  { cbn [oneOf] in *. apply orb_true_iff in Hsep as [H|H].
    - now rewrite H.
    - rewrite orb_false_r in H. rewrite H. now rewrite !orb_true_r. }
  rewrite all_append, (escaped_free_of sep k Hsep').
  change ("=" ++ QueryEscape x) with (String "=" (QueryEscape x)).
  cbn [all andb]. rewrite (escaped_free_of sep x Hsep'), andb_true_r.
  apply negb_true_iff, Ascii.eqb_neq. intros <-. discriminate Hsep.
Qed.

Lemma Values_Has_Add (m : Values) (k x key : string) :
  Values_Has (Values_Add m k x) key = Values_Has m key || String.eqb k key.
Proof.
  unfold Values_Has. induction m as [|[k' vs] m IH].
  - cbn [Values_Add Values_lookup]. now destruct (String.eqb k key).
  - cbn [Values_Add Values_lookup].
    destruct (String.eqb_spec k' k) as [E|N].
    + subst k'. cbn [Values_lookup].
      destruct (String.eqb k key); [reflexivity|].
      now rewrite orb_false_r.
    + cbn [Values_lookup]. destruct (String.eqb k' key); [reflexivity|].
      exact IH.
Qed.

(** One round of [parseQuery] on a query that begins with an encoded
    pair. *)
Lemma parseQuery_pair (fuel : nat) (m : Values) (k x rest q' : string) :
  Cut (encodedPair k x ++ rest) "&" = (encodedPair k x, q', true)
  \/ Cut (encodedPair k x ++ rest) "&" = (encodedPair k x, q', false) ->
  parseQuery_fuel (S fuel) m (encodedPair k x ++ rest)
  = parseQuery_fuel fuel (Values_Add m k x) q'.
Proof.
  intros HC. cbn [parseQuery_fuel].
  assert (Hne : String.eqb (encodedPair k x ++ rest) "" = false).
  { unfold encodedPair. rewrite append_assoc.
    change ("=" ++ QueryEscape x) with (String "=" (QueryEscape x)).
    change (String "=" (QueryEscape x) ++ rest)
      with (String "=" (QueryEscape x ++ rest)).
    apply append_cons_not_empty. }
  rewrite Hne.
  assert (Hsemi : Contains (encodedPair k x) ";" = false).
  { unfold Contains.
    now rewrite (Cut_absent ";" "" _ (encodedPair_free_of ";" k x eq_refl)). }
  assert (Hne' : String.eqb (encodedPair k x) "" = false).
  { unfold encodedPair.
    change ("=" ++ QueryEscape x) with (String "=" (QueryEscape x)).
    apply append_cons_not_empty. }
  assert (Heq : Cut (encodedPair k x) "=" = (QueryEscape k, QueryEscape x, true)).
  { unfold encodedPair.
    apply (Cut_first "=" "" (QueryEscape k) (QueryEscape x)).
    now apply escaped_free_of. }
  destruct HC as [HC|HC]; rewrite HC, Hsemi, Hne', Heq,
    !QueryUnescape_QueryEscape; reflexivity.
Qed.

Lemma Values_Encode_pairs (v : Values) :
  Values_Encode v = encodePairs (pairsOf (sortByKey v)).
Proof.
  unfold Values_Encode, encodePairs, pairsOf. f_equal.
  induction (sortByKey v) as [|e w IH]; [reflexivity|].
  cbn [flat_map]. now rewrite map_app, map_map, IH.
Qed.

Lemma encodePairs_cons (p : string * string) (ps : list (string * string)) :
  exists rest q' found,
    encodePairs (p :: ps) = encodedPair (fst p) (snd p) ++ rest
    /\ Cut (encodedPair (fst p) (snd p) ++ rest) "&"
       = (encodedPair (fst p) (snd p), q', found)
    /\ q' = encodePairs ps.
Proof.
  destruct ps as [|p2 ps].
  - exists "", "", false. repeat split.
    + unfold encodePairs. cbn [map String.concat]. now rewrite append_nil_r.
    + rewrite append_nil_r.
      apply (Cut_absent "&" ""), encodedPair_free_of. reflexivity.
  - exists ("&" ++ encodePairs (p2 :: ps)), (encodePairs (p2 :: ps)), true.
    repeat split.
    apply (Cut_first "&" ""), encodedPair_free_of. reflexivity.
Qed.

(** Parsing an encoded query adds no key that was not encoded. *)
Lemma parseQuery_encoded_keys (key : string) (fuel : nat) :
  forall (m : Values) (ps : list (string * string)),
    Forall (fun p => fst p <> key) ps ->
    Values_Has m key = false ->
    Values_Has (parseQuery_fuel fuel m (encodePairs ps)) key = false.
Proof.
  induction fuel as [|fuel IH]; intros m ps Hps Hm; [exact Hm|].
  destruct ps as [|p ps].
  - exact Hm.
  - destruct (encodePairs_cons p ps) as (rest & q' & found & E & HC & Hq).
    rewrite E, (parseQuery_pair fuel m _ _ rest q'), Hq.
    + inversion Hps as [|? ? Hp Hps']; subst.
      apply IH; [exact Hps'|].
      rewrite Values_Has_Add, Hm. cbn [orb].
      now apply String.eqb_neq.
    + destruct found; [left | right]; exact HC.
Qed.

Lemma insertByKey_Forall (P : string * list string -> Prop)
  (e : string * list string) (v : Values) :
  P e -> Forall P v -> Forall P (insertByKey e v).
Proof.
  intros He Hv. induction Hv as [|x v Hx Hv IH]; cbn [insertByKey].
  - now constructor.
  - destruct (String.leb (fst e) (fst x)); repeat constructor; assumption.
Qed.

Lemma sortByKey_Forall (P : string * list string -> Prop) (v : Values) :
  Forall P v -> Forall P (sortByKey v).
Proof.
  intros Hv. induction Hv as [|x v Hx Hv IH]; [constructor|].
  cbn [sortByKey fold_right]. now apply insertByKey_Forall.
Qed.

Lemma Values_Del_Forall (v : Values) (key : string) :
  Forall (fun e => fst e <> key) (Values_Del v key).
Proof.
  apply Forall_forall. intros e He. unfold Values_Del in He.
  apply filter_In in He as [_ He].
  now apply negb_true_iff, String.eqb_neq in He.
Qed.

Lemma pairsOf_Forall (v : Values) (key : string) :
  Forall (fun e => fst e <> key) v ->
  Forall (fun p => fst p <> key) (pairsOf v).
Proof.
  intros Hv. unfold pairsOf. apply Forall_flat_map.
  revert Hv. apply Forall_impl. intros e He.
  apply Forall_map, Forall_forall. intros x _. exact He.
Qed.

(** A query that was encoded after a key was deleted no longer holds the
    key when it is parsed again. *)
Lemma deleted_key_stays_out (v : Values) (key : string) :
  Values_Has (ParseQuery (Values_Encode (Values_Del v key))) key = false.
Proof.
  unfold ParseQuery. rewrite Values_Encode_pairs.
  apply parseQuery_encoded_keys; [|reflexivity].
  apply pairsOf_Forall, sortByKey_Forall, Values_Del_Forall.
Qed.

(** *** A cleaned path never begins with two slashes *)

Lemma splitSlash_slashFree (s : string) :
  Forall (fun e => all (fun c => negb (Ascii.eqb c "/")) e = true)
    (splitSlash s).
Proof.
  induction s as [|c s IH]; cbn [splitSlash].
  - repeat constructor.
  - destruct (Ascii.eqb c "/") eqn:Ec.
    + constructor; [reflexivity | exact IH].
    + destruct (splitSlash s) as [|e es].
      * repeat constructor. cbn [all]. now rewrite Ec.
      * inversion IH as [|? ? He Hes]; subst. constructor; [|exact Hes].
        cbn [all]. now rewrite Ec, He.
Qed.

Lemma cleanStep_kept (rooted : bool) (stack : list string) (elem : string) :
  all (fun c => negb (Ascii.eqb c "/")) elem = true ->
  Forall keptElement stack ->
  Forall keptElement (cleanStep rooted stack elem).
Proof.
  intros He Hs. unfold cleanStep.
  destruct (String.eqb_spec elem "") as [|Hne]; [exact Hs|].
  destruct (String.eqb_spec elem ".") as [|_]; [exact Hs|].
  assert (Hk : keptElement elem) by (split; assumption).
  destruct (String.eqb_spec elem "..") as [_|_].
  - destruct stack as [|top rest].
    + destruct rooted; repeat constructor; assumption.
    + destruct (String.eqb top "..").
      * now constructor.
      * now inversion Hs.
  - now constructor.
Qed.

Lemma fold_cleanStep_kept (rooted : bool) (elems stack : list string) :
  Forall (fun e => all (fun c => negb (Ascii.eqb c "/")) e = true) elems ->
  Forall keptElement stack ->
  Forall keptElement (fold_left (cleanStep rooted) elems stack).
Proof.
  revert stack. induction elems as [|e elems IH]; intros stack He Hs.
  - exact Hs.
  - inversion He as [|? ? H1 H2]; subst. cbn [fold_left].
    apply IH; [exact H2|]. now apply cleanStep_kept.
Qed.

Lemma concat_kept_head (l : list string) :
  Forall keptElement l -> l <> [] ->
  exists c rest, String.concat "/" l = String c rest /\ c <> "/"%char.
Proof.
  intros Hl Hne. destruct l as [|e l]; [now elim Hne|].
  inversion Hl as [|? ? [He1 He2] _]; subst.
  destruct e as [|c e]; [now elim He1|].
  cbn [all] in He2. apply andb_true_iff in He2 as [Hc _].
  apply negb_true_iff, Ascii.eqb_neq in Hc.
  destruct l as [|e2 l]; cbn [String.concat append]; eauto.
Qed.

Lemma prefix_two_slashes (c : ascii) (rest : string) :
  c <> "/"%char ->
  prefix "//" (String c rest) = false
  /\ prefix "//" (String "/" (String c rest)) = false.
Proof.
  intros Hc. cbn [prefix].
  destruct (ascii_dec "/" c) as [E|_]; [now elim Hc; symmetry|].
  destruct (ascii_dec "/" "/") as [_|N]; [|now elim N].
  now split.
Qed.

(** [path.Clean] never returns a path that begins with two slashes. *)
Lemma Clean_no_double_slash (p : string) : HasPrefix (Clean p) "//" = false.
Proof.
  unfold Clean. destruct (String.eqb p ""); [reflexivity|]. cbv zeta.
  pose proof (fold_cleanStep_kept (HasPrefix p "/") (splitSlash p) []
                (splitSlash_slashFree p) (Forall_nil _)) as Hk.
  apply Forall_rev in Hk.
  set (stack := fold_left (cleanStep (HasPrefix p "/")) (splitSlash p) []) in *.
  destruct (HasPrefix p "/").
  - destruct (rev stack) as [|e l] eqn:E; [reflexivity|].
    destruct (concat_kept_head (e :: l) Hk) as (c & rest & -> & Hc);
      [discriminate|].
    exact (proj2 (prefix_two_slashes c rest Hc)).
  - destruct stack as [|e l] eqn:E; [reflexivity|].
    destruct (concat_kept_head (rev (e :: l)) Hk) as (c & rest & -> & Hc).
    + intros H. apply (f_equal (@List.length string)) in H.
      rewrite length_rev in H. discriminate H.
    + exact (proj1 (prefix_two_slashes c rest Hc)).
Qed.

(** So does [path.Join]: the reference that the URL builders parse has no
    authority part. *)
Lemma Join_no_double_slash (elem : list string) :
  HasPrefix (Join elem) "//" = false.
Proof.
  unfold Join. destruct (filter _ elem); [reflexivity|].
  apply Clean_no_double_slash.
Qed.


(** *** The query in the text of a URL *)
Import URLSpec.

Lemma all_drop (p : ascii -> bool) (n : nat) (s : string) :
  all p s = true -> all p (drop n s) = true.
Proof.
  revert s. induction n as [|n IH]; intros s H; [exact H|].
  destruct s as [|c s]; [reflexivity|]. simpl in H |- *.
  apply andb_true_iff in H as [_ H]. now apply IH.
Qed.

Lemma all_substring (p : ascii -> bool) (n m : nat) (s : string) :
  all p s = true -> all p (substring n m s) = true.
Proof.
  revert n m. induction s as [|c s IH]; intros n m H.
  - destruct n, m; reflexivity.
  - simpl in H. apply andb_true_iff in H as [Hc H].
    destruct n as [|n]; simpl.
    + destruct m as [|m]; [reflexivity|]. simpl. now rewrite Hc, IH.
    + now apply IH.
Qed.

Lemma all_and (p q : ascii -> bool) (s : string) :
  all p s = true -> all q s = true -> all (fun c => p c && q c) s = true.
Proof.
  induction s as [|c s IH]; simpl; [reflexivity|]. intros Hp Hq.
  apply andb_true_iff in Hp as [Hc Hp]. apply andb_true_iff in Hq as [Hd Hq].
  now rewrite Hc, Hd, IH.
Qed.

Lemma Cut_all (p : ascii -> bool) (s sep before after : string) (found : bool) :
  all p s = true -> Cut s sep = (before, after, found) ->
  all p before = true /\ all p after = true.
Proof.
  intros Hs HC. destruct found.
  - apply Cut_found in HC. subst s. rewrite !all_append in Hs.
    apply andb_true_iff in Hs as [Hb Hs]. apply andb_true_iff in Hs as [_ Ha].
    now split.
  - apply Cut_missing in HC as [-> ->]. now split.
Qed.

Lemma Cut_before_free (c : ascii) (s before after : string) (found : bool) :
  Cut s (String c "") = (before, after, found) ->
  all (fun x => negb (Ascii.eqb x c)) before = true.
Proof.
  revert before. induction s as [|x s IH]; intros before; rewrite Cut_eq.
  - simpl. intros H. now inversion H.
  - simpl. destruct (ascii_dec c x) as [E|E].
    + destruct s; intros H; now inversion H.
    + destruct (Cut s (String c "")) as [[b a] f]. intros H. inversion H; subst.
      simpl. rewrite (IH b eq_refl), andb_true_r.
      apply negb_true_iff, Ascii.eqb_neq. congruence.
Qed.

Lemma Cut_skip (c : ascii) (p s : string) :
  all (fun x => negb (Ascii.eqb x c)) p = true ->
  Cut (p ++ s) (String c "")
  = let '(before, after, found) := Cut s (String c "") in
    (p ++ before, after, found).
Proof.
  intros Hp. induction p as [|x p IH].
  - simpl. now destruct (Cut s (String c "")) as [[b a] f].
  - simpl in Hp. apply andb_true_iff in Hp as [Hx Hp].
    change (String x p ++ s) with (String x (p ++ s)).
    rewrite Cut_eq, (prefix_other_head _ _ _ _ Hx), (IH Hp).
    now destruct (Cut s (String c "")) as [[b a] f].
Qed.

Lemma string_of_list_ascii_app (l1 l2 : list ascii) :
  string_of_list_ascii (l1 ++ l2)
  = string_of_list_ascii l1 ++ string_of_list_ascii l2.
Proof. induction l1 as [|c l1 IH]; simpl; [reflexivity | now rewrite IH]. Qed.

Lemma HasSuffix_last (s : string) (c : ascii) :
  HasSuffix s (String c "") = true -> exists s0, s = s0 ++ String c "".
Proof.
  unfold HasSuffix. simpl.
  destruct (rev (list_ascii_of_string s)) as [|d l] eqn:E; [discriminate|].
  intros H. apply andb_true_iff in H as [H _]. apply Ascii.eqb_eq in H.
  subst d. exists (string_of_list_ascii (rev l)).
  rewrite <- (string_of_list_ascii_of_string s).
  rewrite <- (rev_involutive (list_ascii_of_string s)), E. simpl.
  now rewrite string_of_list_ascii_app.
Qed.

Lemma append_last_free (c : ascii) (s0 b a : string) :
  all (fun x => negb (Ascii.eqb x c)) a = true ->
  s0 ++ String c "" = b ++ String c a -> a = "" /\ s0 = b.
Proof.
  intros Ha. revert b. induction s0 as [|y s0 IH]; intros b E.
  - destruct b as [|x b]; simpl in E.
    + inversion E. now split.
    + inversion E as [[E1 E2]]. now destruct b.
  - destruct b as [|x b]; simpl in E.
    + inversion E as [[E1 E2]]. subst a. rewrite all_append in Ha. simpl in Ha.
      rewrite Ascii.eqb_refl in Ha. simpl in Ha. rewrite andb_false_r in Ha.
      discriminate.
    + inversion E as [[E1 E2]]. destruct (IH b E2) as [-> ->]. now split.
Qed.

(** The test of [parse] for a final question mark that is the only one:
    [Cut] then finds it at the end. *)
Lemma Cut_only_final_question (s : string) :
  HasSuffix s "?" = true -> Count s "?" = 1 ->
  Cut s "?" = (substring 0 (String.length s - 1) s, "", true).
Proof.
  intros Hsuf Hcount. unfold Count in Hcount. cbn [Count_fuel] in Hcount.
  destruct (Cut s "?") as [[b a] found] eqn:HC.
  destruct found; [|discriminate].
  pose proof (Cut_found _ _ _ _ HC) as Es.
  assert (Ha : all (fun x => negb (Ascii.eqb x "?")) a = true).
  { destruct (String.length s) as [|n] eqn:El.
    - subst s. rewrite !length_append in El. simpl in El. lia.
    - cbn [Count_fuel] in Hcount.
      destruct (Cut a "?") as [[b2 a2] f2] eqn:HC2.
      destruct f2; [discriminate|].
      pose proof (Cut_before_free _ _ _ _ _ HC2) as Hb2.
      apply Cut_missing in HC2 as [-> _]. exact Hb2. }
  destruct (HasSuffix_last _ _ Hsuf) as [s0 E0].
  assert (E : s0 ++ "?" = b ++ String "?" a) by now rewrite <- E0, Es.
  destruct (append_last_free _ _ _ _ Ha E) as [-> ->].
  rewrite E0, length_append. simpl.
  replace (String.length b + 1 - 1)%nat with (String.length b) by lia.
  now rewrite substring_0_append.
Qed.

Lemma URL_String_parts (u : URL) :
  URL_String u
  = beforeQuery u
    ++ (if ForceQuery u || negb (String.eqb (RawQuery u) "")
        then "?" ++ RawQuery u else "")
    ++ (if String.eqb (Fragment u) "" then ""
        else "#" ++ EscapedFragment u).
Proof.
  unfold URL_String, beforeQuery. cbv zeta.
  destruct (ForceQuery u || negb (String.eqb (RawQuery u) ""));
    destruct (String.eqb (Fragment u) "");
    rewrite ?append_nil_r, ?append_assoc; reflexivity.
Qed.

Lemma notMark_question (c : ascii) :
  notMark c = true -> negb (Ascii.eqb c "?") = true.
Proof. unfold notMark. intros H. now apply andb_true_iff in H. Qed.

Lemma notMark_hash (c : ascii) :
  notMark c = true -> negb (Ascii.eqb c "#") = true.
Proof. unfold notMark. intros H. now apply andb_true_iff in H. Qed.

Lemma rawQueryOf_parts (before q frag : string) (hasQuery hasFragment : bool) :
  all notMark before = true ->
  all (fun c => negb (Ascii.eqb c "#")) q = true ->
  (hasQuery = false -> q = "") ->
  rawQueryOf (before ++ (if hasQuery then "?" ++ q else "")
              ++ (if hasFragment then "#" ++ frag else ""))
  = q.
Proof.
  intros Hb Hq Hempty. unfold rawQueryOf, queryPart.
  assert (Hbh : all (fun c => negb (Ascii.eqb c "#")) before = true)
    by (revert Hb; apply all_impl; exact notMark_hash).
  assert (Hbq : all (fun c => negb (Ascii.eqb c "?")) before = true)
    by (revert Hb; apply all_impl; exact notMark_question).
  set (mid := before ++ (if hasQuery then "?" ++ q else "")).
  assert (Hmid : all (fun c => negb (Ascii.eqb c "#")) mid = true).
  { unfold mid. rewrite all_append, Hbh. destruct hasQuery; [|reflexivity].
    change ("?" ++ q) with (String "?" q). cbn [all andb]. now rewrite Hq. }
  assert (Hcut : Cut mid "?" = (before, q, hasQuery)).
  { unfold mid. destruct hasQuery.
    - exact (Cut_first "?" "" before q Hbq).
    - rewrite (Hempty eq_refl), append_nil_r. exact (Cut_absent "?" "" _ Hbq). }
  replace (before ++ (if hasQuery then "?" ++ q else "")
           ++ (if hasFragment then "#" ++ frag else ""))
    with (mid ++ (if hasFragment then "#" ++ frag else ""))
    by (unfold mid; now rewrite append_assoc).
  destruct hasFragment.
  - rewrite (Cut_first "#" "" mid frag Hmid), Hcut. reflexivity.
  - rewrite append_nil_r, (Cut_absent "#" "" mid Hmid), Hcut. reflexivity.
Qed.

Lemma escaped_host_byte_notMark (c : ascii) :
  all notMark (escape (String c "") encodeHost) = true.
Proof. by_bytes c. Qed.

Lemma escaped_path_byte_notMark (c : ascii) :
  all notMark (escape (String c "") encodePath) = true.
Proof. by_bytes c. Qed.

Lemma escape_host_notMark (s : string) :
  all notMark (escape s encodeHost) = true.
Proof.
  induction s as [|c s IH]; [reflexivity|].
  now rewrite escape_cons, all_append, IH, escaped_host_byte_notMark.
Qed.

Lemma escape_path_notMark (s : string) :
  all notMark (escape s encodePath) = true.
Proof.
  induction s as [|c s IH]; [reflexivity|].
  now rewrite escape_cons, all_append, IH, escaped_path_byte_notMark.
Qed.

Lemma validEncoded_byte_notMark (c : ascii) :
  oneOf c "!$&'()*+,;=:@[]%" || negb (shouldEscape c encodePath) = true ->
  notMark c = true.
Proof. by_bytes c. Qed.

Lemma EscapedPath_notMark (u : URL) : all notMark (EscapedPath u) = true.
Proof.
  unfold EscapedPath. cbv zeta.
  destruct (negb (String.eqb (RawPath u) "")); cbn [andb].
  - destruct (validEncoded (RawPath u) encodePath) eqn:E; cbn [andb].
    + destruct (match unescape (RawPath u) encodePath with
                | OK p => String.eqb p (Path u) | Err _ => false end).
      * revert E. apply all_impl. exact validEncoded_byte_notMark.
      * destruct (String.eqb (Path u) "*"); [reflexivity|].
        apply escape_path_notMark.
    + destruct (String.eqb (Path u) "*"); [reflexivity|].
      apply escape_path_notMark.
  - destruct (String.eqb (Path u) "*"); [reflexivity|].
    apply escape_path_notMark.
Qed.

Lemma beforeQuery_notMark (u : URL) :
  markFree u -> all notMark (beforeQuery u) = true.
Proof.
  intros (Hs & Ho & Hu). unfold beforeQuery. cbv zeta.
  pose proof (EscapedPath_notMark u) as Hp.
  pose proof (escape_host_notMark (Host u)) as Hh.
  assert (H0 : all notMark
                 (if String.eqb (Scheme u) "" then "" else Scheme u ++ ":")
               = true).
  { destruct (String.eqb (Scheme u) ""); [reflexivity|].
    now rewrite all_append, Hs. }
  assert (Hui : all notMark
                  match User u with Some ui => ui ++ "@" | None => "" end
                = true).
  { unfold userText in Hu. destruct (User u); [|reflexivity].
    now rewrite all_append, Hu. }
  assert (Hh' : all notMark
                  (if String.eqb (Host u) "" then ""
                   else escape (Host u) encodeHost) = true)
    by now destruct (String.eqb (Host u) "").
  set (buf0 := if String.eqb (Scheme u) "" then "" else Scheme u ++ ":") in *.
  set (ui := match User u with Some ui => ui ++ "@" | None => "" end) in *.
  set (host := if String.eqb (Host u) "" then ""
               else escape (Host u) encodeHost) in *.
  set (path := EscapedPath u) in *.
  clearbody buf0 ui host path.
  destruct (Cut path "/") as [[segment rest] found].
  repeat match goal with
         | |- context [if ?b then _ else _] => destruct b
         end;
    rewrite ?all_append, ?H0, ?Ho, ?Hp, ?Hh', ?Hui; reflexivity.
Qed.

Lemma Values_Encode_no_hash (v : Values) :
  all (fun c => negb (Ascii.eqb c "#")) (Values_Encode v) = true.
Proof.
  rewrite Values_Encode_pairs. unfold encodePairs.
  induction (pairsOf (sortByKey v)) as [|p ps IH]; [reflexivity|].
  assert (Hp : all (fun c => negb (Ascii.eqb c "#"))
                 (encodedPair (fst p) (snd p)) = true).
  { unfold encodedPair.
    assert (E : forall s, all (fun c => negb (Ascii.eqb c "#")) (QueryEscape s)
                          = true).
    { induction s as [|c s IHs]; [reflexivity|].
      rewrite QueryEscape_cons, all_append, IHs, andb_true_r.
      clear. by_bytes c. }
    rewrite all_append, E. change ("=" ++ QueryEscape (snd p))
      with (String "=" (QueryEscape (snd p))).
    cbn [all andb]. now rewrite E. }
  cbn [map String.concat]. destruct (map _ ps) as [|x xs] eqn:Em.
  - exact Hp.
  - rewrite all_append, Hp. change ("&" ++ String.concat "&" (x :: xs))
      with (String "&" (String.concat "&" (x :: xs))).
    cbn [all andb]. exact IH.
Qed.

(** The query of the text of a URL is its [RawQuery], when the latter
    holds no number sign. *)
Lemma rawQueryOf_URL_String (u : URL) :
  markFree u ->
  all (fun c => negb (Ascii.eqb c "#")) (RawQuery u) = true ->
  rawQueryOf (URL_String u) = RawQuery u.
Proof.
  intros Hu Hq. rewrite URL_String_parts.
  replace (if String.eqb (Fragment u) "" then ""
           else "#" ++ EscapedFragment u)
    with (if negb (String.eqb (Fragment u) "")
          then "#" ++ EscapedFragment u else "")
    by now destruct (String.eqb (Fragment u) "").
  apply rawQueryOf_parts; [now apply beforeQuery_notMark | exact Hq |].
  intros H. apply orb_false_iff in H as [_ H].
  apply negb_false_iff in H. now apply String.eqb_eq in H.
Qed.

Lemma rawQueryOf_sanitised (u : URL) :
  markFree u ->
  rawQueryOf (sanitisedURLString u)
  = Values_Encode (Values_Del (URL_Query u) "ticket").
Proof.
  intros Hu. unfold sanitisedURLString.
  rewrite rawQueryOf_URL_String.
  - reflexivity.
  - exact Hu.
  - apply Values_Encode_no_hash.
Qed.

Lemma getScheme_from_spec (rawURL : string) :
  forall (rest : string) (seen : list ascii) (scheme r : string),
    getScheme_from seen rawURL rest = OK (scheme, r) ->
    (scheme = "" /\ r = rawURL)
    \/ exists mid,
         rest = mid ++ ":" ++ r
         /\ scheme = string_of_list_ascii (rev seen) ++ mid
         /\ all schemeByte mid = true.
Proof.
  induction rest as [|c rest IH]; intros seen scheme r; cbn [getScheme_from].
  - intros H. inversion H. now left.
  - assert (Hrec : schemeByte c = true ->
                   getScheme_from (c :: seen) rawURL rest = OK (scheme, r) ->
                   (scheme = "" /\ r = rawURL)
                   \/ exists mid,
                        String c rest = mid ++ ":" ++ r
                        /\ scheme = string_of_list_ascii (rev seen) ++ mid
                        /\ all schemeByte mid = true).
    { intros Hc H. destruct (IH _ _ _ H) as [Hl|(mid & -> & -> & Hm)];
        [now left|]. right. exists (String c mid). repeat split.
      - cbn [rev]. rewrite string_of_list_ascii_app, append_assoc.
        reflexivity.
      - simpl. now rewrite Hc, Hm. }
    destruct (isLetter c) eqn:El.
    { apply Hrec. unfold schemeByte. now rewrite El. }
    destruct (between 48 57 c || oneOf c "+-.") eqn:Ed.
    { destruct seen as [|x seen'].
      - intros H. inversion H. now left.
      - apply Hrec. unfold schemeByte. rewrite El. exact Ed. }
    destruct (Ascii.eqb c ":") eqn:Ec.
    { apply Ascii.eqb_eq in Ec. subst c. destruct seen as [|x seen'].
      - discriminate.
      - intros H. inversion H; subst. right. exists "". repeat split.
        now rewrite append_nil_r. }
    intros H. inversion H. now left.
Qed.

Lemma getScheme_spec (rawURL scheme rest : string) :
  getScheme rawURL = OK (scheme, rest) ->
  (scheme = "" /\ rest = rawURL)
  \/ (rawURL = scheme ++ ":" ++ rest /\ all schemeByte scheme = true).
Proof.
  intros H. destruct (getScheme_from_spec _ _ _ _ _ H)
    as [Hl|(mid & E & -> & Hm)]; [now left|].
  right. now split.
Qed.

Lemma schemeByte_lower_notMark (c : ascii) :
  schemeByte c = true -> notMark (ToLowerByte c) = true.
Proof. by_bytes c. Qed.

Lemma schemeByte_not_question (c : ascii) :
  schemeByte c = true -> negb (Ascii.eqb c "?") = true.
Proof. by_bytes c. Qed.

Lemma ToLower_scheme_notMark (s : string) :
  all schemeByte s = true -> all notMark (ToLower s) = true.
Proof.
  induction s as [|c s IH]; simpl; [reflexivity|]. intros H.
  apply andb_true_iff in H as [Hc H].
  now rewrite (schemeByte_lower_notMark c Hc), IH.
Qed.

Lemma setPath_fields (u u' : URL) (p : string) :
  setPath u p = OK u' ->
  Scheme u' = Scheme u /\ Opaque u' = Opaque u /\ User u' = User u
  /\ RawQuery u' = RawQuery u.
Proof.
  unfold setPath, bindR. destruct (unescape p encodePath); [|discriminate].
  intros H. inversion H. repeat split.
Qed.

Lemma setFragment_fields (u u' : URL) (f : string) :
  setFragment u f = OK u' ->
  Scheme u' = Scheme u /\ Opaque u' = Opaque u /\ User u' = User u
  /\ RawQuery u' = RawQuery u.
Proof.
  unfold setFragment, bindR. destruct (unescape f encodeFragment); [|discriminate].
  intros H. inversion H. repeat split.
Qed.

Lemma notMark_of (s : string) :
  all (fun x => negb (Ascii.eqb x "?")) s = true ->
  all (fun x => negb (Ascii.eqb x "#")) s = true ->
  all notMark s = true.
Proof. apply all_and. Qed.

Lemma parse_fields (text : string) (u : URL) :
  all (fun x => negb (Ascii.eqb x "#")) text = true ->
  parse text = OK u ->
  markFree u /\ RawQuery u = queryPart text.
Proof.
  intros Hh. unfold parse.
  destruct (stringContainsCTLByte text); [discriminate|].
  destruct (String.eqb text "*") eqn:Estar.
  { apply String.eqb_eq in Estar. subst text. intros H. inversion H.
    repeat split. }
  destruct (getScheme text) as [[scheme0 rest0]|e] eqn:Eg; [|discriminate].
  cbn [bindR].
  (* the scheme and what follows it *)
  assert (Hs : all notMark (ToLower scheme0) = true
               /\ all (fun x => negb (Ascii.eqb x "#")) rest0 = true
               /\ queryPart text = queryPart rest0).
  { destruct (getScheme_spec _ _ _ Eg) as [[-> ->]|[E Hb]].
    - now repeat split.
    - split; [now apply ToLower_scheme_notMark|]. subst text.
      rewrite !all_append in Hh.
      apply andb_true_iff in Hh as [_ Hh]. apply andb_true_iff in Hh as [_ Hh].
      split; [exact Hh|].
      unfold queryPart. rewrite <- append_assoc.
      rewrite (Cut_skip "?" (scheme0 ++ ":") rest0).
      + now destruct (Cut rest0 "?") as [[b a] f].
      + rewrite all_append. cbn [all andb]. rewrite andb_true_r.
        revert Hb. apply all_impl. exact schemeByte_not_question. }
  destruct Hs as (Hscheme & Hrest0 & ->).
  (* the query *)
  assert (Hq : exists rest forceQuery rawQuery found,
             (if HasSuffix rest0 "?" && (Count rest0 "?" =? 1)%nat
              then (substring 0 (String.length rest0 - 1) rest0, true, "")
              else let '(before, after, _) := Cut rest0 "?" in
                   (before, false, after))
             = (rest, forceQuery, rawQuery)
             /\ Cut rest0 "?" = (rest, rawQuery, found)).
  { destruct (HasSuffix rest0 "?" && (Count rest0 "?" =? 1)%nat) eqn:E.
    - apply andb_true_iff in E as [E1 E2]. apply Nat.eqb_eq in E2.
      exists (substring 0 (String.length rest0 - 1) rest0), true, "", true.
      split; [reflexivity|]. now apply Cut_only_final_question.
    - destruct (Cut rest0 "?") as [[b a] f]. now exists b, false, a, f. }
  destruct Hq as (rest & forceQuery & rawQuery & found & -> & HC).
  assert (Hrest : all notMark rest = true).
  { apply notMark_of.
    - exact (Cut_before_free _ _ _ _ _ HC).
    - exact (proj1 (Cut_all _ _ _ _ _ _ Hrest0 HC)). }
  assert (Hquery : queryPart rest0 = rawQuery)
    by (unfold queryPart; now rewrite HC).
  rewrite Hquery. clear HC Hquery Hrest0 Eg Estar Hh.
  set (scheme := ToLower scheme0) in *. clearbody scheme.
  destruct (negb (HasPrefix rest "/") && negb (String.eqb scheme "")).
  { intros H. inversion H. repeat split; assumption. }
  destruct (negb (HasPrefix rest "/")
            && (let '(segment, _, _) := Cut rest "/" in Contains segment ":"));
    [discriminate|].
  destruct ((negb (String.eqb scheme "") || negb (HasPrefix rest "///"))
            && HasPrefix rest "//").
  { assert (Ha : forall authority rest',
               (let a := drop 2 rest in
                let '(before, after, found) := Cut a "/" in
                if found then (before, "/" ++ after) else (a, ""))
               = (authority, rest') ->
               all notMark authority = true).
    { intros authority rest'. cbv zeta.
      destruct (Cut (drop 2 rest) "/") as [[b a] f] eqn:HCa.
      pose proof (all_drop notMark 2 rest Hrest) as Hd.
      destruct f; intros E; inversion E; subst.
      - exact (proj1 (Cut_all _ _ _ _ _ _ Hd HCa)).
      - exact Hd. }
    destruct (let a := drop 2 rest in
              let '(before, after, found) := Cut a "/" in
              if found then (before, "/" ++ after) else (a, ""))
      as [authority rest'] eqn:Eauth.
    specialize (Ha _ _ eq_refl).
    unfold parseAuthority.
    destruct (lastAtEnd authority) as [|i].
    - cbn [bindR]. destruct (unescape authority encodeHost) as [h|e];
        [|discriminate]. cbn [bindR].
      intros H. apply setPath_fields in H as (E1 & E2 & E3 & E4).
      cbn in E1, E2, E3, E4. unfold markFree, userText.
      rewrite E1, E2, E3, E4. repeat split; assumption.
    - cbn [bindR].
      destruct (unescape (drop (S i) authority) encodeHost) as [h|e];
        [|discriminate]. cbn [bindR].
      intros H. apply setPath_fields in H as (E1 & E2 & E3 & E4).
      cbn in E1, E2, E3, E4. unfold markFree, userText.
      rewrite E1, E2, E3, E4. repeat split; try assumption.
      now apply all_substring. }
  destruct (negb (String.eqb scheme "") && HasPrefix rest "/").
  - intros H. apply setPath_fields in H as (E1 & E2 & E3 & E4).
    cbn in E1, E2, E3, E4. unfold markFree, userText.
    rewrite E1, E2, E3, E4. repeat split; assumption.
  - intros H. apply setPath_fields in H as (E1 & E2 & E3 & E4).
    cbn in E1, E2, E3, E4. unfold markFree, userText.
    rewrite E1, E2, E3, E4. repeat split; assumption.
Qed.

(** What [url.Parse] returns holds no question mark and no number sign
    outside its path, query and fragment, and its query is the one that
    [rawQueryOf] reads from the text. *)
Lemma Parse_fields (text : string) (u : URL) :
  Parse text = OK u -> markFree u /\ RawQuery u = rawQueryOf text.
Proof.
  unfold Parse, rawQueryOf, queryPart.
  destruct (Cut text "#") as [[before frag] found] eqn:HC.
  pose proof (Cut_before_free _ _ _ _ _ HC) as Hb.
  destruct (parse before) as [url|e] eqn:Ep; [|discriminate].
  destruct (parse_fields _ _ Hb Ep) as [Hm Hq].
  unfold queryPart in Hq.
  destruct (String.eqb frag "").
  - intros H. inversion H; subst. now split.
  - destruct (setFragment url frag) as [url'|e] eqn:Ef; [|discriminate].
    intros H. inversion H; subst.
    apply setFragment_fields in Ef as (E1 & E2 & E3 & E4).
    unfold markFree, userText in *. rewrite E1, E2, E3, E4. now split.
Qed.

Lemma sanitised_query_has_no_ticket (u : URL) :
  markFree u ->
  Values_Has (ParseQuery (rawQueryOf (sanitisedURLString u))) "ticket" = false.
Proof.
  intros Hu. rewrite (rawQueryOf_sanitised u Hu).
  apply deleted_key_stays_out.
Qed.

(** *** Keys added to and deleted from [url.Values] *)

Lemma Values_lookup_Del_same (m : Values) (k : string) :
  Values_lookup (Values_Del m k) k = None.
Proof.
  unfold Values_Del. induction m as [|[k' vs] m IH]; [reflexivity|].
  cbn [filter fst]. destruct (String.eqb k' k) eqn:E; cbn [negb].
  - exact IH.
  - cbn [Values_lookup]. now rewrite E.
Qed.

Lemma Values_lookup_Del_other (m : Values) (k key : string) :
  k <> key -> Values_lookup (Values_Del m k) key = Values_lookup m key.
Proof.
  intros Hk. unfold Values_Del. induction m as [|[k' vs] m IH]; [reflexivity|].
  cbn [filter fst Values_lookup]. destruct (String.eqb k' k) eqn:E; cbn [negb].
  - apply String.eqb_eq in E. subst k'.
    apply String.eqb_neq in Hk. now rewrite Hk.
  - cbn [Values_lookup]. now rewrite IH.
Qed.

Lemma Values_lookup_Add_other (m : Values) (k x key : string) :
  k <> key -> Values_lookup (Values_Add m k x) key = Values_lookup m key.
Proof.
  intros Hk. induction m as [|[k' vs] m IH].
  - cbn [Values_Add Values_lookup]. apply String.eqb_neq in Hk. now rewrite Hk.
  - cbn [Values_Add]. destruct (String.eqb k' k) eqn:E.
    + apply String.eqb_eq in E. subst k'. cbn [Values_lookup].
      apply String.eqb_neq in Hk. now rewrite Hk.
    + cbn [Values_lookup]. now rewrite IH.
Qed.

Lemma Values_lookup_Add_fresh (m : Values) (k x : string) :
  Values_lookup m k = None -> Values_lookup (Values_Add m k x) k = Some [x].
Proof.
  induction m as [|[k' vs] m IH]; intros H.
  - cbn [Values_Add Values_lookup]. now rewrite String.eqb_refl.
  - cbn [Values_lookup] in H. cbn [Values_Add].
    destruct (String.eqb k' k) eqn:E; [discriminate|].
    cbn [Values_lookup]. rewrite E. now apply IH.
Qed.

End URLFacts.

(** ** The validators of service_validate.go *)
Module ServiceValidateFacts.
Import GoStrings GoPath GoURL GoHTTP ServiceValidate URLSpec StringFacts
  URLFacts.

(** C6, as amended.  For a CAS base URL with a host, without query and
    fragment, and whose path is empty or made of plain segments, each URL
    builder returns the text of the base followed by its endpoint
    ([/serviceValidate], [/validate], [/p3/serviceValidate]) and by the
    query with the parameters service and ticket. *)
Theorem url_builders_keep_base_path
  (validator : ServiceTicketValidator) (serviceURL : URL) (ticket : string)
  (segs : list string) :
  plainBase (casURL validator) segs ->
  let casBase := URL_String (casURL validator) in
  let query :=
    "service=" ++ QueryEscape (sanitisedURLString serviceURL)
    ++ "&ticket=" ++ QueryEscape ticket in
  ServiceValidateUrl validator serviceURL ticket
  = OK (casBase ++ "/serviceValidate" ++ "?" ++ query)
  /\ ValidateUrl1 validator serviceURL ticket
     = OK (casBase ++ "/validate" ++ "?" ++ query)
  /\ ValidateUrl3 validator serviceURL ticket
     = OK (casBase ++ "/p3/serviceValidate" ++ "?" ++ query).
Proof.
  intros Hb casBase query. repeat split.
  - exact (validateUrlFor_plain _ _ _ _ _ _ plainEndpoint_serviceValidate Hb).
  - exact (validateUrlFor_plain _ _ _ _ _ _ plainEndpoint_validate Hb).
  - exact (validateUrlFor_plain _ _ _ _ _ _ plainEndpoint_p3 Hb).
Qed.

Section Validators.

Variable http_NewRequest : string -> string -> Result ClientRequest.
Variable ParseServiceResponse : string -> ValidationResult.

Local Abbreviation cas1 := (validateTicketCas1 http_NewRequest).
Local Abbreviation cas2 := (validateTicketCas2 http_NewRequest ParseServiceResponse).
Local Abbreviation cas3 := (validateTicketCas3 http_NewRequest ParseServiceResponse).

(** Runs a validator up to the point where status and body are known. *)
Ltac run_exchange H :=
  destruct H as (u & r & resp & Hu & Hr & Hdo & Hst & Hbody);
  rewrite Hu, Hr, Hdo, Hbody, Hst.

Lemma cas1_after_exchange validator serviceURL ticket status body :
  answers http_NewRequest ValidateUrl1 validator serviceURL ticket status body ->
  cas1 validator serviceURL ticket =
  if negb (status =? StatusOK)%Z then
    Returns (None, Some (validateTicketError body))
  else if String.eqb body notLoggedIn then Returns (None, None)
  else match slice body 4 (Z.of_nat (String.length body) - 1) with
       | Panics => Panics
       | Returns user => Returns (Some (AuthenticationResponse_ofUser user), None)
       end.
Proof. intros H. unfold validateTicketCas1. run_exchange H. reflexivity. Qed.

Lemma cas2_after_exchange validator serviceURL ticket status body :
  answers http_NewRequest ServiceValidateUrl validator serviceURL ticket
    status body ->
  cas2 validator serviceURL ticket =
  if negb (status =? StatusOK)%Z then (None, Some (validateTicketError body))
  else nilOnError (ParseServiceResponse body).
Proof. intros H. unfold validateTicketCas2. run_exchange H. reflexivity. Qed.

Lemma cas3_after_exchange validator serviceURL ticket status body :
  answers http_NewRequest ValidateUrl3 validator serviceURL ticket status body ->
  cas3 validator serviceURL ticket =
  if negb (status =? StatusOK)%Z then (None, Some (validateTicketError body))
  else if String.eqb body notLoggedIn then (None, None)
  else nilOnError (ParseServiceResponse (Replace body "[Asia/Shanghai]" "" 1)).
Proof. intros H. unfold validateTicketCas3. run_exchange H. reflexivity. Qed.

Lemma status_not_OK (status : Z) :
  status <> 200%Z -> negb (status =? StatusOK)%Z = true.
Proof.
  intros H. unfold StatusOK. apply negb_true_iff, Z.eqb_neq. exact H.
Qed.

Lemma yes_is_not_no (name : string) :
  String.eqb ("yes" ++ nl ++ name ++ nl) notLoggedIn = false.
Proof. reflexivity. Qed.

Lemma slice_yes (name : string) :
  let body := "yes" ++ nl ++ name ++ nl in
  slice body 4 (Z.of_nat (String.length body) - 1) = Returns name.
Proof.
  intros body.
  assert (E : slice (("yes" ++ nl) ++ name ++ nl)
                (Z.of_nat (String.length ("yes" ++ nl)))
                (Z.of_nat (String.length ("yes" ++ nl) + String.length name))
              = Returns name) by apply slice_middle.
  replace (Z.of_nat (String.length body) - 1)%Z
    with (Z.of_nat (String.length ("yes" ++ nl) + String.length name)).
  - exact E.
  - unfold body. change ("yes" ++ nl ++ name ++ nl)
      with (("yes" ++ nl) ++ name ++ nl).
    rewrite !length_append. simpl String.length. lia.
Qed.

(** C2.  When the CAS 1 server answers 200 with the body "yes", line feed,
    a name, line feed, [validateTicketCas1] returns a response whose user
    is that name and no error; when the body is "no" followed by two line
    feeds it returns neither a response nor an error. *)
Theorem validateTicketCas1_yes_no validator serviceURL ticket body :
  answers http_NewRequest ValidateUrl1 validator serviceURL ticket 200 body ->
  (forall name, body = "yes" ++ nl ++ name ++ nl ->
     cas1 validator serviceURL ticket =
     Returns (Some (AuthenticationResponse_ofUser name), None)
     /\ AuthUser (AuthenticationResponse_ofUser name) = name)
  /\ (body = "no" ++ nl ++ nl ->
      cas1 validator serviceURL ticket = Returns (None, None)).
Proof.
  intros H. rewrite (cas1_after_exchange _ _ _ _ _ H).
  change (negb (200 =? StatusOK)%Z) with false. cbv iota.
  split.
  - intros name ->. rewrite yes_is_not_no, slice_yes. split; reflexivity.
  - intros ->. reflexivity.
Qed.

(** C10.  The success path of CAS 1 is not total.  When the server answers
    200 with a body of fewer than five bytes other than "no" and two line
    feeds, the slice [body[4 : len(body)-1]] is out of bounds and
    [validateTicketCas1] panics; and on every longer body it returns the
    bytes from the fifth to the last but one as the user, whatever the
    first line is. *)
Theorem validateTicketCas1_short_body_panics validator serviceURL ticket body :
  answers http_NewRequest ValidateUrl1 validator serviceURL ticket 200 body ->
  (String.length body < 5 -> body <> notLoggedIn ->
     cas1 validator serviceURL ticket = Panics)
  /\ (5 <= String.length body ->
      cas1 validator serviceURL ticket =
      Returns (Some (AuthenticationResponse_ofUser
                       (substring 4 (String.length body - 5) body)), None)).
Proof.
  intros H. rewrite (cas1_after_exchange _ _ _ _ _ H).
  change (negb (200 =? StatusOK)%Z) with false. cbv iota.
  split.
  - intros Hlen Hno. apply String.eqb_neq in Hno. rewrite Hno.
    rewrite slice_out_of_order by lia. reflexivity.
  - intros Hlen.
    assert (Hno : String.eqb body notLoggedIn = false).
    { apply String.eqb_neq. intros ->. simpl in Hlen. lia. }
    rewrite Hno, slice_in_bounds by lia.
    replace (Z.to_nat (Z.of_nat (String.length body) - 1 - 4))
      with (String.length body - 5) by lia.
    reflexivity.
Qed.

Lemma ValidateTicket_cas1 validator serviceURL ticket :
  validationType validator = "CAS1" ->
  ValidateTicket http_NewRequest ParseServiceResponse validator serviceURL ticket
  = cas1 validator serviceURL ticket.
Proof. intros E. unfold ValidateTicket. now rewrite E. Qed.

Lemma ValidateTicket_cas2 validator serviceURL ticket :
  validationType validator = "CAS2" ->
  ValidateTicket http_NewRequest ParseServiceResponse validator serviceURL ticket
  = Returns (cas2 validator serviceURL ticket).
Proof. intros E. unfold ValidateTicket. now rewrite E. Qed.

Lemma ValidateTicket_cas3 validator serviceURL ticket :
  validationType validator <> "CAS1" -> validationType validator <> "CAS2" ->
  ValidateTicket http_NewRequest ParseServiceResponse validator serviceURL ticket
  = Returns (cas3 validator serviceURL ticket).
Proof.
  intros E1 E2. unfold ValidateTicket.
  apply String.eqb_neq in E1, E2. now rewrite E1, E2.
Qed.

(** C3, as amended.  Whatever the configured protocol, a status other than
    200 makes [ValidateTicket] return an error that carries the raw body,
    and no response.  On status 200, CAS 2 returns what
    [ParseServiceResponse] makes of the body, CAS 3 returns nothing for the
    body "no" with two line feeds and otherwise what
    [ParseServiceResponse] makes of the body without its first
    "[Asia/Shanghai]", and CAS 1 returns nothing for that same "no" body and
    otherwise the slice of the body as the user. *)
Theorem ValidateTicket_by_status validator serviceURL ticket status body :
  answers http_NewRequest (builderFor validator) validator serviceURL ticket
    status body ->
  let result :=
    ValidateTicket http_NewRequest ParseServiceResponse validator serviceURL
      ticket in
  (status <> 200%Z ->
     result = Returns (None, Some (validateTicketError body))
     /\ Error (validateTicketError body) = "cas: validate ticket: " ++ body)
  /\ (status = 200%Z ->
      (validationType validator = "CAS2" ->
         result = Returns (nilOnError (ParseServiceResponse body)))
      /\ (validationType validator <> "CAS1" ->
          validationType validator <> "CAS2" ->
          result =
          Returns (if String.eqb body notLoggedIn then (None, None)
                   else nilOnError (ParseServiceResponse
                                      (Replace body "[Asia/Shanghai]" "" 1))))
      /\ (validationType validator = "CAS1" ->
          result =
          if String.eqb body notLoggedIn then Returns (None, None)
          else match slice body 4 (Z.of_nat (String.length body) - 1) with
               | Panics => Panics
               | Returns user =>
                   Returns (Some (AuthenticationResponse_ofUser user), None)
               end)).
Proof.
  intros H result. subst result. unfold builderFor in H. split.
  - intros Hst. split; [|reflexivity].
    destruct (String.eqb_spec (validationType validator) "CAS1") as [E1|E1].
    + rewrite (ValidateTicket_cas1 _ _ _ E1), (cas1_after_exchange _ _ _ _ _ H).
      now rewrite status_not_OK.
    + destruct (String.eqb_spec (validationType validator) "CAS2") as [E2|E2].
      * rewrite (ValidateTicket_cas2 _ _ _ E2), (cas2_after_exchange _ _ _ _ _ H).
        now rewrite status_not_OK.
      * rewrite (ValidateTicket_cas3 _ _ _ E1 E2),
          (cas3_after_exchange _ _ _ _ _ H).
        now rewrite status_not_OK.
  - intros ->. repeat split.
    + intros E2. assert (E1 : validationType validator <> "CAS1")
        by (rewrite E2; discriminate).
      apply String.eqb_neq in E1. rewrite E1, E2 in H. simpl in H.
      rewrite (ValidateTicket_cas2 _ _ _ E2), (cas2_after_exchange _ _ _ _ _ H).
      reflexivity.
    + intros E1 E2. rewrite (ValidateTicket_cas3 _ _ _ E1 E2).
      apply String.eqb_neq in E1, E2. rewrite E1, E2 in H.
      rewrite (cas3_after_exchange _ _ _ _ _ H).
      change (negb (200 =? StatusOK)%Z) with false. cbv iota.
      now destruct (String.eqb body notLoggedIn).
    + intros E1. rewrite (ValidateTicket_cas1 _ _ _ E1).
      rewrite E1 in H. simpl in H.
      rewrite (cas1_after_exchange _ _ _ _ _ H). reflexivity.
Qed.

Lemma zone_body_is_not_no (pre post : string) :
  String.eqb (pre ++ "[Asia/Shanghai]" ++ post) notLoggedIn = false.
Proof.
  apply String.eqb_neq. intros E. apply (f_equal String.length) in E.
  rewrite !length_append in E. simpl in E. lia.
Qed.

(** C8, as amended.  When the CAS 3 server answers 200 with a body that
    holds the text "[Asia/Shanghai]", [validateTicketCas3] takes out the
    first occurrence of that text, wherever it stands and whatever stands
    before it, and nothing else; it hands the rest to
    [ParseServiceResponse] and returns what the parser makes of it, with a
    nil response whenever the parser reports an error.  Every body that
    holds the text has such a first occurrence. *)
Theorem validateTicketCas3_strips_Shanghai validator serviceURL ticket body :
  answers http_NewRequest ValidateUrl3 validator serviceURL ticket 200 body ->
  (forall pre post,
     body = pre ++ "[Asia/Shanghai]" ++ post ->
     Contains (pre ++ "[Asia/Shanghai") "[Asia/Shanghai]" = false ->
     cas3 validator serviceURL ticket
     = nilOnError (ParseServiceResponse (pre ++ post)))
  /\ (Contains body "[Asia/Shanghai]" = true ->
      exists pre post,
        body = pre ++ "[Asia/Shanghai]" ++ post
        /\ Contains (pre ++ "[Asia/Shanghai") "[Asia/Shanghai]" = false).
Proof.
  intros H. split.
  - intros pre post -> Hfirst. rewrite (cas3_after_exchange _ _ _ _ _ H).
    change (negb (200 =? StatusOK)%Z) with false. cbv iota.
    rewrite zone_body_is_not_no. unfold Replace.
    pose proof (Cut_at_first "[Asia/Shanghai" pre post "]" Hfirst) as HC.
    change ("[Asia/Shanghai" ++ "]") with "[Asia/Shanghai]" in HC.
    rewrite HC. reflexivity.
  - unfold Contains.
    destruct (Cut body "[Asia/Shanghai]") as [[pre post] found] eqn:E.
    intros ->. exists pre, post. split.
    + exact (Cut_found _ _ _ _ E).
    + exact (Cut_found_first body "[Asia/Shanghai" pre post "]" E).
Qed.

End Validators.

Import Examples MoreExamples.

(** The exchange with a server of [Examples] is settled by evaluation. *)
Ltac exchange_by_computation :=
  unfold answers; eexists _, _, _; repeat split; reflexivity.

Lemma validateTicketCas1_yes_no_witness :
  answers newRequest ValidateUrl1 (validatorFor "CAS1" 200 yesAlice)
    appService "ST-123" 200 yesAlice
  /\ validateTicketCas1 newRequest (validatorFor "CAS1" 200 yesAlice)
       appService "ST-123"
     = Returns (Some (AuthenticationResponse_ofUser "alice"), None).
Proof.
  assert (H : answers newRequest ValidateUrl1 (validatorFor "CAS1" 200 yesAlice)
                appService "ST-123" 200 yesAlice)
    by exchange_by_computation.
  split; [exact H|].
  exact (proj1 (proj1 (validateTicketCas1_yes_no newRequest _ _ _ _ H)
                  "alice" eq_refl)).
Defined.

Lemma validateTicketCas1_short_body_panics_witness :
  answers newRequest ValidateUrl1 (validatorFor "CAS1" 200 "")
    appService "ST-123" 200 ""
  /\ validateTicketCas1 newRequest (validatorFor "CAS1" 200 "")
       appService "ST-123" = Panics.
Proof.
  assert (H : answers newRequest ValidateUrl1 (validatorFor "CAS1" 200 "")
                appService "ST-123" 200 "")
    by exchange_by_computation.
  split; [exact H|].
  refine (proj1 (validateTicketCas1_short_body_panics newRequest _ _ _ _ H) _ _).
  - simpl. lia.
  - discriminate.
Defined.

Lemma validateUrlFor_carriesService (endpoint : string)
  (validator : ServiceTicketValidator) (serviceURL : URL)
  (ticket url : string) :
  validateUrlFor endpoint validator serviceURL ticket = OK url ->
  carriesService validator endpoint url (sanitisedURLString serviceURL) ticket.
Proof.
  unfold validateUrlFor, carriesService. intros H.
  destruct (URL_Parse (casURL validator)
              (Join [Path (casURL validator); endpoint])) as [u|e];
    [|discriminate].
  exists u. split; [reflexivity|]. now inversion H.
Qed.

(** C7.  For every service URL that [url.Parse] returns, the text of the
    sanitised URL has no key ticket in its query: neither in the query
    that follows the first question mark of the text, nor in the query of
    any URL that [url.Parse] makes of the text.  And whenever one of the
    three URL builders returns a URL, the value that it has put under the
    key service is that text. *)
Theorem sanitised_service_has_no_ticket
  (validator : ServiceTicketValidator) (raw : string) (serviceURL : URL)
  (ticket : string) :
  Parse raw = OK serviceURL ->
  let service := sanitisedURLString serviceURL in
  Values_Has (ParseQuery (rawQueryOf service)) "ticket" = false
  /\ (forall u,
        Parse service = OK u -> Values_Has (URL_Query u) "ticket" = false)
  /\ (forall url,
        ServiceValidateUrl validator serviceURL ticket = OK url ->
        carriesService validator "serviceValidate" url service ticket)
  /\ (forall url,
        ValidateUrl1 validator serviceURL ticket = OK url ->
        carriesService validator "validate" url service ticket)
  /\ (forall url,
        ValidateUrl3 validator serviceURL ticket = OK url ->
        carriesService validator "p3/serviceValidate" url service ticket).
Proof.
  intros Hp service. subst service.
  pose proof (sanitised_query_has_no_ticket serviceURL
                (proj1 (Parse_fields _ _ Hp))) as Hq.
  split; [exact Hq|]. split.
  - intros u Hu. unfold URL_Query.
    now rewrite (proj2 (Parse_fields _ _ Hu)).
  - repeat split; intros url; apply validateUrlFor_carriesService.
Qed.

Lemma sanitised_service_has_no_ticket_witness :
  Parse "https://app.example.com/secure?lang=en&ticket=ST-123" = OK appService
  /\ Values_Has (URL_Query appService) "ticket" = true
  /\ sanitisedURLString appService = "https://app.example.com/secure?lang=en"
  /\ ServiceValidateUrl (validatorFor "CAS2" 200 "") appService "ST-123"
     = OK ("https://sso.example.com/cas/serviceValidate"
           ++ "?service=https%3A%2F%2Fapp.example.com%2Fsecure%3Flang%3Den"
           ++ "&ticket=ST-123")
  /\ Values_Has (ParseQuery (rawQueryOf (sanitisedURLString appService)))
       "ticket" = false.
Proof.
  split; [reflexivity|]. split; [reflexivity|]. split; [reflexivity|].
  split; [reflexivity|].
  exact (proj1 (sanitised_service_has_no_ticket
                  (validatorFor "CAS2" 200 "")
                  "https://app.example.com/secure?lang=en&ticket=ST-123"
                  appService "ST-123" eq_refl)).
Defined.

(** The URLs of [Examples] are what [url.Parse] makes of their texts. *)
Lemma examples_parse :
  Parse "https://sso.example.com/cas" = OK ssoBase
  /\ Parse "https://sso.example.com/a%3Fb" = OK oddBase
  /\ Parse "https://app.example.com/secure?lang=en&ticket=ST-123"
     = OK appService.
Proof. repeat split; reflexivity. Qed.

Lemma ssoBase_plain : plainBase ssoBase ["cas"].
Proof. repeat split; try reflexivity. discriminate. Qed.

Lemma url_builders_keep_base_path_witness :
  plainBase (casURL (validatorFor "CAS2" 200 "")) ["cas"]
  /\ ServiceValidateUrl (validatorFor "CAS2" 200 "") appService "ST-123"
     = OK ("https://sso.example.com/cas/serviceValidate"
           ++ "?service=https%3A%2F%2Fapp.example.com%2Fsecure%3Flang%3Den"
           ++ "&ticket=ST-123")
  /\ ValidateUrl1 (validatorFor "CAS2" 200 "") appService "ST-123"
     = OK ("https://sso.example.com/cas/validate"
           ++ "?service=https%3A%2F%2Fapp.example.com%2Fsecure%3Flang%3Den"
           ++ "&ticket=ST-123")
  /\ ValidateUrl3 (validatorFor "CAS2" 200 "") appService "ST-123"
     = OK ("https://sso.example.com/cas/p3/serviceValidate"
           ++ "?service=https%3A%2F%2Fapp.example.com%2Fsecure%3Flang%3Den"
           ++ "&ticket=ST-123").
Proof.
  split; [exact ssoBase_plain|].
  exact (url_builders_keep_base_path (validatorFor "CAS2" 200 "") appService
           "ST-123" ["cas"] ssoBase_plain).
Defined.

(** C6, as stated, fails on a base whose path holds a question mark: the
    builder cuts the path at the question mark, and the endpoint ends up in
    the query. *)
Lemma ServiceValidateUrl_odd_base :
  URL_String oddBase = "https://sso.example.com/a%3Fb"
  /\ ServiceValidateUrl
       (NewServiceTicketValidator (serverReturning 200 "") oddBase "CAS2")
       appService "ST-123"
     = OK ("https://sso.example.com/a?b%2FserviceValidate="
           ++ "&service=https%3A%2F%2Fapp.example.com%2Fsecure%3Flang%3Den"
           ++ "&ticket=ST-123")
  /\ ServiceValidateUrl
       (NewServiceTicketValidator (serverReturning 200 "") oddBase "CAS2")
       appService "ST-123"
     <> OK (URL_String oddBase ++ "/serviceValidate"
            ++ "?service=https%3A%2F%2Fapp.example.com%2Fsecure%3Flang%3Den"
            ++ "&ticket=ST-123").
Proof. split; [reflexivity|]. split; [reflexivity | discriminate]. Qed.

(** C3, as stated, fails on status 202: it lies in the 2xx range, yet the
    CAS 2 validator returns an error and not the result of the parser. *)
Lemma ValidateTicket_rejects_202 :
  is2xx 202 = true
  /\ answers newRequest ServiceValidateUrl
       (validatorFor "CAS2" 202 (successWithZone "")) appService "ST-123"
       202 (successWithZone "")
  /\ ValidateTicket newRequest aliceParser
       (validatorFor "CAS2" 202 (successWithZone "")) appService "ST-123"
     = Returns (None, Some (validateTicketError (successWithZone "")))
  /\ ValidateTicket newRequest aliceParser
       (validatorFor "CAS2" 202 (successWithZone "")) appService "ST-123"
     <> Returns (aliceParser (successWithZone "")).
Proof.
  split; [reflexivity|]. split; [exchange_by_computation|].
  split; [reflexivity | discriminate].
Qed.

Lemma ValidateTicket_by_status_witness :
  answers newRequest (builderFor (validatorFor "CAS2" 202 (successWithZone "")))
    (validatorFor "CAS2" 202 (successWithZone "")) appService "ST-123"
    202 (successWithZone "")
  /\ ValidateTicket newRequest aliceParser
       (validatorFor "CAS2" 202 (successWithZone "")) appService "ST-123"
     = Returns (None, Some (validateTicketError (successWithZone ""))).
Proof.
  assert (H : answers newRequest
                (builderFor (validatorFor "CAS2" 202 (successWithZone "")))
                (validatorFor "CAS2" 202 (successWithZone "")) appService
                "ST-123" 202 (successWithZone ""))
    by exchange_by_computation.
  split; [exact H|].
  refine (proj1 (proj1 (ValidateTicket_by_status newRequest aliceParser
                          _ _ _ _ _ H) _)).
  discriminate.
Defined.

(** C8, as stated, fails on a zone other than Asia/Shanghai: the parser
    receives the body with the suffix "[Europe/Paris]" still in place. *)
Lemma validateTicketCas3_keeps_Paris :
  answers newRequest ValidateUrl3
    (validatorFor "CAS3" 200 (successWithZone "[Europe/Paris]"))
    appService "ST-123" 200 (successWithZone "[Europe/Paris]")
  /\ validateTicketCas3 newRequest echoParser
       (validatorFor "CAS3" 200 (successWithZone "[Europe/Paris]"))
       appService "ST-123"
     = echoParser (successWithZone "[Europe/Paris]")
  /\ Contains (successWithZone "[Europe/Paris]") "[Europe/Paris]" = true.
Proof.
  split; [exchange_by_computation|]. split; reflexivity.
Qed.

Lemma validateTicketCas3_strips_Shanghai_witness :
  answers newRequest ValidateUrl3 (validatorFor "CAS3" 200 twoZones)
    appService "ST-123" 200 twoZones
  /\ Contains ("<cas:authenticationDate>[x]" ++ "[Asia/Shanghai") "[Asia/Shanghai]" = false
  /\ validateTicketCas3 newRequest echoParser
       (validatorFor "CAS3" 200 twoZones) appService "ST-123"
     = echoParser ("<cas:authenticationDate>[x]y[Asia/Shanghai]"
                   ++ "</cas:authenticationDate>").
Proof.
  assert (H : answers newRequest ValidateUrl3
                (validatorFor "CAS3" 200 twoZones)
                appService "ST-123" 200 twoZones)
    by exchange_by_computation.
  split; [exact H|]. split; [reflexivity|].
  exact (proj1 (validateTicketCas3_strips_Shanghai newRequest echoParser
                  _ _ _ _ H)
           "<cas:authenticationDate>[x]" ("y[Asia/Shanghai]" ++ "</cas:authenticationDate>") eq_refl eq_refl).
Defined.

End ServiceValidateFacts.

(** ** The handlers of handler.go and http_helpers.go *)
Module HandlerFacts.
Import GoStrings GoURL GoHTTP ServiceValidate Handler URLFacts.

Section Handlers.
Variable Client TicketStore SessionStore : Type.
Variable parseLogoutRequest : string -> Result logoutRequest.
Variable TicketStore_Delete : TicketStore -> string -> TicketStore * option error.
Variable Client_GetSession :
  Client -> Env Client TicketStore SessionStore -> Env Client TicketStore SessionStore.
Variable Client_RedirectToLogin Client_RedirectToLogout :
  Client -> Env Client TicketStore SessionStore -> Env Client TicketStore SessionStore.

Local Abbreviation EnvT := (Env Client TicketStore SessionStore).
Local Abbreviation Handler := (clientHandler Client TicketStore SessionStore).

Lemma http_Error_exec (msg : string) (code : Z) (env : EnvT) (tr : list Event) :
  exec (http_Error msg code) (env, tr)
  = (setResp (errorWriter msg code (resp env)) env, tr).
Proof. reflexivity. Qed.

Lemma FormValue_nonempty (r : Request Client) (k : string) :
  FormValue r k <> "" <-> presentNonEmpty (Form r) k.
Proof.
  unfold FormValue, Values_Get, presentNonEmpty. split.
  - intros H. destruct (Values_lookup (Form r) k) as [[|x xs]|];
      try (now elim H). exists x, xs. now split.
  - intros (x & xs & E & Hx). now rewrite E.
Qed.

Lemma IsSingleLogoutRequest_iff (r : Request Client) :
  IsSingleLogoutRequest r = true <->
  Method r = "POST"
  /\ Header_Get (ReqHdr r) "Content-Type" = "application/x-www-form-urlencoded"
  /\ presentNonEmpty (Form r) "logoutRequest".
Proof.
  rewrite <- FormValue_nonempty. unfold IsSingleLogoutRequest.
  destruct (String.eqb_spec (Method r) "POST") as [Hm|Hm]; cbn [negb].
  2: { split; [discriminate | now intros [H _]]. }
  destruct (String.eqb_spec (Header_Get (ReqHdr r) "Content-Type")
              "application/x-www-form-urlencoded") as [Hc|Hc]; cbn [negb].
  2: { split; [discriminate | now intros (_ & H & _)]. }
  destruct (String.eqb_spec (FormValue r "logoutRequest") "") as [Hf|Hf].
  - split; [discriminate | now intros (_ & _ & H)].
  - split; [now intros _ | reflexivity].
Qed.

Lemma performSingleLogout_exec (ch : Handler) (env : EnvT) (tr : list Event) :
  exec (performSingleLogout parseLogoutRequest TicketStore_Delete ch) (env, tr)
  = let rawXML := FormValue (req env) "logoutRequest" in
    match parseLogoutRequest rawXML with
    | Err err =>
        (setResp (errorWriter (Error err) StatusInternalServerError (resp env)) env,
         (tr ++ [CallParseLogoutRequest rawXML])%list)
    | OK lr =>
        let '(store, deleted) :=
          TicketStore_Delete (tickets env) (SessionIndex lr) in
        let env' := mkEnv (resp env) (req env) store (sessions env) in
        (setResp
           (match deleted with
            | Some err =>
                errorWriter (Error err) StatusInternalServerError (resp env)
            | None =>
                ResponseWriter_Write ("OK" ++ nl)
                  (ResponseWriter_WriteHeader StatusOK (resp env))
            end) env',
         ((tr ++ [CallParseLogoutRequest rawXML])
          ++ [CallTicketsDelete (SessionIndex lr)])%list)
    end.
Proof.
  cbv [performSingleLogout exec bind getEnv call_parseLogoutRequest
       call_tickets_Delete emit ret modifyEnv fst snd].
  destruct (parseLogoutRequest (FormValue (req env) "logoutRequest")) as [lr|err].
  - destruct (TicketStore_Delete (tickets env) (SessionIndex lr))
      as [store [err|]]; reflexivity.
  - reflexivity.
Qed.

Lemma ServeHTTP_exec (ch : Handler) (env : EnvT) (tr : list Event) :
  exec (ServeHTTP parseLogoutRequest TicketStore_Delete Client_GetSession ch)
    (env, tr)
  = if IsSingleLogoutRequest (req env) then
      exec (performSingleLogout parseLogoutRequest TicketStore_Delete ch)
        (bindClient (c ch) env, tr)
    else
      (h ch (Client_GetSession (c ch) (bindClient (c ch) env)),
       (tr ++ [CallGetSession; CallHandler])%list).
Proof.
  cbv [ServeHTTP exec bind getEnv SetClient withReq modifyEnv emit fst snd].
  change (IsSingleLogoutRequest
            (req (mkEnv (resp env)
                    (mkRequest (Method (req env)) (ReqHdr (req env))
                       (Form (req env))
                       (mkContext (Some (Some (c ch)))
                          (ctxAuthenticationResponse (ctx (req env)))))
                    (tickets env) (sessions env))))
    with (IsSingleLogoutRequest (req env)).
  destruct (IsSingleLogoutRequest (req env)).
  - reflexivity.
  - now rewrite <- app_assoc.
Qed.


Lemma errorWriter_fresh (msg : string) (code : Z) (w : ResponseWriter) :
  wroteHeader w = false ->
  wStatus (errorWriter msg code w) = code
  /\ wBody (errorWriter msg code w) = wBody w ++ msg ++ nl.
Proof.
  intros Hw. unfold errorWriter, ResponseWriter_Write,
    ResponseWriter_WriteHeader, ResponseWriter_SetHeader,
    ResponseWriter_DelHeader.
  cbn [wroteHeader wStatus wBody wHeader]. rewrite Hw.
  cbn [wroteHeader wStatus wBody wHeader]. now split.
Qed.

Lemma okWriter_fresh (w : ResponseWriter) :
  wroteHeader w = false ->
  let w' := ResponseWriter_Write ("OK" ++ nl)
              (ResponseWriter_WriteHeader StatusOK w) in
  wStatus w' = 200%Z /\ wBody w' = wBody w ++ "OK" ++ nl.
Proof.
  intros Hw. unfold ResponseWriter_Write, ResponseWriter_WriteHeader.
  rewrite Hw. cbn [wroteHeader wStatus wBody wHeader]. now split.
Qed.

Lemma Header_Get_Set (h : Header) (k v : string) :
  Header_Get (Header_Set h k v) k = v.
Proof.
  unfold Header_Get, Header_Set, Values_Get.
  now rewrite Values_lookup_Add_fresh by apply Values_lookup_Del_same.
Qed.

Lemma Values_lookup_Set_other (h : Header) (k v key : string) :
  k <> key -> Values_lookup (Header_Set h k v) key = Values_lookup h key.
Proof.
  intros Hk. unfold Header_Set.
  now rewrite Values_lookup_Add_other, Values_lookup_Del_other.
Qed.

(** The headers of a response after [http.Error]. *)
Lemma errorWriter_header (msg : string) (code : Z) (w : ResponseWriter) :
  let h := wHeader (errorWriter msg code w) in
  Header_Get h "Content-Type" = "text/plain; charset=utf-8"
  /\ Header_Get h "X-Content-Type-Options" = "nosniff"
  /\ Values_Has h "Content-Length" = false.
Proof.
  assert (E : wHeader (errorWriter msg code w)
              = Header_Set
                  (Header_Set (Header_Del (wHeader w) "Content-Length")
                     "Content-Type" "text/plain; charset=utf-8")
                  "X-Content-Type-Options" "nosniff").
  { unfold errorWriter, ResponseWriter_Write, ResponseWriter_WriteHeader,
      ResponseWriter_SetHeader, ResponseWriter_DelHeader.
    cbn [wHeader wroteHeader]. now destruct (wroteHeader w). }
  cbv zeta. rewrite E. repeat split.
  - unfold Header_Get, Values_Get.
    rewrite Values_lookup_Set_other by discriminate.
    apply Header_Get_Set.
  - apply Header_Get_Set.
  - unfold Values_Has.
    rewrite !Values_lookup_Set_other by discriminate.
    unfold Header_Del. now rewrite Values_lookup_Del_same.
Qed.

Lemma errorWriter_body (msg : string) (code : Z) (w : ResponseWriter) :
  wBody (errorWriter msg code w) = wBody w ++ msg ++ nl.
Proof.
  unfold errorWriter, ResponseWriter_Write, ResponseWriter_WriteHeader,
    ResponseWriter_SetHeader, ResponseWriter_DelHeader.
  cbn [wHeader wroteHeader wBody]. destruct (wroteHeader w); reflexivity.
Qed.

Lemma errorWriter_started (msg : string) (code : Z) (w : ResponseWriter) :
  wroteHeader w = true -> wStatus (errorWriter msg code w) = wStatus w.
Proof.
  intros Hw. unfold errorWriter, ResponseWriter_Write,
    ResponseWriter_WriteHeader, ResponseWriter_SetHeader,
    ResponseWriter_DelHeader.
  cbn [wHeader wroteHeader wBody wStatus]. rewrite Hw.
  cbn [wHeader wroteHeader wBody wStatus]. reflexivity.
Qed.

(** C1.  When the payload of a logout notification parses,
    [performSingleLogout] makes exactly two calls: the parser, and
    [tickets.Delete] with the session index of the notification.  The
    ticket store is the one that this [Delete] returns, the cookie-keyed
    session store is the one it was, and no [deleteSession] is called with
    any key. *)
Theorem performSingleLogout_deletes_by_ticket
  (ch : Handler) (env : EnvT) (lr : logoutRequest) :
  parseLogoutRequest (FormValue (req env) "logoutRequest") = OK lr ->
  let st :=
    exec (performSingleLogout parseLogoutRequest TicketStore_Delete ch)
      (env, []) in
  snd st = [CallParseLogoutRequest (FormValue (req env) "logoutRequest");
            CallTicketsDelete (SessionIndex lr)]
  /\ tickets (fst st) = fst (TicketStore_Delete (tickets env) (SessionIndex lr))
  /\ sessions (fst st) = sessions env
  /\ (forall k, ~ In (CallDeleteSession k) (snd st)).
Proof.
  intros Hp st. subst st. rewrite performSingleLogout_exec. cbv zeta.
  rewrite Hp.
  destruct (TicketStore_Delete (tickets env) (SessionIndex lr)) as [store d].
  cbn [fst snd app setResp tickets sessions]. repeat split.
  intros k [H|[H|[]]]; discriminate H.
Qed.

(** C4, as amended.  [IsSingleLogoutRequest] holds exactly when the method
    is POST, the Content-Type header is the text
    application/x-www-form-urlencoded and nothing more, and the first
    value of the form field logoutRequest exists and is not empty.  When it
    does not hold, [ServeHTTP] binds the client, calls [GetSession] and then
    the wrapped handler; when it holds, the wrapped handler is not
    called. *)
Theorem IsSingleLogoutRequest_routes (ch : Handler) (env : EnvT) :
  let serve :=
    exec (ServeHTTP parseLogoutRequest TicketStore_Delete Client_GetSession ch)
      (env, []) in
  (IsSingleLogoutRequest (req env) = true <->
   Method (req env) = "POST"
   /\ Header_Get (ReqHdr (req env)) "Content-Type"
      = "application/x-www-form-urlencoded"
   /\ presentNonEmpty (Form (req env)) "logoutRequest")
  /\ (IsSingleLogoutRequest (req env) = false ->
      serve = (h ch (Client_GetSession (c ch) (bindClient (c ch) env)),
               [CallGetSession; CallHandler]))
  /\ (IsSingleLogoutRequest (req env) = true ->
      ~ In CallHandler (snd serve) /\ ~ In CallGetSession (snd serve)).
Proof.
  intros serve. subst serve. split; [apply IsSingleLogoutRequest_iff|].
  rewrite ServeHTTP_exec. split.
  - intros ->. reflexivity.
  - intros ->. rewrite performSingleLogout_exec. cbv zeta.
    destruct (parseLogoutRequest _) as [lr|err].
    + destruct (TicketStore_Delete _ _) as [store d]. cbn [snd app].
      split; intros [H|[H|[]]]; discriminate H.
    + cbn [snd app]. split; intros [H|[]]; discriminate H.
Qed.

(** C5, as amended.  For a detected single-logout request on a response
    that has not been started: when the payload parses and the delete
    succeeds, the response has status 200 and the body "OK" followed by a
    line feed; when parsing fails or the delete fails, it has status 500
    and the text of the error followed by a line feed. *)
Theorem ServeHTTP_single_logout_response (ch : Handler) (env : EnvT) :
  IsSingleLogoutRequest (req env) = true ->
  wroteHeader (resp env) = false ->
  let rawXML := FormValue (req env) "logoutRequest" in
  let w :=
    resp (fst (exec (ServeHTTP parseLogoutRequest TicketStore_Delete
                       Client_GetSession ch) (env, []))) in
  (forall lr store,
     parseLogoutRequest rawXML = OK lr ->
     TicketStore_Delete (tickets env) (SessionIndex lr) = (store, None) ->
     wStatus w = 200%Z /\ wBody w = wBody (resp env) ++ "OK" ++ nl)
  /\ (forall err,
        parseLogoutRequest rawXML = Err err ->
        wStatus w = 500%Z /\ wBody w = wBody (resp env) ++ Error err ++ nl)
  /\ (forall lr store err,
        parseLogoutRequest rawXML = OK lr ->
        TicketStore_Delete (tickets env) (SessionIndex lr) = (store, Some err) ->
        wStatus w = 500%Z /\ wBody w = wBody (resp env) ++ Error err ++ nl).
Proof.
  intros Hslo Hw rawXML w. subst w rawXML.
  rewrite ServeHTTP_exec, Hslo, performSingleLogout_exec. cbv zeta.
  change (req (bindClient (c ch) env)) with
    (mkRequest (Method (req env)) (ReqHdr (req env)) (Form (req env))
       (mkContext (Some (Some (c ch)))
          (ctxAuthenticationResponse (ctx (req env))))).
  change (FormValue (mkRequest (Method (req env)) (ReqHdr (req env))
                       (Form (req env))
                       (mkContext (Some (Some (c ch)))
                          (ctxAuthenticationResponse (ctx (req env)))))
            "logoutRequest")
    with (FormValue (req env) "logoutRequest").
  change (tickets (bindClient (c ch) env)) with (tickets env).
  change (resp (bindClient (c ch) env)) with (resp env).
  split; [|split].
  - intros lr store Hp Hd. rewrite Hp, Hd. cbn [fst resp setResp].
    apply (okWriter_fresh _ Hw).
  - intros err Hp. rewrite Hp. cbn [fst resp setResp].
    apply (errorWriter_fresh _ _ _ Hw).
  - intros lr store err Hp Hd. rewrite Hp, Hd. cbn [fst resp setResp].
    apply (errorWriter_fresh _ _ _ Hw).
Qed.

Lemma RedirectToLogin_without_client (env : EnvT) (tr : list Event) :
  GetClient (req env) = None ->
  exec (RedirectToLogin Client_RedirectToLogin) (env, tr)
  = (setResp (errorWriter noClientError StatusInternalServerError (resp env))
       env, tr).
Proof.
  intros Hc. unfold RedirectToLogin, exec, bind, getEnv. cbn [fst].
  rewrite Hc. reflexivity.
Qed.

Lemma RedirectToLogout_without_client (env : EnvT) (tr : list Event) :
  GetClient (req env) = None ->
  exec (RedirectToLogout Client_RedirectToLogout) (env, tr)
  = (setResp (errorWriter noClientError StatusInternalServerError (resp env))
       env, tr).
Proof.
  intros Hc. unfold RedirectToLogout, exec, bind, getEnv. cbn [fst].
  rewrite Hc. reflexivity.
Qed.

(** C9, as amended.  On a request to which no client is bound,
    [RedirectToLogin] and [RedirectToLogout] call no redirect of a client
    and leave the request and the two stores alone; they add the message
    that no client is associated with the request, with a line feed, to
    the body of the response.  On a response that has not been started
    the status is 500, the content type is plain text and there is no
    Content-Length; on a response that has been started the status stays
    the one that was sent. *)
Theorem redirects_without_client (env : EnvT) (tr : list Event) :
  GetClient (req env) = None ->
  forall st',
    st' = exec (RedirectToLogin Client_RedirectToLogin) (env, tr)
    \/ st' = exec (RedirectToLogout Client_RedirectToLogout) (env, tr) ->
    snd st' = tr
    /\ req (fst st') = req env
    /\ tickets (fst st') = tickets env
    /\ sessions (fst st') = sessions env
    /\ wBody (resp (fst st')) = wBody (resp env) ++ noClientError ++ nl
    /\ (wroteHeader (resp env) = false ->
        wStatus (resp (fst st')) = 500%Z
        /\ Header_Get (wHeader (resp (fst st'))) "Content-Type"
           = "text/plain; charset=utf-8"
        /\ Header_Get (wHeader (resp (fst st'))) "X-Content-Type-Options"
           = "nosniff"
        /\ Values_Has (wHeader (resp (fst st'))) "Content-Length" = false)
    /\ (wroteHeader (resp env) = true ->
        wStatus (resp (fst st')) = wStatus (resp env)).
Proof.
  intros Hc st' Hst.
  assert (E : st' = (setResp (errorWriter noClientError 500 (resp env)) env,
                     tr)).
  { destruct Hst as [-> | ->].
    - now apply RedirectToLogin_without_client.
    - now apply RedirectToLogout_without_client. }
  subst st'. cbn [fst snd setResp resp req tickets sessions].
  do 4 (split; [reflexivity|]). split; [apply errorWriter_body|]. split.
  - intros Hw. split; [exact (proj1 (errorWriter_fresh _ _ _ Hw))|].
    apply errorWriter_header.
  - intros Hw. now apply errorWriter_started.
Qed.

End Handlers.

Import Examples MoreExamples.

Lemma performSingleLogout_deletes_by_ticket_witness :
  indexParser (FormValue sloRequest "logoutRequest") = OK (mkLogoutRequest "ST-123")
  /\ snd (exec (performSingleLogout indexParser memoryDelete exampleHandler)
            (envWith sloRequest, []))
     = [CallParseLogoutRequest "ST-123"; CallTicketsDelete "ST-123"]
  /\ tickets (fst (exec (performSingleLogout indexParser memoryDelete
                           exampleHandler) (envWith sloRequest, [])))
     = ["ST-456"]
  /\ sessions (fst (exec (performSingleLogout indexParser memoryDelete
                            exampleHandler) (envWith sloRequest, [])))
     = [("cookie-1", "ST-123"); ("cookie-2", "ST-456")].
Proof.
  split; [reflexivity|].
  pose proof (performSingleLogout_deletes_by_ticket _ _ _ indexParser memoryDelete
                exampleHandler (envWith sloRequest) (mkLogoutRequest "ST-123")
                eq_refl) as (Htrace & Htickets & Hsessions & _).
  split; [exact Htrace|]. split; [exact Htickets | exact Hsessions].
Defined.

Lemma IsSingleLogoutRequest_routes_witness :
  IsSingleLogoutRequest sloRequest = true
  /\ ~ In CallHandler
        (snd (exec (ServeHTTP indexParser memoryDelete idleGetSession
                      exampleHandler) (envWith sloRequest, [])))
  /\ IsSingleLogoutRequest pageRequest = false
  /\ snd (exec (ServeHTTP indexParser memoryDelete idleGetSession
                   exampleHandler) (envWith pageRequest, []))
     = [CallGetSession; CallHandler].
Proof.
  split; [reflexivity|]. split.
  - exact (proj1 (proj2 (proj2 (IsSingleLogoutRequest_routes _ _ _ indexParser
                                  memoryDelete idleGetSession exampleHandler
                                  (envWith sloRequest))) eq_refl)).
  - split; [reflexivity|].
    exact (f_equal snd
             (proj1 (proj2 (IsSingleLogoutRequest_routes _ _ _ indexParser
                              memoryDelete idleGetSession exampleHandler
                              (envWith pageRequest))) eq_refl)).
Defined.

(** C5, as stated, fails on the body: after a notification that parses and
    a delete that succeeds, the body is "OK" followed by a line feed, which
    [fmt.Fprintln] appends. *)
Lemma ServeHTTP_single_logout_body_has_line_feed :
  IsSingleLogoutRequest sloRequest = true
  /\ indexParser (FormValue sloRequest "logoutRequest")
     = OK (mkLogoutRequest "ST-123")
  /\ memoryDelete ["ST-123"; "ST-456"] "ST-123" = (["ST-456"], None)
  /\ wStatus (resp (fst (exec (ServeHTTP indexParser memoryDelete
                                 idleGetSession exampleHandler)
                           (envWith sloRequest, [])))) = 200%Z
  /\ wBody (resp (fst (exec (ServeHTTP indexParser memoryDelete
                               idleGetSession exampleHandler)
                         (envWith sloRequest, [])))) = "OK" ++ nl
  /\ wBody (resp (fst (exec (ServeHTTP indexParser memoryDelete
                               idleGetSession exampleHandler)
                         (envWith sloRequest, [])))) <> "OK".
Proof. repeat split; try reflexivity. discriminate. Qed.

Lemma ServeHTTP_single_logout_response_witness :
  IsSingleLogoutRequest (req (envWith sloRequest)) = true
  /\ wroteHeader (resp (envWith sloRequest)) = false
  /\ wStatus (resp (fst (exec (ServeHTTP rejectingParser memoryDelete
                                 idleGetSession exampleHandler)
                           (envWith sloRequest, [])))) = 500%Z
  /\ wBody (resp (fst (exec (ServeHTTP rejectingParser memoryDelete
                               idleGetSession exampleHandler)
                         (envWith sloRequest, []))))
     = "expected element type <LogoutRequest>" ++ nl.
Proof.
  split; [reflexivity|]. split; [reflexivity|].
  exact (proj1 (proj2 (ServeHTTP_single_logout_response _ _ _ rejectingParser
                         memoryDelete idleGetSession exampleHandler
                         (envWith sloRequest) eq_refl eq_refl))
           (errorString "expected element type <LogoutRequest>") eq_refl).
Defined.

Lemma redirects_without_client_witness :
  GetClient (req (envWith pageRequest)) = None
  /\ wroteHeader (resp (envWith pageRequest)) = false
  /\ wStatus (resp (fst (exec (RedirectToLogin redirect302)
                           (envWith pageRequest, [])))) = 500%Z
  /\ wBody (resp (fst (exec (RedirectToLogout redirect302)
                         (envWith pageRequest, []))))
     = "cas: redirect to cas failed as no client associated with request"
       ++ nl.
Proof.
  split; [reflexivity|]. split; [reflexivity|]. split.
  - exact (proj1 (proj1 (proj2 (proj2 (proj2 (proj2 (proj2
             (redirects_without_client _ _ _ redirect302 redirect302
                (envWith pageRequest) [] eq_refl _ (or_introl eq_refl)))))))
             eq_refl)).
  - exact (proj1 (proj2 (proj2 (proj2 (proj2
             (redirects_without_client _ _ _ redirect302 redirect302
                (envWith pageRequest) [] eq_refl _ (or_intror eq_refl))))))).
Defined.

(** C9, as stated, fails on a response that has been started: the status
    that was sent stays, and only the message is added to the body. *)
Lemma RedirectToLogin_on_started_response :
  GetClient (req startedPage) = None
  /\ wStatus (resp startedPage) = 200%Z
  /\ wStatus (resp (fst (exec (RedirectToLogin redirect302) (startedPage, []))))
     = 200%Z
  /\ wStatus (resp (fst (exec (RedirectToLogout redirect302)
                           (startedPage, [])))) = 200%Z
  /\ wBody (resp (fst (exec (RedirectToLogin redirect302) (startedPage, []))))
     = "hello" ++ noClientError ++ nl.
Proof. repeat split. Qed.

(** C4, as stated, fails on a form-encoded POST whose Content-Type names
    a character set: the form field logoutRequest is there and not empty,
    yet the request is not taken for a single logout request and goes to
    the wrapped handler. *)
Lemma IsSingleLogoutRequest_rejects_charset :
  Method charsetRequest = "POST"
  /\ Header_Get (ReqHdr charsetRequest) "Content-Type"
     = "application/x-www-form-urlencoded; charset=UTF-8"
  /\ formEncoded (Header_Get (ReqHdr charsetRequest) "Content-Type") = true
  /\ presentNonEmpty (Form charsetRequest) "logoutRequest"
  /\ IsSingleLogoutRequest charsetRequest = false
  /\ exec (ServeHTTP indexParser memoryDelete idleGetSession exampleHandler)
       (envWith charsetRequest, [])
     = (helloHandler (bindClient 1 (envWith charsetRequest)),
        [CallGetSession; CallHandler]).
Proof.
  split; [reflexivity|]. split; [reflexivity|]. split; [reflexivity|].
  split; [|split; reflexivity].
  exists "ST-123", []. split; [reflexivity | discriminate].
Qed.

End HandlerFacts.

(** ** Decimal numbers *)
Module StrconvFacts.
Import GoStrconv.

Lemma digitByte_digit (d : Z) :
  (0 <= d < 10)%Z ->
  isDigit (digitByte d) = true /\ digitValue (digitByte d) = d.
Proof.
  intros H.
  assert (E : (d = 0 \/ d = 1 \/ d = 2 \/ d = 3 \/ d = 4 \/ d = 5 \/ d = 6
               \/ d = 7 \/ d = 8 \/ d = 9)%Z) by lia.
  repeat (destruct E as [-> | E]; [split; reflexivity|]).
  subst d. split; reflexivity.
Qed.

Lemma mod10_digit (u : Z) :
  isDigit (digitByte (u mod 10)) = true
  /\ digitValue (digitByte (u mod 10)) = (u mod 10)%Z.
Proof. apply digitByte_digit. apply Z.mod_pos_bound. lia. Qed.

Lemma formatBits_eq (fuel : nat) (u : Z) (acc : string) :
  formatBits (S fuel) u acc =
  if (u / 10 =? 0)%Z then String (digitByte (u mod 10)) acc
  else formatBits fuel (u / 10)%Z (String (digitByte (u mod 10)) acc).
Proof. reflexivity. Qed.

Lemma formatBits_headDigit (fuel : nat) :
  forall (u : Z) (acc : string),
    headDigit (formatBits (S fuel) u acc) = true.
Proof.
  induction fuel as [|fuel IH]; intros u acc; rewrite formatBits_eq.
  - destruct (u / 10 =? 0)%Z; cbn [formatBits headDigit];
      apply (proj1 (mod10_digit u)).
  - destruct (u / 10 =? 0)%Z; [|apply IH].
    cbn [headDigit]. apply (proj1 (mod10_digit u)).
Qed.

(** Reading the digits that [formatBits] has written gives back the
    number. *)
Lemma parseDigits_formatBits (fuel : nat) :
  forall (u : Z) (acc : string),
    (0 <= u < 10 ^ Z.of_nat fuel)%Z ->
    exists m, forall a,
      parseDigits (formatBits fuel u acc) a = parseDigits acc (a * m + u)%Z.
Proof.
  induction fuel as [|fuel IH]; intros u acc Hu.
  - exists 1%Z. intros a. cbn [formatBits].
    change (10 ^ Z.of_nat 0)%Z with 1%Z in Hu. f_equal. lia.
  - rewrite formatBits_eq.
    destruct (mod10_digit u) as [Hd Hv].
    pose proof (Z.div_mod u 10 ltac:(lia)) as Hdm.
    destruct (Z.eqb_spec (u / 10) 0) as [Hz|Hz].
    + exists 10%Z. intros a. cbn [parseDigits]. rewrite Hd, Hv. f_equal. lia.
    + destruct (IH (u / 10)%Z (String (digitByte (u mod 10)) acc)) as [m Hm].
      { rewrite Nat2Z.inj_succ, Z.pow_succ_r in Hu by lia.
        split; [apply Z.div_pos; lia|].
        apply Z.div_lt_upper_bound; lia. }
      exists (m * 10)%Z. intros a. rewrite Hm. cbn [parseDigits].
      rewrite Hd, Hv. f_equal. lia.
Qed.

Lemma digit_not_sign (c : ascii) :
  isDigit c = true -> Ascii.eqb c "+" = false /\ Ascii.eqb c "-" = false.
Proof.
  intros H. split; apply Ascii.eqb_neq; intros ->; discriminate H.
Qed.

Lemma parseDigits_unsigned (u : Z) :
  (0 <= u < 10 ^ 20)%Z ->
  exists c rest,
    formatBits 20 u "" = String c rest /\ isDigit c = true
    /\ parseDigits (String c rest) 0 = Some u.
Proof.
  intros Hu.
  pose proof (formatBits_headDigit 19 u "") as Hh.
  destruct (parseDigits_formatBits 20 u "" Hu) as [m Hm].
  specialize (Hm 0%Z).
  change (parseDigits "" (0 * m + u)%Z) with (Some (0 * m + u)%Z) in Hm.
  replace (0 * m + u)%Z with u in Hm by lia.
  destruct (formatBits 20 u "") as [|c rest]; [discriminate Hh|].
  exists c, rest. repeat split; assumption.
Qed.

(** [ParseInt] reads what [FormatInt] writes. *)
Lemma ParseInt_FormatInt (i : Z) : isInt64 i -> ParseInt (FormatInt i) = OK i.
Proof.
  unfold isInt64, FormatInt. intros Hi.
  assert (H63 : (2 ^ 63 < 10 ^ 20)%Z) by reflexivity.
  assert (H0 : (0 < 2 ^ 63)%Z) by reflexivity.
  destruct (Z.ltb_spec i 0) as [Hneg|Hpos].
  - destruct (parseDigits_unsigned (- i)) as (c & rest & -> & Hc & Hp); [lia|].
    unfold ParseInt. change (Ascii.eqb "-" "-") with true.
    change (Ascii.eqb "-" "+") with false. cbn [orb negb andb].
    change (String.eqb (String c rest) "") with false. cbv iota.
    rewrite Hp. cbv zeta.
    destruct (Z.ltb_spec (2 ^ 63) (- i)) as [H|H]; [lia|].
    f_equal. lia.
  - destruct (parseDigits_unsigned i) as (c & rest & -> & Hc & Hp); [lia|].
    destruct (digit_not_sign c Hc) as [Hplus Hminus].
    unfold ParseInt. rewrite Hplus, Hminus. cbn [orb negb andb].
    change (String.eqb (String c rest) "") with false. cbv iota.
    rewrite Hp. cbv zeta.
    destruct (Z.leb_spec (2 ^ 63) i) as [H|H]; [lia | reflexivity].
Qed.

Lemma parseDigits_nonneg (s : string) :
  forall acc n, (0 <= acc)%Z -> parseDigits s acc = Some n -> (0 <= n)%Z.
Proof.
  induction s as [|c s IH]; intros acc n Ha H; cbn [parseDigits] in H.
  - inversion H. lia.
  - destruct (isDigit c); [|discriminate].
    apply (IH (acc * 10 + digitValue c)%Z n); [unfold digitValue; lia | exact H].
Qed.

(** What [ParseInt] accepts is an int64. *)
Lemma ParseInt_int64 (s : string) (n : Z) : ParseInt s = OK n -> isInt64 n.
Proof.
  unfold ParseInt, isInt64. destruct s as [|c rest]; [discriminate|].
  cbv zeta.
  destruct (String.eqb _ ""); [discriminate|].
  destruct (parseDigits _ 0) as [un|] eqn:Hp; [|discriminate].
  pose proof (parseDigits_nonneg _ _ _ (Z.le_refl 0) Hp) as Hun.
  destruct (Ascii.eqb c "-"); cbn [negb andb].
  - destruct (Z.ltb_spec (2 ^ 63) un) as [Hr|Hr]; [discriminate|].
    intros E. inversion E. lia.
  - destruct (Z.leb_spec (2 ^ 63) un) as [Hr|Hr]; [discriminate|].
    intros E. inversion E. lia.
Qed.

End StrconvFacts.

(** ** More on the validators of service_validate.go *)
Module ServiceValidateMore.
Import GoStrings GoPath GoURL GoHTTP ServiceValidate ValidatorSpec StringFacts
  URLFacts ServiceValidateFacts.

Section More.
Variable http_NewRequest : string -> string -> Result ClientRequest.
Variable ParseServiceResponse : string -> ValidationResult.

Local Abbreviation validate :=
  (ValidateTicket http_NewRequest ParseServiceResponse).

Ltac split_matches :=
  repeat match goal with
         | |- context [match ?x with _ => _ end] => destruct x
         end.

(** X1.  Whatever the protocol, the transport and the parser,
    [ValidateTicket] never returns a response together with an error. *)
Theorem ValidateTicket_response_xor_error
  (validator : ServiceTicketValidator) (serviceURL : URL) (ticket : string)
  (a : AuthenticationResponse) (e : error) :
  validate validator serviceURL ticket <> Returns (Some a, Some e).
Proof.
  unfold ValidateTicket, validateTicketCas1, validateTicketCas2,
    validateTicketCas3, ReadAll.
  split_matches; discriminate.
Qed.

Lemma ValidateTicket_unfold (validator : ServiceTicketValidator)
  (serviceURL : URL) (ticket : string) :
  validate validator serviceURL ticket =
  match builderFor validator validator serviceURL ticket with
  | Err err => Returns (None, Some err)
  | OK u =>
      match http_NewRequest "GET" u with
      | Err err => Returns (None, Some err)
      | OK r0 =>
          match client validator
                  (ClientRequest_AddHeader r0 "User-Agent" userAgent) with
          | Err err => Returns (None, Some err)
          | OK resp =>
              match BodyErr resp with
              | Some err => Returns (None, Some err)
              | None => validate validator serviceURL ticket
              end
          end
      end
  end.
Proof.
  unfold ValidateTicket, builderFor, validateTicketCas1, validateTicketCas2,
    validateTicketCas3, ReadAll.
  destruct (String.eqb (validationType validator) "CAS1");
    [|destruct (String.eqb (validationType validator) "CAS2")].
  all: split_matches; reflexivity.
Qed.

(** X2.  When the URL builder of the configured protocol fails, or
    [http.NewRequest] rejects the URL it built, [ValidateTicket] returns
    that error and no response. *)
Theorem ValidateTicket_fails_before_sending
  (validator : ServiceTicketValidator) (serviceURL : URL) (ticket : string)
  (e : error) :
  builderFor validator validator serviceURL ticket = Err e
  \/ (exists u, builderFor validator validator serviceURL ticket = OK u
              /\ http_NewRequest "GET" u = Err e) ->
  validate validator serviceURL ticket = Returns (None, Some e).
Proof.
  intros H. rewrite ValidateTicket_unfold.
  destruct H as [H | (u & Hu & Hr)].
  - now rewrite H.
  - now rewrite Hu, Hr.
Qed.

(** X3.  When the request was built and [client.Do] fails,
    [ValidateTicket] returns that error; when reading the body fails, it
    returns the read error, whatever the status and the bytes read. *)
Theorem ValidateTicket_transport_error
  (validator : ServiceTicketValidator) (serviceURL : URL) (ticket : string)
  (r : ClientRequest) :
  sends http_NewRequest (builderFor validator) validator serviceURL ticket r ->
  (forall e, client validator r = Err e ->
             validate validator serviceURL ticket = Returns (None, Some e))
  /\ (forall resp e,
        client validator r = OK resp -> BodyErr resp = Some e ->
        validate validator serviceURL ticket = Returns (None, Some e)).
Proof.
  intros (u & r0 & Hu & Hr & ->). split.
  - intros e He. rewrite ValidateTicket_unfold. now rewrite Hu, Hr, He.
  - intros resp e Hresp He. rewrite ValidateTicket_unfold.
    now rewrite Hu, Hr, Hresp, He.
Qed.

(** X4.  A response that [validateTicketCas1] returns comes without
    error and carries the user only: no attributes, the zero date, both
    login flags false and no memberships. *)
Theorem validateTicketCas1_only_user
  (validator : ServiceTicketValidator) (serviceURL : URL) (ticket : string)
  (a : AuthenticationResponse) (err : option error) :
  validateTicketCas1 http_NewRequest validator serviceURL ticket
  = Returns (Some a, err) ->
  err = None
  /\ Attributes a = [] /\ AuthenticationDate a = 0%Z
  /\ IsNewLogin a = false /\ IsRememberedLogin a = false /\ MemberOf a = [].
Proof.
  unfold validateTicketCas1, ReadAll. intros H.
  repeat match type of H with
         | context [match ?x with _ => _ end] => destruct x
         end; try discriminate H.
  inversion H; subst. repeat split.
Qed.

Lemma Cut_not_found (s sep b a : string) :
  Cut s sep = (b, a, false) -> b = s /\ a = "".
Proof.
  revert b a. induction s as [|c s IH]; intros b a H; rewrite Cut_eq in H.
  - destruct (prefix sep ""); [discriminate|]. now inversion H.
  - destruct (prefix sep (String c s)); [discriminate|].
    destruct (Cut s sep) as [[b' a'] found]. inversion H; subst.
    destruct (IH b' a eq_refl) as [-> ->]. now split.
Qed.

Lemma Replace_absent (s old new : string) (n : nat) :
  Contains s old = false -> Replace s old new n = s.
Proof.
  unfold Contains. intros H. destruct n as [|n]; [reflexivity|].
  cbn [Replace]. destruct (Cut s old) as [[b a] found]. now subst found.
Qed.

(** X5.  When the CAS 3 server answers 200 with a body other than "no"
    and two line feeds, in which the text "[Asia/Shanghai]" does not occur,
    [validateTicketCas3] hands the body to [ParseServiceResponse] as it is
    and returns what the parser makes of it. *)
Theorem validateTicketCas3_other_bodies
  (validator : ServiceTicketValidator) (serviceURL : URL)
  (ticket body : string) :
  answers http_NewRequest ValidateUrl3 validator serviceURL ticket 200 body ->
  body <> notLoggedIn ->
  Contains body "[Asia/Shanghai]" = false ->
  validateTicketCas3 http_NewRequest ParseServiceResponse validator serviceURL
    ticket
  = nilOnError (ParseServiceResponse body).
Proof.
  intros H Hno Hc.
  rewrite (cas3_after_exchange _ _ _ _ _ _ _ H).
  change (negb (200 =? StatusOK)%Z) with false. cbv iota.
  apply String.eqb_neq in Hno. rewrite Hno.
  now rewrite (Replace_absent _ _ _ _ Hc).
Qed.

End More.

Lemma splitSlash_rootedPath_slash (segs : list string) (y : string) :
  forallb plainSegment segs = true ->
  splitSlash (rootedPath segs ++ String "/" y)
  = ("" :: segs ++ splitSlash y)%list.
Proof.
  induction segs as [|x segs IH]; intros H.
  - cbn [rootedPath append splitSlash List.app].
    change (Ascii.eqb "/" "/") with true. reflexivity.
  - cbn [forallb] in H. apply andb_true_iff in H as [Hx Hs].
    apply plainSegment_inv in Hx as (_ & _ & _ & Hx).
    rewrite rootedPath_cons_eq.
    change (String "/" (x ++ rootedPath segs) ++ String "/" y)
      with (String "/" ((x ++ rootedPath segs) ++ String "/" y)).
    cbn [splitSlash]. change (Ascii.eqb "/" "/") with true. cbv iota.
    rewrite append_assoc, (splitSlash_segment _ _ Hx), (IH Hs).
    now rewrite append_nil_r.
Qed.

Lemma Clean_trailing_slash (segs more : list string) (e : string) :
  forallb plainSegment segs = true ->
  forallb plainSegment more = true ->
  rootedPath more = String "/" e ->
  Clean ((rootedPath segs ++ "/") ++ String "/" e) = rootedPath (segs ++ more).
Proof.
  intros Hs Hm He.
  assert (Hall : forallb plainSegment (segs ++ more) = true)
    by (rewrite forallb_app, Hs, Hm; reflexivity).
  destruct more as [|m more]; [discriminate He|].
  rewrite <- He, append_assoc.
  change ("/" ++ rootedPath (m :: more)) with (String "/" (rootedPath (m :: more))).
  unfold Clean. cbv zeta.
  assert (Hne : String.eqb (rootedPath segs ++ String "/" (rootedPath (m :: more))) ""
                = false) by apply append_cons_not_empty.
  assert (Hr : HasPrefix (rootedPath segs ++ String "/" (rootedPath (m :: more))) "/"
               = true).
  { destruct segs as [|x segs].
    - cbn [rootedPath append]. unfold HasPrefix. cbn [prefix].
      destruct (ascii_dec "/" "/") as [_|N]; [reflexivity | now elim N].
    - rewrite rootedPath_cons_eq. unfold HasPrefix.
      change (String "/" (x ++ rootedPath segs) ++ String "/" (rootedPath (m :: more)))
        with (String "/" ((x ++ rootedPath segs) ++ String "/" (rootedPath (m :: more)))).
      cbn [prefix]. destruct (ascii_dec "/" "/") as [_|N];
        [apply prefix_nil | now elim N]. }
  rewrite Hne, Hr, (splitSlash_rootedPath_slash _ _ Hs),
    (splitSlash_rootedPath _ Hm).
  change (fold_left (cleanStep true) ("" :: segs ++ "" :: m :: more) [])
    with (fold_left (cleanStep true) (segs ++ "" :: m :: more) []).
  rewrite fold_left_app, (fold_cleanStep_plain _ _ _ Hs).
  change (fold_left (cleanStep true) ("" :: m :: more) (rev segs ++ [])%list)
    with (fold_left (cleanStep true) (m :: more) (rev segs ++ [])%list).
  rewrite (fold_cleanStep_plain _ _ _ Hm), app_nil_r, <- rev_app_distr,
    rev_involutive.
  destruct (segs ++ m :: more)%list as [|z zs] eqn:E.
  - now destruct segs.
  - now rewrite rootedPath_concat.
Qed.

Lemma EscapedPath_empty (u : URL) :
  Path u = "" -> RawPath u = "" -> EscapedPath u = "".
Proof. intros Hp Hr. unfold EscapedPath. now rewrite Hp, Hr. Qed.

Lemma URL_Parse_endpoint (u : URL) (e tail : string) (segs more : list string) :
  plainEndpoint e more ->
  pathShape u segs tail ->
  tail = "" \/ tail = "/" ->
  URL_Parse u (Join [Path u; e]) = OK (withPath u (rootedPath (segs ++ more))).
Proof.
  intros He (Ho & Hr & Hp & Hs) Ht.
  pose proof He as (Hm & Hpm & Hne & Hc & _ & _).
  assert (Hall : forallb plainSegment (segs ++ more) = true)
    by (rewrite forallb_app, Hs, Hpm; reflexivity).
  rewrite Hp. destruct Ht as [-> | ->].
  - rewrite append_nil_r. destruct segs as [|seg segs].
    + change (Join [rootedPath []; e]) with
        (match filter (fun x => negb (String.eqb x "")) [e] with
         | [] => ""
         | es => Clean (String.concat "/" es)
         end).
      cbn [filter]. rewrite Hne. cbn [negb String.concat]. rewrite Hc.
      apply (URL_Parse_relative _ _ _ He Ho).
      apply EscapedPath_empty; [|exact Hr]. now rewrite Hp.
    + rewrite (Join_rooted _ _ _ _ Hall Hne Hm).
      exact (URL_Parse_rootedPath _ _ _ Ho Hall).
  - unfold Join. cbn [filter].
    replace (String.eqb (rootedPath segs ++ "/") "") with false
      by (symmetry; apply append_cons_not_empty).
    rewrite Hne. cbn [negb].
    change (String.concat "/" [rootedPath segs ++ "/"; e])
      with ((rootedPath segs ++ "/") ++ String "/" e).
    rewrite (Clean_trailing_slash _ _ _ Hs Hpm Hm).
    destruct (segs ++ more)%list as [|z zs] eqn:E.
    + destruct segs; [|discriminate E]. cbn in E. subst more. discriminate Hm.
    + exact (URL_Parse_rootedPath _ _ _ Ho Hall).
Qed.

(** The URL that a builder returns depends on the base through its
    scheme, user information, host and path segments only. *)
Lemma validateUrlFor_normal_form (e tail : string) (more : list string)
  (validator : ServiceTicketValidator) (serviceURL : URL) (ticket : string)
  (segs : list string) :
  plainEndpoint e more ->
  pathShape (casURL validator) segs tail ->
  tail = "" \/ tail = "/" ->
  validateUrlFor e validator serviceURL ticket
  = OK (URL_String
          (setRawQuery
             (withPath (casURL validator) (rootedPath (segs ++ more)))
             (builtQuery serviceURL ticket))).
Proof.
  intros He Hb Ht. unfold validateUrlFor.
  rewrite (URL_Parse_endpoint _ _ _ _ _ He Hb Ht).
  change (URL_Query (withPath (casURL validator) (rootedPath (segs ++ more))))
    with (@nil (string * list string)).
  now rewrite Encode_service_ticket.
Qed.

Lemma withPath_sameAuthority (u1 u2 : URL) (p : string) :
  Opaque u1 = Opaque u2 -> sameAuthority u1 u2 -> withPath u1 p = withPath u2 p.
Proof.
  intros Ho (Hs & Hu & Hh). unfold withPath. now rewrite Ho, Hs, Hu, Hh.
Qed.

Lemma validateUrlFor_agree (e t1 t2 : string) (more : list string)
  (v1 v2 : ServiceTicketValidator) (serviceURL : URL) (ticket : string)
  (segs : list string) :
  plainEndpoint e more ->
  pathShape (casURL v1) segs t1 -> pathShape (casURL v2) segs t2 ->
  t1 = "" \/ t1 = "/" -> t2 = "" \/ t2 = "/" ->
  sameAuthority (casURL v1) (casURL v2) ->
  validateUrlFor e v1 serviceURL ticket = validateUrlFor e v2 serviceURL ticket.
Proof.
  intros He H1 H2 Ht1 Ht2 Ha.
  rewrite (validateUrlFor_normal_form e t1 more v1 serviceURL ticket segs
             He H1 Ht1),
    (validateUrlFor_normal_form e t2 more v2 serviceURL ticket segs He H2 Ht2).
  rewrite (withPath_sameAuthority (casURL v1) (casURL v2)); [reflexivity| |exact Ha].
  destruct H1 as (-> & _), H2 as (-> & _). reflexivity.
Qed.

(** X6.  For CAS base URLs whose path is made of plain segments, the
    three URL builders use the scheme, the user information, the host and
    the path of the base only: two bases that differ in query, fragment or
    the flags of the URL give the same validation URLs. *)
Theorem url_builders_ignore_base_query
  (v1 v2 : ServiceTicketValidator) (serviceURL : URL) (ticket : string)
  (segs : list string) :
  pathShape (casURL v1) segs "" -> pathShape (casURL v2) segs "" ->
  sameAuthority (casURL v1) (casURL v2) ->
  ServiceValidateUrl v1 serviceURL ticket = ServiceValidateUrl v2 serviceURL ticket
  /\ ValidateUrl1 v1 serviceURL ticket = ValidateUrl1 v2 serviceURL ticket
  /\ ValidateUrl3 v1 serviceURL ticket = ValidateUrl3 v2 serviceURL ticket.
Proof.
  intros H1 H2 Ha. repeat split.
  - exact (validateUrlFor_agree _ _ _ _ _ _ serviceURL ticket _
             plainEndpoint_serviceValidate H1 H2 (or_introl eq_refl)
             (or_introl eq_refl) Ha).
  - exact (validateUrlFor_agree _ _ _ _ _ _ serviceURL ticket _
             plainEndpoint_validate H1 H2 (or_introl eq_refl)
             (or_introl eq_refl) Ha).
  - exact (validateUrlFor_agree _ _ _ _ _ _ serviceURL ticket _
             plainEndpoint_p3 H1 H2 (or_introl eq_refl)
             (or_introl eq_refl) Ha).
Qed.


Lemma builtQuery_pairs (serviceURL : URL) (ticket : string) :
  builtQuery serviceURL ticket
  = encodedPair "service" (sanitisedURLString serviceURL)
    ++ "&" ++ encodedPair "ticket" ticket.
Proof.
  unfold builtQuery, encodedPair.
  change (QueryEscape "service") with "service".
  change (QueryEscape "ticket") with "ticket".
  now rewrite !append_assoc.
Qed.

Lemma parseQuery_last_pair (fuel : nat) (m : Values) (k x : string) :
  parseQuery_fuel (S fuel) m (encodedPair k x) = Values_Add m k x.
Proof.
  rewrite <- (append_nil_r (encodedPair k x)).
  rewrite (parseQuery_pair fuel m k x "" "").
  - destruct fuel; reflexivity.
  - right. rewrite append_nil_r.
    apply (Cut_absent "&" ""), encodedPair_free_of. reflexivity.
Qed.

(** Parsing the query of a validation URL gives back the sanitised
    service URL and the ticket. *)
Lemma ParseQuery_builtQuery (serviceURL : URL) (ticket : string) :
  ParseQuery (builtQuery serviceURL ticket)
  = [("service", [sanitisedURLString serviceURL]); ("ticket", [ticket])].
Proof.
  unfold ParseQuery.
  assert (Hlen : exists n, String.length (builtQuery serviceURL ticket) = S n).
  { unfold builtQuery. cbn [append String.length]. eauto. }
  destruct Hlen as [n ->]. rewrite builtQuery_pairs.
  rewrite (parseQuery_pair (S n) [] "service" (sanitisedURLString serviceURL)
             ("&" ++ encodedPair "ticket" ticket) (encodedPair "ticket" ticket)).
  - now rewrite parseQuery_last_pair.
  - left. apply (Cut_first "&" ""), encodedPair_free_of. reflexivity.
Qed.

(** X8.  For a plain CAS base URL, each URL builder returns the base,
    its endpoint and one query; parsing that query with [url.ParseQuery]
    gives back exactly the sanitised service URL under the key service and
    the ticket under the key ticket, whatever bytes they hold. *)
Theorem validation_url_query_round_trip
  (validator : ServiceTicketValidator) (serviceURL : URL) (ticket : string)
  (segs : list string) :
  plainBase (casURL validator) segs ->
  let casBase := URL_String (casURL validator) in
  let query := builtQuery serviceURL ticket in
  ServiceValidateUrl validator serviceURL ticket
  = OK (casBase ++ "/serviceValidate" ++ "?" ++ query)
  /\ ValidateUrl1 validator serviceURL ticket
     = OK (casBase ++ "/validate" ++ "?" ++ query)
  /\ ValidateUrl3 validator serviceURL ticket
     = OK (casBase ++ "/p3/serviceValidate" ++ "?" ++ query)
  /\ ParseQuery query
     = [("service", [sanitisedURLString serviceURL]); ("ticket", [ticket])].
Proof.
  intros Hb casBase query. repeat split.
  - exact (validateUrlFor_plain _ _ _ _ _ _ plainEndpoint_serviceValidate Hb).
  - exact (validateUrlFor_plain _ _ _ _ _ _ plainEndpoint_validate Hb).
  - exact (validateUrlFor_plain _ _ _ _ _ _ plainEndpoint_p3 Hb).
  - apply ParseQuery_builtQuery.
Qed.

Import Examples MoreExamples.

Lemma ValidateTicket_fails_before_sending_witness :
  builderFor (validatorAt percentBase) (validatorAt percentBase) appService
    "ST-123"
  = Err (errorString
           ("parse " ++ quoted "/cas%/serviceValidate"
            ++ ": invalid URL escape " ++ quoted "%/s"))
  /\ ValidateTicket newRequest aliceParser (validatorAt percentBase)
       appService "ST-123"
     = Returns
         (None,
          Some (errorString
                  ("parse " ++ quoted "/cas%/serviceValidate"
                   ++ ": invalid URL escape " ++ quoted "%/s"))).
Proof.
  split; [reflexivity|].
  exact (ValidateTicket_fails_before_sending newRequest aliceParser
           (validatorAt percentBase) appService "ST-123" _
           (or_introl eq_refl)).
Defined.

Lemma ValidateTicket_transport_error_witness :
  sends newRequest
    (builderFor (NewServiceTicketValidator unreachableServer ssoBase "CAS2"))
    (NewServiceTicketValidator unreachableServer ssoBase "CAS2")
    appService "ST-123" cas2Request
  /\ ValidateTicket newRequest aliceParser
       (NewServiceTicketValidator unreachableServer ssoBase "CAS2")
       appService "ST-123"
     = Returns (None, Some (errorString "dial tcp: connection refused"))
  /\ ValidateTicket newRequest aliceParser
       (NewServiceTicketValidator truncatedServer ssoBase "CAS2")
       appService "ST-123"
     = Returns (None, Some (errorString "unexpected EOF")).
Proof.
  assert (H1 : sends newRequest
                 (builderFor (NewServiceTicketValidator unreachableServer
                                ssoBase "CAS2"))
                 (NewServiceTicketValidator unreachableServer ssoBase "CAS2")
                 appService "ST-123" cas2Request)
    by (eexists _, _; repeat split; reflexivity).
  assert (H2 : sends newRequest
                 (builderFor (NewServiceTicketValidator truncatedServer
                                ssoBase "CAS2"))
                 (NewServiceTicketValidator truncatedServer ssoBase "CAS2")
                 appService "ST-123" cas2Request)
    by (eexists _, _; repeat split; reflexivity).
  split; [exact H1|]. split.
  - exact (proj1 (ValidateTicket_transport_error newRequest aliceParser
                    _ _ _ _ H1) _ eq_refl).
  - exact (proj2 (ValidateTicket_transport_error newRequest aliceParser
                    _ _ _ _ H2) _ _ eq_refl eq_refl).
Defined.

Lemma validateTicketCas1_only_user_witness :
  validateTicketCas1 newRequest (validatorFor "CAS1" 200 yesAlice) appService
    "ST-123"
  = Returns (Some (AuthenticationResponse_ofUser "alice"), None)
  /\ Attributes (AuthenticationResponse_ofUser "alice") = [].
Proof.
  split; [reflexivity|].
  exact (proj1 (proj2 (validateTicketCas1_only_user newRequest
                         (validatorFor "CAS1" 200 yesAlice) appService "ST-123"
                         (AuthenticationResponse_ofUser "alice") None
                         eq_refl))).
Defined.

Lemma validateTicketCas3_other_bodies_witness :
  answers newRequest ValidateUrl3
    (validatorFor "CAS3" 200 (successWithZone "[Europe/Paris]"))
    appService "ST-123" 200 (successWithZone "[Europe/Paris]")
  /\ Contains (successWithZone "[Europe/Paris]") "[Asia/Shanghai]" = false
  /\ validateTicketCas3 newRequest echoParser
       (validatorFor "CAS3" 200 (successWithZone "[Europe/Paris]"))
       appService "ST-123"
     = nilOnError (echoParser (successWithZone "[Europe/Paris]")).
Proof.
  assert (H : answers newRequest ValidateUrl3
                (validatorFor "CAS3" 200 (successWithZone "[Europe/Paris]"))
                appService "ST-123" 200 (successWithZone "[Europe/Paris]"))
    by exchange_by_computation.
  split; [exact H|]. split; [reflexivity|].
  refine (validateTicketCas3_other_bodies newRequest echoParser _ _ _ _ H _
            eq_refl).
  discriminate.
Defined.

Lemma ssoBase_shape : pathShape ssoBase ["cas"] "".
Proof. repeat split. Qed.

Lemma url_builders_ignore_base_query_witness :
  pathShape (casURL (validatorAt queryBase)) ["cas"] ""
  /\ sameAuthority (casURL (validatorAt queryBase)) (casURL (validatorAt ssoBase))
  /\ ServiceValidateUrl (validatorAt queryBase) appService "ST-123"
     = ServiceValidateUrl (validatorAt ssoBase) appService "ST-123".
Proof.
  assert (H1 : pathShape (casURL (validatorAt queryBase)) ["cas"] "")
    by (repeat split).
  assert (Ha : sameAuthority (casURL (validatorAt queryBase))
                 (casURL (validatorAt ssoBase))) by (repeat split).
  split; [exact H1|]. split; [exact Ha|].
  exact (proj1 (url_builders_ignore_base_query (validatorAt queryBase)
                  (validatorAt ssoBase) appService "ST-123" ["cas"]
                  H1 ssoBase_shape Ha)).
Defined.


Lemma validation_url_query_round_trip_witness :
  plainBase (casURL (validatorAt ssoBase)) ["cas"]
  /\ ParseQuery (builtQuery appService "ST 1&x=%2F")
     = [("service", ["https://app.example.com/secure?lang=en"]);
        ("ticket", ["ST 1&x=%2F"])].
Proof.
  split; [exact ssoBase_plain|].
  exact (proj2 (proj2 (proj2 (validation_url_query_round_trip
                                (validatorAt ssoBase) appService "ST 1&x=%2F"
                                ["cas"] ssoBase_plain)))).
Defined.

End ServiceValidateMore.

(** ** More on the helpers of http_helpers.go and on the handler *)
Module HelperFacts.
Import GoStrings GoURL GoHTTP GoStrconv ServiceValidate Handler Helpers
  StringFacts StrconvFacts HandlerFacts.

Lemma lookup_Attributes_set (attrs : UserAttributes) (k : string)
  (v : list string) :
  Values_lookup (Attributes_set attrs k v) k = Some v.
Proof.
  induction attrs as [|[k' v'] attrs IH]; cbn [Attributes_set Values_lookup].
  - now rewrite String.eqb_refl.
  - destruct (String.eqb k' k) eqn:E; cbn [Values_lookup].
    + now rewrite String.eqb_refl.
    + now rewrite E.
Qed.

Lemma lookup_Attributes_set_other (attrs : UserAttributes) (k k2 : string)
  (v : list string) :
  k2 <> k ->
  Values_lookup (Attributes_set attrs k v) k2 = Values_lookup attrs k2.
Proof.
  intros Hk. apply String.eqb_neq in Hk.
  induction attrs as [|[k' v'] attrs IH]; cbn [Attributes_set Values_lookup].
  - rewrite String.eqb_sym. now rewrite Hk.
  - destruct (String.eqb_spec k' k) as [->|N]; cbn [Values_lookup].
    + rewrite (String.eqb_sym k k2). now rewrite Hk.
    + now rewrite IH.
Qed.

Lemma Attributes_set_not_empty (attrs : UserAttributes) (k : string)
  (v : list string) :
  Nat.eqb (List.length (Attributes_set attrs k v)) 0 = false.
Proof.
  destruct attrs as [|[k' v'] attrs]; cbn [Attributes_set]; [reflexivity|].
  destruct (String.eqb k' k); reflexivity.
Qed.

Section UserId.
Variable Client : Type.
Variable TicketStore : Type.
Variable SessionStore : Type.

Local Abbreviation StateT := (State Client TicketStore SessionStore).

Lemma get_after_set (a : option AuthenticationResponse) (st : StateT) :
  getAuthenticationResponse
    (req (fst (exec (setAuthenticationResponse a) st))) = a.
Proof. destruct st as [env tr]. now destruct a. Qed.

Lemma SetCurrentUserId_returns (userId : Z) (st : StateT) :
  SetCurrentUserId userId st =
  let a := match getAuthenticationResponse (req (fst st)) with
           | Some a => a
           | None => emptyAuthenticationResponse
           end in
  Returns
    (exec (setAuthenticationResponse
             (Some (withAttributes a
                      (Attributes_set (ServiceValidate.Attributes a) "uid"
                         [FormatInt userId]))))
       (match getAuthenticationResponse (req (fst st)) with
        | Some _ => st
        | None =>
            exec (setAuthenticationResponse (Some emptyAuthenticationResponse))
              st
        end)).
Proof.
  unfold SetCurrentUserId.
  destruct (getAuthenticationResponse (req (fst st))) as [a|] eqn:E.
  - now rewrite E.
  - now rewrite get_after_set.
Qed.

(** X12.  [SetCurrentUserId] always returns, and for every int64 the
    user id that [GetCurrentUserId] then reads from the request is the one
    that was set. *)
Theorem GetCurrentUserId_after_SetCurrentUserId (userId : Z) (st : StateT) :
  isInt64 userId ->
  exists st',
    SetCurrentUserId userId st = Returns st'
    /\ GetCurrentUserId (req (fst st')) = Returns userId.
Proof.
  intros Hi. rewrite SetCurrentUserId_returns. cbv zeta.
  eexists. split; [reflexivity|].
  unfold GetCurrentUserId. rewrite get_after_set.
  cbn [withAttributes ServiceValidate.Attributes].
  rewrite Attributes_set_not_empty, lookup_Attributes_set. cbn [negb].
  now rewrite (ParseInt_FormatInt _ Hi).
Qed.

(** X13.  On a request without authentication response,
    [SetCurrentUserId] binds a new response: afterwards the request counts
    as authenticated, with the empty user name and the attribute uid as
    its only attribute. *)
Theorem SetCurrentUserId_authenticates (userId : Z) (st : StateT) :
  IsAuthenticated (req (fst st)) = false ->
  exists st',
    SetCurrentUserId userId st = Returns st'
    /\ IsAuthenticated (req (fst st')) = true
    /\ Username (req (fst st')) = ""
    /\ Attributes (req (fst st')) = [("uid", [FormatInt userId])].
Proof.
  intros Ha. rewrite SetCurrentUserId_returns. cbv zeta.
  eexists. split; [reflexivity|].
  unfold IsAuthenticated, Username, Attributes in *. rewrite !get_after_set.
  destruct (getAuthenticationResponse (req (fst st))); [discriminate|].
  repeat split.
Qed.

(** X14.  On an authenticated request, [SetCurrentUserId] replaces the
    values of the attribute uid by the one decimal text of the id and
    changes nothing else: the other attributes, the user, the date, the
    flags and the memberships, the client bound to the request, the
    response and the calls made so far stay as they were. *)
Theorem SetCurrentUserId_keeps_the_rest (userId : Z) (st : StateT)
  (a : AuthenticationResponse) :
  getAuthenticationResponse (req (fst st)) = Some a ->
  exists st' a',
    SetCurrentUserId userId st = Returns st'
    /\ getAuthenticationResponse (req (fst st')) = Some a'
    /\ Values_lookup (ServiceValidate.Attributes a') "uid"
       = Some [FormatInt userId]
    /\ (forall k, k <> "uid" ->
          Values_lookup (ServiceValidate.Attributes a') k
          = Values_lookup (ServiceValidate.Attributes a) k)
    /\ AuthUser a' = AuthUser a
    /\ ServiceValidate.AuthenticationDate a' = ServiceValidate.AuthenticationDate a
    /\ ServiceValidate.IsNewLogin a' = ServiceValidate.IsNewLogin a
    /\ ServiceValidate.IsRememberedLogin a' = ServiceValidate.IsRememberedLogin a
    /\ ServiceValidate.MemberOf a' = ServiceValidate.MemberOf a
    /\ GetClient (req (fst st')) = GetClient (req (fst st))
    /\ resp (fst st') = resp (fst st) /\ snd st' = snd st.
Proof.
  intros Ha. rewrite SetCurrentUserId_returns, Ha. cbv zeta.
  eexists. eexists. split; [reflexivity|].
  rewrite get_after_set. split; [reflexivity|].
  cbn [withAttributes ServiceValidate.Attributes AuthUser
       ServiceValidate.AuthenticationDate ServiceValidate.IsNewLogin
       ServiceValidate.IsRememberedLogin ServiceValidate.MemberOf].
  split; [apply lookup_Attributes_set|].
  split; [intros k Hk; now apply lookup_Attributes_set_other|].
  destruct st as [env tr]. repeat split.
Qed.

(** X15.  When the authenticated user has the attribute uid with an
    empty list of values, [GetCurrentUserId] panics on [v[0]]. *)
Theorem GetCurrentUserId_panics_without_values (r : Request Client)
  (a : AuthenticationResponse) :
  getAuthenticationResponse r = Some a ->
  Values_lookup (ServiceValidate.Attributes a) "uid" = Some [] ->
  GetCurrentUserId r = Panics.
Proof.
  intros Ha Hu. unfold GetCurrentUserId. rewrite Ha, Hu.
  destruct (ServiceValidate.Attributes a); [discriminate Hu | reflexivity].
Qed.

(** X16.  Whatever [GetCurrentUserId] returns lies in the range of
    int64; and when it is not 0, the request is authenticated and the
    result is what [ParseInt] makes of the first value of the attribute
    uid. *)
Theorem GetCurrentUserId_result (r : Request Client) (n : Z) :
  GetCurrentUserId r = Returns n ->
  isInt64 n
  /\ (n <> 0%Z ->
      exists a v0 vs,
        getAuthenticationResponse r = Some a
        /\ Values_lookup (ServiceValidate.Attributes a) "uid" = Some (v0 :: vs)
        /\ ParseInt v0 = OK n).
Proof.
  unfold GetCurrentUserId. intros H.
  assert (Hz : isInt64 0) by (unfold isInt64; split; [discriminate | reflexivity]).
  assert (Hzero : Returns 0%Z = Returns n ->
                  isInt64 n
                  /\ (n <> 0%Z ->
                      exists a v0 vs,
                        getAuthenticationResponse r = Some a
                        /\ Values_lookup (ServiceValidate.Attributes a) "uid"
                           = Some (v0 :: vs)
                        /\ ParseInt v0 = OK n)).
  { intros E. inversion E; subst. split; [exact Hz | now intros N]. }
  destruct (getAuthenticationResponse r) as [a|] eqn:Ha; [|exact (Hzero H)].
  destruct (negb _); [|exact (Hzero H)].
  destruct (Values_lookup _ "uid") as [[|v0 vs]|] eqn:Hu;
    [discriminate H | | exact (Hzero H)].
  destruct (ParseInt v0) as [uid|e] eqn:Hp; [|exact (Hzero H)].
  inversion H; subst. split; [exact (ParseInt_int64 _ _ Hp)|].
  intros _. exists a, v0, vs. repeat split; assumption.
Qed.

End UserId.

Section ContextFacts.
Variable Client : Type.
Variable TicketStore : Type.
Variable SessionStore : Type.
Local Abbreviation StateT := (State Client TicketStore SessionStore).
Local Abbreviation EnvT := (Env Client TicketStore SessionStore).

(** X9.  After [SetClient(r, c)], [GetClient] returns [c], also when [c]
    is nil and when another client was bound before; the authentication
    response of the request, the outcome of [IsSingleLogoutRequest], the
    response and the calls made so far are not touched. *)
Theorem GetClient_after_SetClient (c : option Client) (st : StateT) :
  let st' := exec (SetClient c) st in
  GetClient (req (fst st')) = c
  /\ getAuthenticationResponse (req (fst st'))
     = getAuthenticationResponse (req (fst st))
  /\ IsSingleLogoutRequest (req (fst st'))
     = IsSingleLogoutRequest (req (fst st))
  /\ (forall c2, GetClient (req (fst (exec (SetClient c2) st'))) = c2)
  /\ resp (fst st') = resp (fst st) /\ snd st' = snd st.
Proof.
  destruct st as [env tr]. cbv zeta. repeat split.
Qed.

(** X10.  After [setAuthenticationResponse(r, a)] the request is
    authenticated and every accessor returns the field of [a] it is named
    after; the client bound to the request is not touched; and binding nil
    afterwards makes the request unauthenticated again. *)
Theorem accessors_after_setAuthenticationResponse
  (a : AuthenticationResponse) (st : StateT) :
  let r := req (fst (exec (setAuthenticationResponse (Some a)) st)) in
  IsAuthenticated r = true
  /\ Username r = AuthUser a
  /\ Attributes r = ServiceValidate.Attributes a
  /\ AuthenticationDate r = ServiceValidate.AuthenticationDate a
  /\ IsNewLogin r = ServiceValidate.IsNewLogin a
  /\ IsRememberedLogin r = ServiceValidate.IsRememberedLogin a
  /\ MemberOf r = ServiceValidate.MemberOf a
  /\ GetClient r = GetClient (req (fst st))
  /\ IsAuthenticated
       (req (fst (exec (setAuthenticationResponse None)
                    (exec (setAuthenticationResponse (Some a)) st)))) = false.
Proof. destruct st as [env tr]. cbv zeta. repeat split. Qed.

(** X11.  On a request that is not authenticated every accessor returns
    its zero value: the empty user name, no attributes, the zero date,
    false flags, no memberships and the user id 0. *)
Theorem accessors_without_authentication (r : Request Client) :
  IsAuthenticated r = false ->
  Username r = "" /\ Attributes r = [] /\ AuthenticationDate r = 0%Z
  /\ IsNewLogin r = false /\ IsRememberedLogin r = false /\ MemberOf r = []
  /\ GetCurrentUserId r = Returns 0%Z.
Proof.
  unfold IsAuthenticated, Username, Attributes, AuthenticationDate, IsNewLogin,
    IsRememberedLogin, MemberOf, GetCurrentUserId.
  destruct (getAuthenticationResponse r); [discriminate|]. repeat split.
Qed.

Variable RoleListResponse : Type.
Variable PermissionListResponse : Type.
Variable UserInfoResponse : Type.
Variable Client_PermissionValidateForRequest :
  Client -> Request Client -> option error.
Variable Client_RoleList :
  Client -> Request Client -> list RoleListResponse * option error.
Variable Client_PermissionList :
  Client -> Request Client -> Z -> list PermissionListResponse * option error.
Variable Client_UserInfo : Client -> Z -> option UserInfoResponse * option error.

(** X17.  On a request to which no client is bound, [HasPermission]
    answers false and [RoleList], [PermissionList], [UserInfo],
    [UserInfoDetail] and [DepartmentInfo] return no result and the error
    "no client associated with request". *)
Theorem client_calls_without_client (r : Request Client) (roleId userId : Z) :
  GetClient r = None ->
  HasPermission Client_PermissionValidateForRequest r = false
  /\ RoleList Client_RoleList r = ([], Some noClientAssociated)
  /\ PermissionList Client_PermissionList r roleId
     = ([], Some noClientAssociated)
  /\ UserInfo Client_UserInfo r userId = (None, Some noClientAssociated)
  /\ UserInfoDetail Client_UserInfo r userId = (None, Some noClientAssociated)
  /\ DepartmentInfo Client_UserInfo r userId = (None, Some noClientAssociated)
  /\ Error noClientAssociated = "no client associated with request".
Proof.
  intros Hc. unfold HasPermission, RoleList, PermissionList, UserInfo,
    UserInfoDetail, DepartmentInfo. rewrite Hc. repeat split.
Qed.

(** X18.  [HasPermission] answers true exactly when a client is bound to
    the request and its [PermissionValidateForRequest] returns no error. *)
Theorem HasPermission_iff (r : Request Client) :
  HasPermission Client_PermissionValidateForRequest r = true <->
  exists c, GetClient r = Some c
            /\ Client_PermissionValidateForRequest c r = None.
Proof.
  unfold HasPermission. split.
  - destruct (GetClient r) as [c|]; [|discriminate].
    destruct (Client_PermissionValidateForRequest c r) eqn:E; [discriminate|].
    intros _. now exists c.
  - intros (c & -> & ->). reflexivity.
Qed.

(** X19.  [UserInfoDetail] and [DepartmentInfo] return what [UserInfo]
    returns, on every request and for every user id: all three call
    [c.UserInfo]. *)
Theorem UserInfoDetail_and_DepartmentInfo_are_UserInfo
  (r : Request Client) (userId : Z) :
  UserInfoDetail Client_UserInfo r userId = UserInfo Client_UserInfo r userId
  /\ DepartmentInfo Client_UserInfo r userId = UserInfo Client_UserInfo r userId.
Proof. split; reflexivity. Qed.

Variable parseLogoutRequest : string -> Result logoutRequest.
Variable TicketStore_Delete : TicketStore -> string -> TicketStore * option error.
Variable Client_GetSession : Client -> EnvT -> EnvT.
Variable Client_RedirectToLogin : Client -> EnvT -> EnvT.
Variable Client_RedirectToLogout : Client -> EnvT -> EnvT.

Local Abbreviation serve :=
  (ServeHTTP parseLogoutRequest TicketStore_Delete Client_GetSession).

(** X20.  [ServeHTTP] hands to [parseLogoutRequest] nothing but the
    form value logoutRequest of a request that [IsSingleLogoutRequest]
    accepts, and never the empty payload. *)
Theorem ServeHTTP_never_parses_empty_payload
  (ch : clientHandler Client TicketStore SessionStore) (env : EnvT)
  (rawXML : string) :
  In (CallParseLogoutRequest rawXML) (snd (exec (serve ch) (env, []))) ->
  rawXML <> ""
  /\ rawXML = FormValue (req env) "logoutRequest"
  /\ IsSingleLogoutRequest (req env) = true.
Proof.
  rewrite ServeHTTP_exec.
  destruct (IsSingleLogoutRequest (req env)) eqn:Hslo.
  - rewrite performSingleLogout_exec. cbv zeta.
    change (FormValue (req (bindClient (c ch) env)) "logoutRequest")
      with (FormValue (req env) "logoutRequest").
    intros Hin.
    assert (E : rawXML = FormValue (req env) "logoutRequest").
    { destruct (parseLogoutRequest (FormValue (req env) "logoutRequest"))
        as [lr|err].
      - destruct (TicketStore_Delete (tickets (bindClient (c ch) env))
                    (SessionIndex lr)) as [store d].
        cbn [snd app] in Hin.
        destruct Hin as [H|[H|[]]]; [now inversion H | discriminate H].
      - cbn [snd app] in Hin. destruct Hin as [H|[]]. now inversion H. }
    split; [|now split]. rewrite E.
    apply (proj1 (IsSingleLogoutRequest_iff _ (req env))) in Hslo.
    destruct Hslo as (_ & _ & Hf).
    now apply FormValue_nonempty.
  - cbn [snd app]. intros [H|[H|[]]]; discriminate H.
Qed.

(** X21.  Once [SetClient] has bound a client to the request,
    [RedirectToLogin] and [RedirectToLogout] call the redirect of that
    client, on the request that carries the binding, and write no error of
    their own. *)
Theorem redirects_after_SetClient (c : Client) (env : EnvT) (tr : list Event) :
  exec (RedirectToLogin Client_RedirectToLogin)
    (exec (SetClient (Some c)) (env, tr))
  = (Client_RedirectToLogin c (bindClient c env),
     (tr ++ [CallRedirectToLogin])%list)
  /\ exec (RedirectToLogout Client_RedirectToLogout)
       (exec (SetClient (Some c)) (env, tr))
     = (Client_RedirectToLogout c (bindClient c env),
        (tr ++ [CallRedirectToLogout])%list).
Proof. split; reflexivity. Qed.

(** X22.  A request whose Content-Type is
    application/x-www-form-urlencoded followed by anything more, such as a
    charset parameter, is not taken for a single logout request: [ServeHTTP]
    calls [GetSession] and the wrapped handler. *)
Theorem content_type_with_parameter_is_not_logout
  (ch : clientHandler Client TicketStore SessionStore) (env : EnvT)
  (parameter : string) :
  Header_Get (ReqHdr (req env)) "Content-Type" = formContentType ++ parameter ->
  parameter <> "" ->
  IsSingleLogoutRequest (req env) = false
  /\ exec (serve ch) (env, [])
     = (h ch (Client_GetSession (c ch) (bindClient (c ch) env)),
        [CallGetSession; CallHandler]).
Proof.
  intros Hct Hp.
  assert (Hslo : IsSingleLogoutRequest (req env) = false).
  { destruct (IsSingleLogoutRequest (req env)) eqn:E; [|reflexivity].
    apply (proj1 (IsSingleLogoutRequest_iff _ (req env))) in E.
    destruct E as (_ & E & _). rewrite Hct in E. exfalso. apply Hp.
    apply (f_equal String.length) in E. rewrite length_append in E.
    destruct parameter; [reflexivity|].
    unfold formContentType in E. simpl in E. lia. }
  split; [exact Hslo|]. rewrite ServeHTTP_exec, Hslo. reflexivity.
Qed.

End ContextFacts.

Import Examples MoreExamples.

Lemma accessors_without_authentication_witness :
  IsAuthenticated pageRequest = false
  /\ Username pageRequest = ""
  /\ GetCurrentUserId pageRequest = Returns 0%Z.
Proof.
  split; [reflexivity|].
  pose proof (accessors_without_authentication _ pageRequest eq_refl)
    as (Hu & _ & _ & _ & _ & _ & Hid).
  split; [exact Hu | exact Hid].
Defined.

Lemma GetCurrentUserId_after_SetCurrentUserId_witness :
  isInt64 (- 9223372036854775808)
  /\ exists st',
       SetCurrentUserId (- 9223372036854775808) (stateOf (requestOf (Some alice)))
       = Returns st'
       /\ GetCurrentUserId (req (fst st')) = Returns (- 9223372036854775808)%Z.
Proof.
  assert (H : isInt64 (- 9223372036854775808))
    by (split; [discriminate | reflexivity]).
  split; [exact H|].
  exact (GetCurrentUserId_after_SetCurrentUserId _ _ _ _
           (stateOf (requestOf (Some alice))) H).
Defined.

Lemma SetCurrentUserId_authenticates_witness :
  IsAuthenticated (req (fst (stateOf pageRequest))) = false
  /\ exists st',
       SetCurrentUserId 42 (stateOf pageRequest) = Returns st'
       /\ IsAuthenticated (req (fst st')) = true
       /\ Username (req (fst st')) = ""
       /\ Attributes (req (fst st')) = [("uid", ["42"])].
Proof.
  split; [reflexivity|].
  exact (SetCurrentUserId_authenticates _ _ _ 42 (stateOf pageRequest) eq_refl).
Defined.

Lemma SetCurrentUserId_keeps_the_rest_witness :
  getAuthenticationResponse (req (fst (stateOf (requestOf (Some alice)))))
  = Some alice
  /\ exists st' a',
       SetCurrentUserId 7 (stateOf (requestOf (Some alice))) = Returns st'
       /\ getAuthenticationResponse (req (fst st')) = Some a'
       /\ Values_lookup (ServiceValidate.Attributes a') "uid" = Some ["7"]
       /\ Values_lookup (ServiceValidate.Attributes a') "mail"
          = Some ["alice@example.com"].
Proof.
  split; [reflexivity|].
  destruct (SetCurrentUserId_keeps_the_rest _ _ _ 7
              (stateOf (requestOf (Some alice))) alice eq_refl)
    as (st' & a' & Hset & Hget & Huid & Hother & _).
  exists st', a'. split; [exact Hset|]. split; [exact Hget|].
  split; [exact Huid|].
  exact (eq_trans (Hother "mail" ltac:(discriminate)) eq_refl).
Defined.

Lemma GetCurrentUserId_panics_without_values_witness :
  getAuthenticationResponse (requestOf (Some noUidValue)) = Some noUidValue
  /\ Values_lookup (ServiceValidate.Attributes noUidValue) "uid" = Some []
  /\ GetCurrentUserId (requestOf (Some noUidValue)) = Panics.
Proof.
  split; [reflexivity|]. split; [reflexivity|].
  exact (GetCurrentUserId_panics_without_values _
           (requestOf (Some noUidValue)) noUidValue eq_refl eq_refl).
Defined.

Lemma GetCurrentUserId_result_witness :
  GetCurrentUserId (requestOf (Some alice)) = Returns 41%Z /\ isInt64 41.
Proof.
  split; [reflexivity|].
  exact (proj1 (GetCurrentUserId_result _ (requestOf (Some alice)) 41 eq_refl)).
Defined.

Lemma client_calls_without_client_witness :
  GetClient pageRequest = None
  /\ HasPermission grantAll pageRequest = false.
Proof.
  split; [reflexivity|].
  exact (proj1 (client_calls_without_client nat nat nat nat grantAll
                  (fun (_ : nat) (_ : Request nat) =>
                     (@nil nat, @None error))
                  (fun (_ : nat) (_ : Request nat) (_ : Z) =>
                     (@nil nat, @None error))
                  (fun (_ : nat) (_ : Z) => (@None nat, @None error))
                  pageRequest 1 1 eq_refl)).
Defined.

Lemma HasPermission_iff_witness :
  (exists c, GetClient boundRequest = Some c /\ grantAll c boundRequest = None)
  /\ HasPermission grantAll boundRequest = true.
Proof.
  assert (H : exists c, GetClient boundRequest = Some c
                        /\ grantAll c boundRequest = None)
    by (exists 1; split; reflexivity).
  split; [exact H|].
  exact (proj2 (HasPermission_iff nat grantAll boundRequest) H).
Defined.

Lemma ServeHTTP_never_parses_empty_payload_witness :
  In (CallParseLogoutRequest "ST-123")
    (snd (exec (ServeHTTP indexParser memoryDelete idleGetSession
                  exampleHandler) (envWith sloRequest, [])))
  /\ "ST-123" <> "".
Proof.
  assert (H : In (CallParseLogoutRequest "ST-123")
                (snd (exec (ServeHTTP indexParser memoryDelete idleGetSession
                              exampleHandler) (envWith sloRequest, []))))
    by (left; reflexivity).
  split; [exact H|].
  exact (proj1 (ServeHTTP_never_parses_empty_payload _ _ _ indexParser
                  memoryDelete idleGetSession exampleHandler
                  (envWith sloRequest) "ST-123" H)).
Defined.

Lemma content_type_with_parameter_is_not_logout_witness :
  Header_Get (ReqHdr (req (envWith charsetRequest))) "Content-Type"
  = formContentType ++ "; charset=UTF-8"
  /\ IsSingleLogoutRequest (req (envWith charsetRequest)) = false
  /\ snd (exec (ServeHTTP indexParser memoryDelete idleGetSession
                   exampleHandler) (envWith charsetRequest, []))
     = [CallGetSession; CallHandler].
Proof.
  split; [reflexivity|].
  pose proof (content_type_with_parameter_is_not_logout _ _ _ indexParser
                memoryDelete idleGetSession exampleHandler
                (envWith charsetRequest) "; charset=UTF-8" eq_refl
                ltac:(discriminate)) as [Hslo Hserve].
  split; [exact Hslo|]. exact (f_equal snd Hserve).
Defined.

End HelperFacts.
